(** * Content workflow agent: the orchestration core of [main.py]

    A shallow embedding of [run_with_retry] and [run_workflow] (src/main.py)
    and of the prompt helpers they call
    ([format_content_for_evaluation] of src/ai_agents/evaluator_agent.py
    and its siblings).  src/streamlit_app.py repeats [run_with_retry]
    word for word and the write/evaluate loop with progress callbacks
    added; the embedding follows main.py.

    The agents are remote language models.  They are modelled as an
    environment: a function telling, for the k-th call issued by the
    program, what [asyncio.wait_for(Runner.run(agent, input), timeout)]
    does (hands something back, times out, raises).  The program is
    written in a state-and-exception monad over a trace that records
    every call issued and every [asyncio.sleep] performed, in order.
    Console output ([print]) is not modelled, nor are exceptions outside
    [Exception] (cancellation, keyboard interrupt). *)

From Stdlib Require Import Ascii String QArith Qabs Qround.
From stdpp Require Import base option list strings pretty gmap.

Local Set Warnings "-register-all".
Local Close Scope Q_scope.

(** ** Python values *)

(** [ContentEvaluation] (evaluator_agent.py, lines 52-64).  Python floats
    are modelled by rationals: every finite float is one, and the only
    float operation of the orchestrator, the comparison [>], is exact. *)
Record ContentEvaluation := {
  authenticity_score : Q;
  quality_score : Q;
  completeness_score : Q;
  depth_score : Q;
  overall_score : Q;
  approved : bool;
  needs_rewrite : bool;
  strengths : list string;
  weaknesses : list string;
  specific_feedback : string
}.

(** [SocialMediaContent] (social_media_agent.py, lines 52-71). *)
Record SocialMediaContent := {
  tiktok_hook : string;
  tiktok_script : string;
  tiktok_cta : string;
  linkedin_hook : string;
  linkedin_body : string;
  linkedin_cta : string;
  linkedin_hashtags : list string;
  instagram_hook : string;
  instagram_body : string;
  instagram_cta : string;
  instagram_hashtags : list string
}.

(** [StoredPost], [StorageResult] (storage_agent.py, lines 20-34). *)
Record StoredPost := {
  stored_platform : string;
  stored_title : string;
  notion_link : string
}.

Record StorageResult := {
  master_content_link : string;
  stored_posts : list StoredPost;
  storage_success : bool;
  storage_message : string
}.

(** [ScheduledPost], [SchedulingResult] (scheduler_agent.py, lines 22-36). *)
Record ScheduledPost := {
  scheduled_platform : string;
  scheduled_title : string;
  scheduled_time : string;
  calendar_link : string
}.

Record SchedulingResult := {
  scheduled_posts : list ScheduledPost;
  scheduling_success : bool;
  scheduling_message : string
}.

(** What an agent run can carry in [final_output]. *)
Inductive PyVal :=
  | VNone
  | VStr (s : string)
  | VEval (e : ContentEvaluation)
  | VSocial (s : SocialMediaContent)
  | VStorage (r : StorageResult)
  | VSchedule (r : SchedulingResult).

(** Python truthiness: [None] and the empty string are false, dataclass
    instances (no [__bool__], no [__len__]) are true. *)
Definition truthy (v : PyVal) : bool :=
  match v with
  | VNone => false
  | VStr s => negb (String.eqb s "")
  | _ => true
  end.

(** A parsed JSON document, as [json.loads] builds it.  A dict keeps its
    keys in insertion order, without repetition. *)
Inductive json :=
  | JNull
  | JBool (b : bool)
  | JNum (q : Q)
  | JStr (s : string)
  | JList (l : list json)
  | JDict (kvs : list (string * json)).

(** ** Exceptions, outcomes, the world *)

Inductive exn :=
  | TimeoutError
  | AgentError (detail : string)
  | JSONDecodeError
  | KeyError (key : string)
  | TypeError
  | AttributeError.

Inductive Agent :=
  | research_agent
  | master_content_agent
  | evaluator_agent
  | social_media_agent
  | storage_agent
  | scheduler_agent.

Global Instance Agent_eq_dec : EqDecision Agent.
Proof. solve_decision. Defined.

(** The object [Runner.run] returns. *)
Record RunResult := { final_output : PyVal }.

(** What the awaited call hands back when it completes: [None], an object
    without a [final_output] attribute, or a result. *)
Inductive Returned :=
  | RetNone
  | RetBare
  | RetResult (r : RunResult).

Inductive Outcome :=
  | Completed (r : Returned)
  | Raised (e : exn).

Record Call := {
  call_agent : Agent;
  call_input : string;
  call_timeout : nat
}.

(** The effects of a run, oldest first: the calls issued and the waits of
    [asyncio.sleep]. *)
Inductive Event :=
  | Called (c : Call)
  | Slept (d : nat).

Abbreviation World := (list Event).

Fixpoint calls (w : World) : list Call :=
  match w with
  | [] => []
  | Called c :: w' => c :: calls w'
  | Slept _ :: w' => calls w'
  end.

Fixpoint sleeps (w : World) : list nat :=
  match w with
  | [] => []
  | Called _ :: w' => sleeps w'
  | Slept d :: w' => d :: sleeps w'
  end.

(** Everything outside the repository. [wait_for_run agent input timeout k]
    is the outcome of [asyncio.wait_for(Runner.run(agent, input=input),
    timeout=timeout)] when [k] calls were issued before it. *)
Record Env := {
  wait_for_run : Agent → string → nat → nat → Outcome;
  json_loads : string → option json;
  py_str : json → string;
  float_str : Q → string
}.

(** ** The monad *)

Inductive Res (A : Type) :=
  | Ok (a : A)
  | Exc (e : exn).
Arguments Ok {A} a.
Arguments Exc {A} e.

Definition M (A : Type) : Type := World → Res A * World.

Definition ret {A} (a : A) : M A := fun w => (Ok a, w).

Definition raise {A} (e : exn) : M A := fun w => (Exc e, w).

Definition bind {A B} (m : M A) (k : A → M B) : M B :=
  fun w =>
    match m w with
    | (Ok a, w') => k a w'
    | (Exc e, w') => (Exc e, w')
    end.

Definition try_except {A} (m : M A) (handler : exn → M A) : M A :=
  fun w =>
    match m w with
    | (Ok a, w') => (Ok a, w')
    | (Exc e, w') => handler e w'
    end.

Definition lift {A} (r : Res A) : M A := fun w => (r, w).

Notation "'let!' x ':=' m 'in' k" := (bind m (fun x => k))
  (at level 10, x name, m at level 100, k at level 200).

(** ** Python built-ins used by the helpers *)

(** [x > y] on scores. *)
Definition Qgtb (x y : Q) : bool := negb (Qle_bool x y).

(** *** Text

    A Python [str] is held as its UTF-8 encoding, one [ascii] for each
    byte.  What Python does character by character ([split()],
    [strip()], [len], iteration) goes by the characters read off the
    bytes: a character is a byte that is not a continuation byte,
    followed by its continuation bytes. *)

(** A continuation byte, [10xxxxxx]. *)
Definition is_continuation (c : ascii) : bool :=
  let n := nat_of_ascii c in (128 <=? n) && (n <=? 191).

(** The characters of [s], read from its end: the continuation bytes at
    the head of [s], which belong to a character begun before it, and the
    characters after them. *)
Fixpoint chars_from_end (s : string) : string * list string :=
  match s with
  | EmptyString => ("", [])
  | String c rest =>
      let '(pending, chars) := chars_from_end rest in
      if is_continuation c then (String c pending, chars)
      else ("", String c pending :: chars)
  end.

(** [list(s)].  The encoding of a text never starts with a continuation
    byte; bytes that do are kept, as one item. *)
Definition py_chars (s : string) : list string :=
  let '(pending, chars) := chars_from_end s in
  if String.eqb pending "" then chars else pending :: chars.

(** [len(s)]: one for each byte that begins a character. *)
Definition str_len (s : string) : nat :=
  length (filter (λ c, is_continuation c = false) (list_ascii_of_string s)).

Definition bytes (codes : list nat) : string :=
  string_of_list_ascii (ascii_of_nat <$> codes).

(** The characters [str.split()] and [str.strip()] treat as white space,
    in UTF-8: U+0009 to U+000D, U+001C to U+0020, U+0085, U+00A0, U+1680,
    U+2000 to U+200A, U+2028, U+2029, U+202F, U+205F and U+3000. *)
Definition white_space : list string :=
  bytes <$> [[9]; [10]; [11]; [12]; [13]; [28]; [29]; [30]; [31]; [32];
             [194; 133]; [194; 160]; [225; 154; 128];
             [226; 128; 128]; [226; 128; 129]; [226; 128; 130];
             [226; 128; 131]; [226; 128; 132]; [226; 128; 133];
             [226; 128; 134]; [226; 128; 135]; [226; 128; 136];
             [226; 128; 137]; [226; 128; 138];
             [226; 128; 168]; [226; 128; 169]; [226; 128; 175];
             [226; 129; 159]; [227; 128; 128]].

(** [c.isspace()] for one character. *)
Definition is_space (c : string) : bool := existsb (String.eqb c) white_space.

(** [s.split()]: the maximal runs of characters that are not white space.
    [word] is the run being read. *)
Fixpoint py_split_from (word : string) (chars : list string) : list string :=
  match chars with
  | [] => if String.eqb word "" then [] else [word]
  | c :: rest =>
      if is_space c then
        (if String.eqb word "" then py_split_from "" rest
         else word :: py_split_from "" rest)
      else py_split_from (word +:+ c) rest
  end.

Definition py_split (s : string) : list string := py_split_from "" (py_chars s).

(** [sep.join(parts)] *)
Fixpoint py_join (sep : string) (parts : list string) : string :=
  match parts with
  | [] => ""
  | [p] => p
  | p :: rest => p +:+ sep +:+ py_join sep rest
  end.

Fixpoint dict_lookup (key : string) (kvs : list (string * json)) : option json :=
  match kvs with
  | [] => None
  | (k, v) :: rest => if String.eqb k key then Some v else dict_lookup key rest
  end.

(** [d[key]] *)
Definition py_getitem (d : json) (key : string) : Res json :=
  match d with
  | JDict kvs =>
      match dict_lookup key kvs with
      | Some v => Ok v
      | None => Exc (KeyError key)
      end
  | _ => Exc TypeError
  end.

(** [d.get(key, default)] *)
Definition py_get (d : json) (key : string) (default : json) : Res json :=
  match d with
  | JDict kvs =>
      match dict_lookup key kvs with
      | Some v => Ok v
      | None => Ok default
      end
  | _ => Exc AttributeError
  end.

(** [len(v)] *)
Definition py_len (v : json) : Res nat :=
  match v with
  | JStr s => Ok (str_len s)
  | JList l => Ok (length l)
  | JDict kvs => Ok (length kvs)
  | _ => Exc TypeError
  end.

(** [for x in v] *)
Definition py_iter (v : json) : Res (list json) :=
  match v with
  | JList l => Ok l
  | JStr s => Ok (JStr <$> py_chars s)
  | JDict kvs => Ok ((λ kv, JStr kv.1) <$> kvs)
  | _ => Exc TypeError
  end.

Definition res_bind {A B} (r : Res A) (k : A → Res B) : Res B :=
  match r with
  | Ok a => k a
  | Exc e => Exc e
  end.

Notation "'let?' x ':=' r 'in' k" := (res_bind r (fun x => k))
  (at level 10, x name, r at level 100, k at level 200).

Definition nl : string := String (ascii_of_nat 10) "".
Definition dq : string := String (ascii_of_nat 34) "".

(** [await asyncio.sleep(d)]. *)
Definition sleep (d : nat) : M unit :=
  fun w => (Ok tt, w ++ [Slept d]).

Section Workflow.

Variable env : Env.

(** ** Prompt helpers *)

(** [chr(10).join(f"• {x}" for x in research_data[key])] *)
Definition bullets (research_data : json) (key : string) : Res string :=
  let? items := py_getitem research_data key in
  let? xs := py_iter items in
  Ok (py_join nl ((λ x, "• " +:+ py_str env x) <$> xs)).

(** [format_research_for_master_content] (writer_agent.py, lines 222-251) *)
Definition format_research_for_master_content (research_data : json)
  : Res string :=
  let? topic := py_getitem research_data "topic" in
  let? facts := bullets research_data "facts_and_stats" in
  let? controversies := bullets research_data "controversies_and_debates" in
  let? trends := bullets research_data "trending_angles" in
  let? gaps := bullets research_data "content_gaps" in
  let? quotes := bullets research_data "expert_quotes" in
  let? summary := py_getitem research_data "research_summary" in
  Ok ("
        Create engaging content about: " +:+ py_str env topic +:+ "

        Here's your research to work with:

        FACTS & DATA:
        " +:+ facts +:+ "

        DEBATES & TENSIONS:
        " +:+ controversies +:+ "

        WHAT'S TRENDING:
        " +:+ trends +:+ "

        UNIQUE ANGLES (What others aren't saying):
        " +:+ gaps +:+ "

        EXPERT VOICES:
        " +:+ quotes +:+ "

        Context: " +:+ py_str env summary +:+ "

        Remember: " +:+ "
        - Write 1500-2000 words
        - Sound exactly like the creator
        - Make it engaging, not mechanical
        - Weave research naturally into stories
        - Explore those unique angles!

        Write the content.
    ").

(** The block [format_content_for_evaluation] adds when
    [previous_score > 0] (evaluator_agent.py, lines 257-264). *)
Definition previous_attempt_section (previous_score : Q) : string :=
  "
=== PREVIOUS ATTEMPT ===

Previous Score: " +:+ float_str env previous_score +:+ "/10

**CRITICAL: This rewrite MUST score HIGHER than "
  +:+ float_str env previous_score +:+ "**
If it doesn't improve, you're failing your job as an evaluator.
".

Definition evaluation_task_section : string :=
  "
=== YOUR TASK ===

1. Score on 4 dimensions (0-10):
   • Authenticity (40%): Does it sound human?
   • Quality (30%): Is the writing good?
   • Completeness (20%): Does it meet requirements?
   • Depth (10%): Does it provide real value?

2. Calculate overall score using the weights above

3. Approve if Overall Score ≥ 7.0

4. List:
   • 3-5 specific STRENGTHS
   • 2-3 specific WEAKNESSES
   • ACTIONABLE feedback (be specific, not vague!)

5. Return ContentEvaluation with all details

Remember: Be critical but fair. Give scores that reflect real quality.
".

(** [format_content_for_evaluation] (evaluator_agent.py, lines 226-289).
    In Python [previous_score] defaults to [0]. *)
Definition format_content_for_evaluation (content : string)
    (research_data : json) (previous_score : Q) : Res string :=
  let word_count := length (py_split content) in
  let? topic := py_get research_data "topic" (JStr "Unknown") in
  let? sources := py_get research_data "sources" (JList []) in
  let? n_sources := py_len sources in
  let prompt := "Evaluate this blog content and decide if it's good enough to publish.

=== CONTENT TO EVALUATE ===

Word Count: " +:+ pretty word_count +:+ "

Content:
" +:+ content +:+ "

=== CONTEXT ===

Topic: " +:+ py_str env topic +:+ "
Research Sources Used: " +:+ pretty n_sources +:+ "
" in
  let prompt :=
    if Qgtb previous_score 0 then prompt +:+ previous_attempt_section previous_score
    else prompt in
  Ok (prompt +:+ evaluation_task_section).

(** [format_master_content_for_social] (social_media_agent.py, lines 325-373) *)
Definition format_master_content_for_social (master_content : string)
    (topic : string) : string :=
  let word_count := length (py_split master_content) in
  "Repurpose this master content into social media posts.

=== TOPIC ===
" +:+ topic +:+ "

=== MASTER CONTENT (" +:+ pretty word_count +:+ " words) ===

" +:+ master_content +:+ "

=== YOUR TASK ===

Extract the best insights, angles, and moments from this content and create:

1. TikTok/Reels Scripts (3-5): 30-60 second videos
   • Focus on quick, engaging, actionable content
   • Each script explores a different angle
   • Make them scroll-stopping!

2. LinkedIn Posts (2-3): Professional 200-300 word posts
   • Thought leadership and insights
   • Data-driven and credible
   • Spark discussion

3. Instagram Captions (3-5): Short 80-150 word captions
   • Casual and relatable
   • Easy to read on mobile
   • Encourage engagement

Remember:
   • Each piece should stand alone (don't require reading the master content)
   • Extract DIFFERENT angles for variety
   • Match the creator's authentic voice
   • Optimize for each platform's unique style
   • Make them engaging and actionable

Create compelling social media content!
".

(** The three posts as [format_content_for_storage] and
    [format_content_for_scheduling] lay them out; the two differ in the
    titles and the numbering only. *)
Definition tiktok_block (sm : SocialMediaContent) : string :=
  "Content:
Hook: " +:+ tiktok_hook sm +:+ "

" +:+ tiktok_script sm +:+ "

CTA: " +:+ tiktok_cta sm +:+ "

---

".

Definition linkedin_block (sm : SocialMediaContent) : string :=
  "Content:
" +:+ linkedin_hook sm +:+ "

" +:+ linkedin_body sm +:+ "

" +:+ linkedin_cta sm +:+ "

Hashtags: " +:+ py_join " " (linkedin_hashtags sm) +:+ "

---

".

Definition instagram_block (sm : SocialMediaContent) : string :=
  "Content:
" +:+ instagram_hook sm +:+ "

" +:+ instagram_body sm +:+ "

" +:+ instagram_cta sm +:+ "

Hashtags: " +:+ py_join " " (instagram_hashtags sm) +:+ "

=== YOUR TASK ===

".

(** [format_content_for_storage] (storage_agent.py, lines 221-283).  The
    attribute reads on [social_media] fail on anything but a
    [SocialMediaContent]. *)
Definition format_content_for_storage (topic : string) (master_content : string)
    (social_media : PyVal) : Res string :=
  match social_media with
  | VSocial sm =>
      Ok ("Save all content to Notion for topic: " +:+ dq +:+ topic +:+ dq +:+ "

=== CONTENT TO SAVE ===

1. MASTER CONTENT (Blog Post)
Platform: Blog
Title: " +:+ dq +:+ topic +:+ " - Master Content" +:+ dq +:+ "
Content:
" +:+ master_content +:+ "

---

2. TIKTOK SCRIPT
Platform: TikTok
Title: " +:+ dq +:+ topic +:+ " - TikTok Script" +:+ dq +:+ "
" +:+ tiktok_block sm +:+ "3. LINKEDIN POST
Platform: LinkedIn
Title: " +:+ dq +:+ topic +:+ " - LinkedIn Post" +:+ dq +:+ "
" +:+ linkedin_block sm +:+ "4. INSTAGRAM CAPTION
Platform: Instagram
Title: " +:+ dq +:+ topic +:+ " - Instagram Caption" +:+ dq +:+ "
" +:+ instagram_block sm +:+ "Use save_to_notion to save each piece:
1. Save master content with platform=" +:+ dq +:+ "Blog" +:+ dq +:+ "
2. Save TikTok with platform=" +:+ dq +:+ "TikTok" +:+ dq +:+ "
3. Save LinkedIn with platform=" +:+ dq +:+ "LinkedIn" +:+ dq +:+ "
4. Save Instagram with platform=" +:+ dq +:+ "Instagram" +:+ dq +:+ "

Return the StorageResult with all links.
")
  | _ => Exc AttributeError
  end.

(** [format_content_for_scheduling] (scheduler_agent.py, lines 179-239) *)
Definition format_content_for_scheduling (topic : string)
    (social_media : PyVal) : Res string :=
  match social_media with
  | VSocial sm =>
      Ok ("Schedule these social media posts at optimal times: "
          +:+ dq +:+ topic +:+ dq +:+ "

=== POSTS TO SCHEDULE ===

1. TIKTOK POST
Platform: TikTok
Title: " +:+ dq +:+ "TikTok - " +:+ topic +:+ dq +:+ "
" +:+ tiktok_block sm +:+ "2. LINKEDIN POST
Platform: LinkedIn
Title: " +:+ dq +:+ "LinkedIn - " +:+ topic +:+ dq +:+ "
" +:+ linkedin_block sm +:+ "3. INSTAGRAM POST
Platform: Instagram
Title: " +:+ dq +:+ "Instagram - " +:+ topic +:+ dq +:+ "
" +:+ instagram_block sm +:+ "1. Get current Lagos time
2. Calculate next optimal posting time for each platform
3. Schedule each post to Google Calendar
4. Return SchedulingResult with all calendar links

Space out the posts appropriately - don't schedule all at once!
")
  | _ => Exc AttributeError
  end.

(** [await asyncio.wait_for(Runner.run(agent, input=input_text), timeout=timeout)] *)
Definition await_run (agent : Agent) (input_text : string) (timeout : nat)
  : M Returned :=
  fun w =>
    let w' := w ++ [Called (Build_Call agent input_text timeout)] in
    match wait_for_run env agent input_text timeout (length (calls w)) with
    | Completed r => (Ok r, w')
    | Raised e => (Exc e, w')
    end.

(** ** [run_with_retry] (main.py, lines 23-43) *)

(** How one turn of the [for attempt in range(3)] loop ends. *)
Inductive Turn :=
  | Return (r : RunResult)
  | NextAttempt.

Definition retry_turn (agent : Agent) (input_text : string) (timeout : nat)
    (attempt : nat) : M Turn :=
  try_except
    (let! result := await_run agent input_text timeout in
     match result with
     | RetResult r => ret (Return r)
     | RetNone | RetBare => ret NextAttempt
     end)
    (fun e =>
       match e with
       | TimeoutError =>
           if attempt <? 2 then let! _ := sleep (2 ^ attempt) in ret NextAttempt
           else raise e
       | _ =>
           if attempt <? 2 then let! _ := sleep (2 ^ attempt) in ret NextAttempt
           else raise e
       end).

Fixpoint retry_attempts (agent : Agent) (input_text : string) (timeout : nat)
    (attempts : list nat) : M (option RunResult) :=
  match attempts with
  | [] => ret None
  | attempt :: rest =>
      let! t := retry_turn agent input_text timeout attempt in
      match t with
      | Return r => ret (Some r)
      | NextAttempt => retry_attempts agent input_text timeout rest
      end
  end.

Definition run_with_retry (agent : Agent) (input_text : string) (timeout : nat)
  : M (option RunResult) :=
  retry_attempts agent input_text timeout (seq 0 3).

(** ** [run_workflow] (main.py, lines 46-156) *)

(** [json.loads(v)]: a [TypeError] on anything but text, a
    [JSONDecodeError] on text that does not parse. *)
Definition loads (v : PyVal) : Res json :=
  match v with
  | VStr s =>
      match json_loads env s with
      | Some j => Ok j
      | None => Exc JSONDecodeError
      end
  | _ => Exc TypeError
  end.

(** Step 1, lines 53-61. [None] stands for the two [return None]. *)
Definition research_step (topic : string) : M (option json) :=
  try_except
    (let! research_result :=
       run_with_retry research_agent
         ("Research this topic comprehensively: " +:+ topic) 180 in
     match research_result with
     | None => ret None
     | Some research_result =>
         let! research_data := lift (loads (final_output research_result)) in
         (* line 58 prints [len(research_data.get('sources', []))] *)
         let! _ := lift (let? sources := py_get research_data "sources" (JList []) in
                         py_len sources) in
         ret (Some research_data)
     end)
    (fun e => ret None).

(** The variables the write/evaluate loop updates (lines 65-68). *)
Record LoopState := {
  best_content : option string;
  best_evaluation : option ContentEvaluation;
  best_score : Q;
  prompt : string
}.

Inductive Control :=
  | Continue
  | Break.

(** Lines 83-86: the best attempt is replaced on a strictly greater
    score only. *)
Definition keep_best (st : LoopState) (master_content : string)
    (evaluation : ContentEvaluation) : LoopState :=
  if Qgtb (overall_score evaluation) (best_score st) then
    {| best_content := Some master_content;
       best_evaluation := Some evaluation;
       best_score := overall_score evaluation;
       prompt := prompt st |}
  else st.

(** Line 93: the feedback is appended to the writer's prompt. *)
Definition with_feedback (st : LoopState) (evaluation : ContentEvaluation)
  : LoopState :=
  {| best_content := best_content st;
     best_evaluation := best_evaluation st;
     best_score := best_score st;
     prompt := prompt st +:+ nl +:+ nl +:+ "PREVIOUS FEEDBACK:" +:+ nl
               +:+ specific_feedback evaluation +:+ nl +:+ nl
               +:+ "Rewrite addressing all issues." |}.

(** The body of [for attempt in range(1, 4)], lines 71-96. The draft is
    first used by [content.split()] in [format_content_for_evaluation] and
    the evaluation by [evaluation.overall_score]: a [final_output] of
    another type raises [AttributeError] there, before any variable of
    the loop is assigned, so the handler resumes from [st]. *)
Definition round_body (research_data : json) (attempt : nat) (st : LoopState)
  : M (Control * LoopState) :=
  try_except
    (let! content_result := run_with_retry master_content_agent (prompt st) 150 in
     match content_result with
     | None => ret (Continue, st)
     | Some content_result =>
         match final_output content_result with
         | VStr master_content =>
             let! eval_prompt :=
               lift (format_content_for_evaluation master_content research_data 0) in
             let! eval_result := run_with_retry evaluator_agent eval_prompt 120 in
             match eval_result with
             | None => ret (Continue, st)
             | Some eval_result =>
                 match final_output eval_result with
                 | VEval evaluation =>
                     let st := keep_best st master_content evaluation in
                     if approved evaluation then ret (Break, st)
                     else ret (Continue, with_feedback st evaluation)
                 | _ => raise AttributeError
                 end
             end
         | _ => raise AttributeError
         end
     end)
    (fun e => ret (Continue, st)).

Fixpoint rounds (research_data : json) (attempts : list nat) (st : LoopState)
  : M LoopState :=
  match attempts with
  | [] => ret st
  | attempt :: rest =>
      let! r := round_body research_data attempt st in
      match r with
      | (Break, st') => ret st'
      | (Continue, st') => rounds research_data rest st'
      end
  end.

Definition initial_state (prompt : string) : LoopState :=
  {| best_content := None; best_evaluation := None; best_score := 0;
     prompt := prompt |}.

(** [if not best_content: return None] (lines 98-100): what the loop hands
    to the rest of the run. *)
Definition best_attempt (st : LoopState)
  : option (string * option ContentEvaluation) :=
  match best_content st with
  | None => None
  | Some c => if String.eqb c "" then None else Some (c, best_evaluation st)
  end.

(** Steps 2 and 3, lines 65-100. *)
Definition draft_evaluate_loop (research_data : json)
  : M (option (string * option ContentEvaluation)) :=
  let! prompt := lift (format_research_for_master_content research_data) in
  let! st := rounds research_data [1; 2; 3] (initial_state prompt) in
  ret (best_attempt st).

(** Step 4, lines 106-117. [None] stands for the two returns of the
    partial record. *)
Definition social_media_step (topic : string) (best_content : string)
  : M (option PyVal) :=
  try_except
    (let social_prompt := format_master_content_for_social best_content topic in
     let! social_result := run_with_retry social_media_agent social_prompt 120 in
     let social_content :=
       match social_result with
       | Some r => final_output r
       | None => VNone
       end in
     if truthy social_content then ret (Some social_content) else ret None)
    (fun e => ret None).

(** [v.success] *)
Definition getattr_success (v : PyVal) : Res bool :=
  match v with
  | VStorage r => Ok (storage_success r)
  | VSchedule r => Ok (scheduling_success r)
  | _ => Exc AttributeError
  end.

(** [data if (data and data.success) else None], the shape of lines
    124-129 and 139-144. *)
Definition keep_if_success (data : PyVal) : Res PyVal :=
  if truthy data then
    let? ok := getattr_success data in
    Ok (if ok then data else VNone)
  else Ok VNone.

(** Step 5, lines 121-132. *)
Definition storage_step (topic : string) (best_content : string)
    (social_content : PyVal) : M PyVal :=
  try_except
    (let! storage_prompt :=
       lift (format_content_for_storage topic best_content social_content) in
     let! storage_result := run_with_retry storage_agent storage_prompt 120 in
     let storage_data :=
       match storage_result with
       | Some r => final_output r
       | None => VNone
       end in
     lift (keep_if_success storage_data))
    (fun e => ret VNone).

(** Step 6, lines 136-147. *)
Definition schedule_step (topic : string) (social_content : PyVal) : M PyVal :=
  try_except
    (let! schedule_prompt :=
       lift (format_content_for_scheduling topic social_content) in
     let! schedule_result := run_with_retry scheduler_agent schedule_prompt 120 in
     let schedule_data :=
       match schedule_result with
       | Some r => final_output r
       | None => VNone
       end in
     lift (keep_if_success schedule_data))
    (fun e => ret VNone).

(** The dict of lines 114 and 117. *)
Definition partial_record (topic : string) (best_content : string)
    (best_evaluation : ContentEvaluation) : gmap string PyVal :=
  <["topic" := VStr topic]>
  (<["master_content" := VStr best_content]>
  (<["evaluation" := VEval best_evaluation]>
  (<["social_media" := VNone]> ∅))).

(** The dict of lines 149-156. *)
Definition full_record (topic : string) (best_content : string)
    (best_evaluation : ContentEvaluation)
    (social_content storage_data schedule_data : PyVal) : gmap string PyVal :=
  <["topic" := VStr topic]>
  (<["master_content" := VStr best_content]>
  (<["evaluation" := VEval best_evaluation]>
  (<["social_media" := social_content]>
  (<["storage" := storage_data]>
  (<["schedule" := schedule_data]> ∅))))).

(** Lines 104-156: what follows a successful loop. *)
Definition publish (topic : string) (best_content : string)
    (best_evaluation : ContentEvaluation)
  : M (option (gmap string PyVal)) :=
  let! social := social_media_step topic best_content in
  match social with
  | None => ret (Some (partial_record topic best_content best_evaluation))
  | Some social_content =>
      let! storage_data := storage_step topic best_content social_content in
      let! schedule_data := schedule_step topic social_content in
      ret (Some (full_record topic best_content best_evaluation
                   social_content storage_data schedule_data))
  end.

Definition run_workflow (topic : string) : M (option (gmap string PyVal)) :=
  let! research := research_step topic in
  match research with
  | None => ret None
  | Some research_data =>
      let! best := draft_evaluate_loop research_data in
      match best with
      | None => ret None
      | Some (best_content, best_evaluation) =>
          (* line 102 prints [best_evaluation.overall_score] *)
          match best_evaluation with
          | None => raise AttributeError
          | Some best_evaluation => publish topic best_content best_evaluation
          end
      end
  end.

End Workflow.

(** ** Observing the loop *)

(** What lines 72-81 obtain in a round started with [prompt]: the draft and
    its evaluation, or nothing when the round is abandoned (a stage that
    returns [None] or raises, an output of the wrong type). *)
Definition evaluated_draft (env : Env) (research_data : json) (prompt : string)
  : M (option (string * ContentEvaluation)) :=
  try_except
    (let! content_result := run_with_retry env master_content_agent prompt 150 in
     match content_result with
     | None => ret None
     | Some content_result =>
         match final_output content_result with
         | VStr master_content =>
             let! eval_prompt :=
               lift (format_content_for_evaluation env master_content
                       research_data 0) in
             let! eval_result := run_with_retry env evaluator_agent eval_prompt 120 in
             match eval_result with
             | None => ret None
             | Some eval_result =>
                 match final_output eval_result with
                 | VEval evaluation => ret (Some (master_content, evaluation))
                 | _ => raise AttributeError
                 end
             end
         | _ => raise AttributeError
         end
     end)
    (fun e => ret None).

(** The evaluated drafts of the rounds the loop executes, in order. *)
Fixpoint attempts_made (env : Env) (research_data : json) (attempts : list nat)
    (st : LoopState) (w : World) : list (string * ContentEvaluation) :=
  match attempts with
  | [] => []
  | attempt :: rest =>
      let this :=
        match evaluated_draft env research_data (prompt st) w with
        | (Ok (Some a), _) => [a]
        | _ => []
        end in
      match round_body env research_data attempt st w with
      | (Ok (Continue, st'), w') =>
          this ++ attempts_made env research_data rest st' w'
      | _ => this
      end
  end.

(** The three variables of the best attempt, and lines 83-86 on them. *)
Definition best_of (st : LoopState)
  : option string * option ContentEvaluation * Q :=
  (best_content st, best_evaluation st, best_score st).

Definition retain (b : option string * option ContentEvaluation * Q)
    (a : string * ContentEvaluation)
  : option string * option ContentEvaluation * Q :=
  if Qgtb (overall_score a.2) b.2 then (Some a.1, Some a.2, overall_score a.2)
  else b.

(** The weighted sum of the evaluator's instructions, within 0.05. *)
Definition weighted_sum (e : ContentEvaluation) : Q :=
  ((4 # 10) * authenticity_score e + (3 # 10) * quality_score e
   + (2 # 10) * completeness_score e + (1 # 10) * depth_score e)%Q.

Definition weighted_sum_ok (e : ContentEvaluation) : Prop :=
  (Qabs (overall_score e - weighted_sum e) <= 5 # 100)%Q.

(** ** Observing the pipeline *)

(** A trace whose calls all go to the given agents. *)
Definition only_calls (agents : list Agent) (tr : World) : Prop :=
  Forall (λ c, call_agent c ∈ agents) (calls tr).

(** Lines 109-113: the Repurpose stage failed when its invocation raised,
    returned [None], or delivered a falsy [final_output]. *)
Definition repurpose_failed (res : Res (option RunResult)) : Prop :=
  match res with
  | Ok (Some r) => truthy (final_output r) = false
  | Ok None | Exc _ => True
  end.

(** Lines 124-125 and 139-140: a stage handed back data whose [success]
    flag is set. *)
Definition stage_succeeded (res : Res (option RunResult)) : Prop :=
  ∃ r, res = Ok (Some r)
       ∧ truthy (final_output r) = true
       ∧ getattr_success (final_output r) = Ok true.

(** What lines 124-129 (and 139-144) keep of a stage's result. *)
Definition kept (res : Res (option RunResult)) : PyVal :=
  match res with
  | Ok (Some r) =>
      match keep_if_success (final_output r) with
      | Ok v => v
      | Exc _ => VNone
      end
  | _ => VNone
  end.


(** ** Observing the invoker *)

(** An attempt that timed out or raised. *)
Definition failed (o : Outcome) : Prop := ∃ e, o = Raised e.

(** An attempt that completed without a usable result. *)
Definition absent (o : Outcome) : Prop :=
  o = Completed RetNone ∨ o = Completed RetBare.

(** The waits 1, 2, ..., 2^(n-1). *)
Definition backoffs (n : nat) : list nat := (λ k, 2 ^ k) <$> seq 0 n.

(** The trace of [n] failed attempts, each followed by its backoff,
    starting with attempt number [attempt]. *)
Fixpoint failures_trace (c : Call) (attempt n : nat) : World :=
  match n with
  | 0 => []
  | S n' => Called c :: Slept (2 ^ attempt) :: failures_trace c (S attempt) n'
  end.

(** ** The specification's wording, where the code departs from it *)

(** "[n] failures followed by a success: the total wait is
    1 + 2 + ... + 2^(n-1)". *)
Definition backoff_as_stated (n : nat) : Prop :=
  ∀ env agent input_text timeout w r res w',
    (∀ k, k < n →
       failed (wait_for_run env agent input_text timeout (length (calls w) + k))) →
    wait_for_run env agent input_text timeout (length (calls w) + n)
      = Completed (RetResult r) →
    run_with_retry env agent input_text timeout w = (res, w') →
    sum_list (sleeps w') = sum_list (sleeps w) + sum_list (backoffs n).


(** "Absent exactly when every round failed to produce an evaluated
    draft." *)
Definition absent_iff_all_rounds_failed_as_stated : Prop :=
  ∀ env research_data p w res w',
    format_research_for_master_content env research_data = Ok p →
    draft_evaluate_loop env research_data w = (Ok res, w') →
    res = None
    ↔ attempts_made env research_data [1; 2; 3] (initial_state p) w = [].

(** "A record, never an absent result, once Research has succeeded." *)
Definition record_after_research_as_stated : Prop :=
  ∀ env topic w research_data w1,
    research_step env topic w = (Ok (Some research_data), w1) →
    ∃ record w', run_workflow env topic w = (Ok (Some record), w').

(** "Every evaluation accepted as best has the weighted sum as its overall
    score, within 0.05." *)
Definition accepted_overall_weighted_as_stated : Prop :=
  ∀ env research_data w c e w',
    draft_evaluate_loop env research_data w = (Ok (Some (c, Some e)), w') →
    weighted_sum_ok e.

(** ** Scripted environments, for the worked runs *)

Definition sample_research : json :=
  JDict [("topic", JStr "remote work");
         ("facts_and_stats", JList [JStr "a fact"; JStr "a number"]);
         ("controversies_and_debates", JList [JStr "a debate"]);
         ("trending_angles", JList []);
         ("content_gaps", JList [JStr "a gap"]);
         ("expert_quotes", JList []);
         ("sources", JList [JDict [("title", JStr "t"); ("url", JStr "u")]]);
         ("research_summary", JStr "a summary")].

(** A score with one decimal, enough for the sample runs. *)
Definition one_decimal (q : Q) : string :=
  let tenths := Qfloor (q * 10) in
  pretty (tenths `div` 10)%Z +:+ "." +:+ pretty (tenths `mod` 10)%Z.

(** The k-th call gets the k-th outcome of [script], calls beyond the
    script time out, and the research text parses to [research]. *)
Definition scripted_with (research : json) (script : list Outcome) : Env :=
  {| wait_for_run := λ _ _ _ k, nth k script (Raised TimeoutError);
     json_loads := λ _, Some research;
     py_str := λ j, match j with JStr s => s | _ => "" end;
     float_str := one_decimal |}.

Definition scripted (script : list Outcome) : Env :=
  scripted_with sample_research script.

Definition delivered (v : PyVal) : Outcome :=
  Completed (RetResult {| final_output := v |}).

(** An evaluation whose four sub-scores and overall score are all [s]. *)
Definition scored (s : Q) (ok : bool) : ContentEvaluation :=
  {| authenticity_score := s; quality_score := s; completeness_score := s;
     depth_score := s; overall_score := s; approved := ok;
     needs_rewrite := negb ok; strengths := []; weaknesses := [];
     specific_feedback := "be specific" |}.

(** An evaluation reporting 9 overall over four sub-scores of 0. *)
Definition overrated : ContentEvaluation :=
  {| authenticity_score := 0; quality_score := 0; completeness_score := 0;
     depth_score := 0; overall_score := 9; approved := true;
     needs_rewrite := false; strengths := []; weaknesses := [];
     specific_feedback := "" |}.

Definition sample_social : SocialMediaContent :=
  {| tiktok_hook := "hook"; tiktok_script := "script"; tiktok_cta := "follow";
     linkedin_hook := "hook"; linkedin_body := "body"; linkedin_cta := "comment";
     linkedin_hashtags := ["#work"; "#remote"];
     instagram_hook := "hook"; instagram_body := "body"; instagram_cta := "share";
     instagram_hashtags := ["#home"] |}.

Definition sample_schedule : SchedulingResult :=
  {| scheduled_posts :=
       [{| scheduled_platform := "TikTok"; scheduled_title := "TikTok - remote work";
           scheduled_time := "2025-01-06 18:00"; calendar_link := "cal/1" |}];
     scheduling_success := true;
     scheduling_message := "scheduled" |}.

(** The writer's first prompt and the evaluator's prompt in the sample
    runs. *)
Definition sample_prompt : string :=
  match format_research_for_master_content (scripted []) sample_research with
  | Ok p => p
  | Exc _ => ""
  end.

Definition sample_eval_prompt (content : string) (previous_score : Q) : string :=
  match format_content_for_evaluation (scripted []) content sample_research
          previous_score with
  | Ok p => p
  | Exc _ => ""
  end.

(** [needle in haystack] *)
Fixpoint contains (needle haystack : string) : bool :=
  String.prefix needle haystack
  || match haystack with
     | EmptyString => false
     | String _ rest => contains needle rest
     end.

(** The inputs handed to [agent] in a trace, oldest first. *)
Definition inputs_to (agent : Agent) (w : World) : list string :=
  call_input <$> filter (λ c, call_agent c = agent) (calls w).

(** Unfolds the monad's operations, to run a computation on a world. *)
Ltac run_monad := unfold try_except, bind, lift, ret, raise.

(** ** More of the invoker *)

(** The usable result of an attempt, if it delivered one. *)
Definition result_of (o : Outcome) : option RunResult :=
  match o with
  | Completed (RetResult r) => Some r
  | _ => None
  end.

(** What an attempt that is not the last leaves in the trace when it
    delivers no result: its call, and its backoff if it raised. *)
Definition after_attempt (c : Call) (attempt : nat) (o : Outcome) : World :=
  match o with
  | Raised _ => [Called c; Slept (2 ^ attempt)]
  | Completed _ => [Called c]
  end.

(** ** More of the loop and of the run *)

(** A trace of at most [3 * n] calls and at most [3 * n] time units of
    backoff: the most that [n] invocations can cost. *)
Definition costs_at_most (n : nat) (tr : World) : Prop :=
  length (calls tr) ≤ 3 * n ∧ sum_list (sleeps tr) ≤ 3 * n.

(** Line 93: what a round that is not approved appends to the writer's
    prompt. *)
Definition feedback_block (evaluation : ContentEvaluation) : string :=
  nl +:+ nl +:+ "PREVIOUS FEEDBACK:" +:+ nl
  +:+ specific_feedback evaluation +:+ nl +:+ nl
  +:+ "Rewrite addressing all issues.".

Fixpoint concat_strings (l : list string) : string :=
  match l with
  | [] => ""
  | s :: rest => s +:+ concat_strings rest
  end.

(** A computation that only extends the trace, by what at most [n]
    invocations can cost. *)
Definition bounded_by {A} (n : nat) (m : M A) : Prop :=
  ∀ w res w', m w = (res, w') → ∃ tr, w' = w ++ tr ∧ costs_at_most n tr.

(** ** More Python built-ins *)

(** [s] starts at a character, as the encoding of every text does. *)
Definition starts_char (s : string) : bool :=
  match s with
  | EmptyString => true
  | String c _ => negb (is_continuation c)
  end.

(** One character: a byte that is not a continuation byte, followed by
    continuation bytes. *)
Definition char_shaped (x : string) : Prop :=
  ∃ c cont, x = String c cont ∧ is_continuation c = false
            ∧ forallb is_continuation (list_ascii_of_string cont) = true.

(** A list of characters as [py_chars] gives it: characters, after the
    stray continuation bytes if there are any. *)
Definition well_read (l : list string) : Prop :=
  Forall char_shaped l
  ∨ ∃ pending chars,
      l = pending :: chars ∧ pending ≠ ""
      ∧ forallb is_continuation (list_ascii_of_string pending) = true
      ∧ Forall char_shaped chars.

(** [s.lstrip()], [s.rstrip()], [s.strip()]: the white space characters
    at an end are dropped. *)
Fixpoint lstrip_chars (chars : list string) : list string :=
  match chars with
  | [] => []
  | c :: rest => if is_space c then lstrip_chars rest else chars
  end.

Fixpoint rstrip_chars (chars : list string) : list string :=
  match chars with
  | [] => []
  | c :: rest =>
      let rest' := rstrip_chars rest in
      if is_space c && bool_decide (rest' = []) then [] else c :: rest'
  end.

Definition py_lstrip (s : string) : string :=
  concat_strings (lstrip_chars (py_chars s)).

Definition py_rstrip (s : string) : string :=
  concat_strings (rstrip_chars (py_chars s)).

Definition py_strip (s : string) : string :=
  concat_strings (rstrip_chars (lstrip_chars (py_chars s))).

(** [s.replace(old, new)] for a non-empty [old]: the occurrences of [old]
    are found from the left, without overlap.  [skip] counts the
    characters of a found occurrence still to be passed over. *)
Fixpoint py_replace_from (old new : string) (skip : nat) (s : string) : string :=
  match s with
  | EmptyString => ""
  | String c rest =>
      match skip with
      | S skip' => py_replace_from old new skip' rest
      | 0 =>
          if String.prefix old s then
            new +:+ py_replace_from old new (String.length old - 1) rest
          else String c (py_replace_from old new 0 rest)
      end
  end.

Definition py_replace (old new : string) (s : string) : string :=
  py_replace_from old new 0 s.

(** ** src/streamlit_app.py *)

(** [get_score_class] (lines 332-339) *)
Definition get_score_class (score : Q) : string :=
  if Qle_bool 7 score then "score-high"
  else if Qle_bool 5 score then "score-medium"
  else "score-low".

(** Lines 360-362: the research text is stripped, and a text that starts
    with a json fence loses every fence mark. *)
Definition clean_research_output (final : string) : string :=
  let raw_output := py_strip final in
  if String.prefix "```json" raw_output then
    py_strip (py_replace "```" "" (py_replace "```json" "" raw_output))
  else raw_output.

(** The values of the record of lines 446-454, which also carries the
    research document. *)
Inductive StVal :=
  | StPy (v : PyVal)
  | StJson (j : json).

Section Streamlit.

Variable env : Env.

(** [str(e)] for an exception. *)
Variable exn_str : exn → string.

(** Step 1 of the app, lines 351-367; the right side is the error message
    returned with [None].  The progress callback, a display hook, is not
    modelled. *)
Definition st_research_step (topic : string) : M (json + string) :=
  try_except
    (let! research_result :=
       run_with_retry env research_agent
         ("Research this topic comprehensively: " +:+ topic) 180 in
     match research_result with
     | None => ret (inr "Research failed")
     | Some research_result =>
         match final_output research_result with
         | VStr final =>
             let raw_output := clean_research_output final in
             let! research_data := lift (loads env (VStr raw_output)) in
             let! _ := lift (let? sources :=
                               py_get research_data "sources" (JList []) in
                             py_len sources) in
             ret (inl research_data)
         | _ => raise AttributeError
         end
     end)
    (fun e => ret (inr ("Research failed: " +:+ exn_str e))).

(** Lines 413-418. *)
Definition st_social_media_step (topic : string) (best_content : string)
  : M PyVal :=
  try_except
    (let social_prompt := format_master_content_for_social best_content topic in
     let! social_result := run_with_retry env social_media_agent social_prompt 120 in
     ret match social_result with
         | Some r => final_output r
         | None => VNone
         end)
    (fun e => ret VNone).

(** Lines 423-431. *)
Definition st_storage_step (topic : string) (best_content : string)
    (social_content : PyVal) : M PyVal :=
  if truthy social_content then
    try_except
      (let! storage_prompt :=
         lift (format_content_for_storage topic best_content social_content) in
       let! storage_result := run_with_retry env storage_agent storage_prompt 120 in
       ret match storage_result with
           | Some r => final_output r
           | None => VNone
           end)
      (fun e => ret VNone)
  else ret VNone.

(** Lines 434-442. *)
Definition st_schedule_step (topic : string) (social_content : PyVal) : M PyVal :=
  if truthy social_content then
    try_except
      (let! schedule_prompt :=
         lift (format_content_for_scheduling topic social_content) in
       let! schedule_result :=
         run_with_retry env scheduler_agent schedule_prompt 120 in
       ret match schedule_result with
           | Some r => final_output r
           | None => VNone
           end)
      (fun e => ret VNone)
  else ret VNone.

(** The dict of lines 446-454. *)
Definition st_record (topic : string) (research_data : json)
    (best_content : string) (best_evaluation : ContentEvaluation)
    (social_content storage_data schedule_data : PyVal) : gmap string StVal :=
  <["topic" := StPy (VStr topic)]>
  (<["research" := StJson research_data]>
  (<["master_content" := StPy (VStr best_content)]>
  (<["evaluation" := StPy (VEval best_evaluation)]>
  (<["social_media" := StPy social_content]>
  (<["storage" := StPy storage_data]>
  (<["schedule" := StPy schedule_data]> ∅)))))).

(** [run_workflow] of the app (lines 346-454): the pair of the record and
    the error message.  The loop of lines 376-404 is the one of main.py. *)
Definition st_run_workflow (topic : string)
  : M (option (gmap string StVal) * option string) :=
  let! research := st_research_step topic in
  match research with
  | inr message => ret (None, Some message)
  | inl research_data =>
      let! best := draft_evaluate_loop env research_data in
      match best with
      | None => ret (None, Some "Failed to generate content")
      | Some (best_content, best_evaluation) =>
          (* line 409 reads [best_evaluation.overall_score] *)
          match best_evaluation with
          | None => raise AttributeError
          | Some best_evaluation =>
              let! social_content := st_social_media_step topic best_content in
              let! storage_data :=
                st_storage_step topic best_content social_content in
              let! schedule_data := st_schedule_step topic social_content in
              ret (Some (st_record topic research_data best_content
                           best_evaluation social_content storage_data
                           schedule_data),
                   None)
          end
      end
  end.

(** [regenerate_social_media] (lines 457-464) *)
Definition regenerate_social_media (master_content : string) (topic : string)
  : M PyVal :=
  try_except
    (let social_prompt := format_master_content_for_social master_content topic in
     let! social_result := run_with_retry env social_media_agent social_prompt 120 in
     ret match social_result with
         | Some r => final_output r
         | None => VNone
         end)
    (fun e => ret VNone).

End Streamlit.

(** What an invocation hands to the app: the output of its result, [None]
    when it raised or returned [None]. *)
Definition delivered_by (res : Res (option RunResult)) : PyVal :=
  match res with
  | Ok (Some r) => final_output r
  | _ => VNone
  end.

(** How an entry of main.py's record relates to the value the app keeps
    under the same key: the same value, or [None] in its place, or a
    missing entry where the app has [None]. *)
Definition main_keeps (entry : option PyVal) (v : PyVal) : Prop :=
  match entry with
  | Some v' => v' = v ∨ v' = VNone
  | None => v = VNone
  end.

(** Ranks of the three score classes. *)
Definition class_rank (class : string) : nat :=
  if String.eqb class "score-high" then 2
  else if String.eqb class "score-medium" then 1
  else 0.

(** [str(e)] in the worked runs. *)
Definition sample_exn_str (e : exn) : string :=
  match e with
  | TimeoutError => ""
  | AgentError detail => detail
  | JSONDecodeError => "Expecting value"
  | KeyError key => "'" +:+ key +:+ "'"
  | TypeError => "object has no len()"
  | AttributeError => "object has no attribute"
  end.

Definition sample_storage : StorageResult :=
  {| master_content_link := "notion/1";
     stored_posts :=
       [{| stored_platform := "TikTok"; stored_title := "remote work - TikTok Script";
           notion_link := "notion/2" |}];
     storage_success := true;
     storage_message := "saved" |}.

(** A run in which every stage delivers at its first call. *)
Definition smooth_run : list Outcome :=
  [delivered (VStr "{}");
   delivered (VStr "first draft");
   delivered (VEval (scored 8 true));
   delivered (VSocial sample_social);
   delivered (VStorage sample_storage);
   delivered (VSchedule sample_schedule)].

(** Three rounds, none approved, the last two with the same score. *)
Definition tied_rounds : list Outcome :=
  [delivered (VStr "first draft"); delivered (VEval (scored 6 false));
   delivered (VStr "second draft"); delivered (VEval (scored 8 false));
   delivered (VStr "third draft"); delivered (VEval (scored 8 false))].

(** ** src/ai_agents/research_agent.py *)

(** One entry of a Tavily response, and the response, with the keys the
    code reads; [None] is a missing key.  The values have the types of the
    Tavily API: text, and a list of entries. *)
Record SearchResult := {
  result_title : option string;
  result_url : option string;
  result_content : option string;
  result_published_date : option string
}.

Record SearchResponse := {
  response_results : option (list SearchResult);
  response_answer : option string
}.

(** [s.split(sep)] for a non-empty [sep]: [piece] is the piece being read,
    [skip] counts the characters of a found separator still to be passed
    over. *)
Fixpoint py_split_on_from (sep piece : string) (skip : nat) (s : string)
  : list string :=
  match s with
  | EmptyString => [piece]
  | String c rest =>
      match skip with
      | S skip' => py_split_on_from sep piece skip' rest
      | 0 =>
          if String.prefix sep s then
            piece :: py_split_on_from sep "" (String.length sep - 1) rest
          else py_split_on_from sep (piece +:+ String c "") 0 rest
      end
  end.

Definition py_split_on (sep : string) (s : string) : list string :=
  py_split_on_from sep "" 0 s.

(** [s.lower()] for a text of ASCII characters: the other bytes are left
    as they are. *)
Definition lower_char (c : ascii) : ascii :=
  let n := nat_of_ascii c in
  if (65 <=? n) && (n <=? 90) then ascii_of_nat (n + 32) else c.

Fixpoint py_lower (s : string) : string :=
  match s with
  | EmptyString => ""
  | String c rest => String (lower_char c) (py_lower rest)
  end.

(** A text of ASCII characters only. *)
Definition ascii_text (s : string) : bool :=
  forallb (λ c, nat_of_ascii c <? 128) (list_ascii_of_string s).

(** [any(keyword in sentence.lower() for keyword in keywords)] *)
Definition has_keyword (keywords : list string) (sentence : string) : bool :=
  existsb (λ keyword, contains keyword (py_lower sentence)) keywords.

(** The loop over the sentences of one entry, the same in the five extract
    functions: a selected sentence is appended, stripped, and the loop is
    left once [limit] items are held. *)
Fixpoint scan_sentences (select : string → bool) (limit : nat)
    (sentences : list string) (found : list string) : list string :=
  match sentences with
  | [] => found
  | sentence :: rest =>
      if select sentence then
        let found := found ++ [py_strip sentence] in
        if limit <=? length found then found
        else scan_sentences select limit rest found
      else scan_sentences select limit rest found
  end.

(** The loop over the entries, left in the same way. *)
Fixpoint scan_results (select : string → bool) (limit : nat)
    (results : list SearchResult) (found : list string) : list string :=
  match results with
  | [] => found
  | result :: rest =>
      let content := default "" (result_content result) in
      let sentences := py_split_on ". " content in
      let found := scan_sentences select limit sentences found in
      if limit <=? length found then found
      else scan_results select limit rest found
  end.


Definition controversy_keywords : list string :=
  ["however"; "critics"; "criticism"; "debate"; "controversial";
   "disagree"; "argue"; "concern"; "problem"; "challenge"].

(** [extract_controversies] (lines 70-98) *)
Definition extract_controversies (results : SearchResponse) : list string :=
  take 6
    (scan_results (has_keyword controversy_keywords) 6
       (default [] (response_results results)) []).

Definition trend_keywords : list string :=
  ["trend"; "emerging"; "future"; "growing"; "increasing";
   "new"; "innovation"; "latest"; "2025"; "upcoming"].

(** [extract_trends] (lines 101-128) *)
Definition extract_trends (results : SearchResponse) : list string :=
  take 7
    (scan_results (has_keyword trend_keywords) 7
       (default [] (response_results results)) []).

Definition gap_keywords : list string :=
  ["overlooked"; "rarely"; "often ignored"; "underreported";
   "few discuss"; "missing"; "gap"; "neglected"].

(** [extract_content_gaps] (lines 131-158) *)
Definition extract_content_gaps (results : SearchResponse) : list string :=
  take 5
    (scan_results (has_keyword gap_keywords) 5
       (default [] (response_results results)) []).

Definition expert_indicators : list string :=
  ["according to"; "expert"; "researcher"; "professor";
   "CEO"; "founder"; "analyst"; "study shows"].

(** [extract_expert_quotes] (lines 161-188) *)
Definition extract_expert_quotes (results : SearchResponse) : list string :=
  take 4
    (scan_results (has_keyword expert_indicators) 4
       (default [] (response_results results)) []).

(** An entry of the list of sources. *)
Record Source := {
  source_title : string;
  source_url : string;
  source_published : string
}.

(** The loop of lines 290-312 of [deep_research]: one source for each
    non-empty URL not seen before, until ten are held. *)
Fixpoint compile_sources (all_results : list SearchResult)
    (sources : list Source) (seen_urls : gset string) : list Source :=
  match all_results with
  | [] => sources
  | result :: rest =>
      let url := default "" (result_url result) in
      let '(sources, seen_urls) :=
        if negb (String.eqb url "") && negb (bool_decide (url ∈ seen_urls))
        then (sources
                ++ [{| source_title := default "Unknown" (result_title result);
                       source_url := url;
                       source_published :=
                         default "Unknown" (result_published_date result) |}],
              {[url]} ∪ seen_urls)
        else (sources, seen_urls) in
      if 10 <=? length sources then sources
      else compile_sources rest sources seen_urls
  end.

Definition source_json (s : Source) : json :=
  JDict [("title", JStr (source_title s));
         ("url", JStr (source_url s));
         ("published", JStr (source_published s))].

(** The results the sources are taken from (lines 294-299): those of the
    first four searches. *)
Definition all_results (general controversy trends gaps : SearchResponse)
  : list SearchResult :=
  default [] (response_results general)
  ++ default [] (response_results controversy)
  ++ default [] (response_results trends)
  ++ default [] (response_results gaps).

Section Digits.

(** [c.isdigit()] for one character: what the Unicode tables of the
    interpreter say. *)
Variable isdigit : string → bool.

(** [any(char.isdigit() for char in sentence) or "%" in sentence] *)
Definition has_digit_or_percent (sentence : string) : bool :=
  existsb isdigit (py_chars sentence) || contains "%" sentence.

(** [extract_facts_and_stats] (lines 42-67) *)
Definition extract_facts_and_stats (results : SearchResponse) : list string :=
  take 10
    (scan_results has_digit_or_percent 10
       (take 7 (default [] (response_results results))) []).

(** [deep_research] (lines 195-350), in the runs in which the five
    searches answer: [search] is [tavily_client.search] as a function of
    the query, and the result is the document handed to [json.dumps].
    The progress messages are not modelled. *)
Definition deep_research (search : string → SearchResponse) (topic : string)
  : json :=
  let general_results :=
    search (topic +:+ " latest facts statistics data 2024 2025") in
  let facts := extract_facts_and_stats general_results in
  let controversy_results :=
    search (topic +:+ " controversies debates criticisms challenges problems") in
  let controversies := extract_controversies controversy_results in
  let trends_results :=
    search (topic +:+ " trends 2025 future emerging latest innovations") in
  let trends := extract_trends trends_results in
  let gaps_results :=
    search (topic +:+ " overlooked underreported unique perspective niche angles") in
  let gaps := extract_content_gaps gaps_results in
  let expert_results :=
    search (topic +:+ " expert opinion research study analysis report") in
  let quotes := extract_expert_quotes expert_results in
  let sources :=
    compile_sources
      (all_results general_results controversy_results trends_results
         gaps_results) [] ∅ in
  let summary :=
    default ("Comprehensive research on " +:+ topic)
      (response_answer general_results) in
  JDict [("topic", JStr topic);
         ("facts_and_stats", JList (JStr <$> facts));
         ("controversies_and_debates", JList (JStr <$> controversies));
         ("trending_angles", JList (JStr <$> trends));
         ("content_gaps", JList (JStr <$> gaps));
         ("expert_quotes", JList (JStr <$> quotes));
         ("sources", JList (source_json <$> sources));
         ("research_summary", JStr summary)].

End Digits.

(** The ten digits of ASCII, for the worked examples. *)
Definition ascii_digit (c : string) : bool :=
  existsb (String.eqb c) ["0"; "1"; "2"; "3"; "4"; "5"; "6"; "7"; "8"; "9"].

(** The sentences of a list of entries, in reading order. *)
Definition sentences_of (results : list SearchResult) : list string :=
  results ≫= λ result, py_split_on ". " (default "" (result_content result)).

(** The non-empty URLs of a list of entries. *)
Definition urls_of (results : list SearchResult) : list string :=
  filter (λ url, url ≠ "") ((λ result, default "" (result_url result)) <$> results).

(** The indicators that can match a sentence in lower case. *)
Definition lower_case_indicators : list string :=
  ["according to"; "expert"; "researcher"; "professor";
   "founder"; "analyst"; "study shows"].

(** ** src/ai_agents/storage_agent.py *)

(** The loop over the sentences of a paragraph longer than [max_chars]
    (lines 97-105 of [chunk_content]): [temp] is the chunk being filled. *)
Fixpoint pack_sentences (max_chars : nat) (sentences : list string)
    (chunks : list string) (temp : string) : list string * string :=
  match sentences with
  | [] => (chunks, temp)
  | sentence :: rest =>
      if str_len temp + str_len sentence <? max_chars then
        pack_sentences max_chars rest chunks (temp +:+ sentence)
      else
        pack_sentences max_chars rest
          (if String.eqb temp "" then chunks else chunks ++ [py_strip temp])
          sentence
  end.

(** The loop over the paragraphs (lines 85-109). *)
Fixpoint pack_paragraphs (max_chars : nat) (paragraphs : list string)
    (chunks : list string) (current_chunk : string) : list string * string :=
  match paragraphs with
  | [] => (chunks, current_chunk)
  | para :: rest =>
      if str_len current_chunk + str_len para + 2 <? max_chars then
        pack_paragraphs max_chars rest chunks
          (current_chunk +:+ para +:+ nl +:+ nl)
      else
        let chunks :=
          if String.eqb current_chunk "" then chunks
          else chunks ++ [py_strip current_chunk] in
        if max_chars <? str_len para then
          let sentences := py_split_on "|" (py_replace ". " ".|" para) in
          let '(chunks, temp) := pack_sentences max_chars sentences chunks "" in
          pack_paragraphs max_chars rest chunks
            (if String.eqb temp "" then current_chunk else temp +:+ nl +:+ nl)
        else pack_paragraphs max_chars rest chunks (para +:+ nl +:+ nl)
  end.

(** [chunk_content] (lines 79-115, inside [save_to_notion]); in Python
    [max_chars] defaults to 1900. *)
Definition chunk_content (text : string) (max_chars : nat) : list string :=
  let '(chunks, current_chunk) :=
    pack_paragraphs max_chars (py_split_on (nl +:+ nl) text) [] "" in
  if String.eqb current_chunk "" then chunks
  else chunks ++ [py_strip current_chunk].

(** The sentences [chunk_content] cuts an over-long paragraph into. *)
Definition sentences_to_pack (para : string) : list string :=
  py_split_on "|" (py_replace ". " ".|" para).

(** A response with one entry, for the worked examples. *)
Definition sample_response : SearchResponse :=
  {| response_results :=
       Some [{| result_title := Some "Habits"; result_url := Some "u/1";
                result_content :=
                  Some "In 2024 a new habit took hold. Nobody counted.  50% of teams kept it. ";
                result_published_date := None |}];
     response_answer := None |}.

(** ** [main] of src/main.py *)

(** A file opened for writing, with the text that reached it. *)
Definition File : Type := string * string.

(** [s * n] *)
Fixpoint py_repeat (s : string) (n : nat) : string :=
  match n with
  | 0 => ""
  | S n' => s +:+ py_repeat s n'
  end.

(** The text a sequence of [f.write] calls leaves in a file, and whether
    an argument raised: the calls after it are not made. *)
Fixpoint write_all (parts : list (Res string)) : string * Res unit :=
  match parts with
  | [] => ("", Ok tt)
  | Ok text :: rest => let '(more, r) := write_all rest in (text +:+ more, r)
  | Exc e :: _ => ("", Exc e)
  end.

(** One [if ...: with open(name, "w") as f: ...] of [main]: the test
    raised, or was false, or the file was opened and written to. *)
Definition Stage : Type := Res (option (string * list (Res string))).

(** The files left by a sequence of stages; the first exception ends it
    (it is caught at line 224), the files opened so far stay. *)
Fixpoint run_stages (stages : list Stage) : list File :=
  match stages with
  | [] => []
  | Exc _ :: _ => []
  | Ok None :: rest => run_stages rest
  | Ok (Some (name, parts)) :: rest =>
      let '(text, r) := write_all parts in
      (name, text) :: match r with
                      | Ok _ => run_stages rest
                      | Exc _ => []
                      end
  end.

Section Main.

Variable env : Env.

(** [repr] of a value that is not text, for the f-strings. *)
Variable py_repr : PyVal → string.

(** [f"{v}"] *)
Definition py_format (v : PyVal) : string :=
  match v with
  | VStr s => s
  | _ => py_repr v
  end.

(** [result[key]] and [result.get(key)] *)
Definition item (result : gmap string PyVal) (key : string) : Res PyVal :=
  match result !! key with
  | Some v => Ok v
  | None => Exc (KeyError key)
  end.

Definition get_item (result : gmap string PyVal) (key : string) : PyVal :=
  default VNone (result !! key).

(** The first line of each file and the rule under it. *)
Definition title_line (label : string) (result : gmap string PyVal)
  : Res string :=
  let? topic := item result "topic" in
  Ok (label +:+ ": " +:+ py_format topic +:+ nl +:+ py_repeat "=" 60
      +:+ nl +:+ nl).

(** Lines 174-176. *)
Definition master_stage (result : gmap string PyVal) : Stage :=
  Ok (Some ("output_master_content.txt",
            [title_line "TOPIC" result;
             let? master_content := item result "master_content" in
             match master_content with
             | VStr text => Ok text
             | _ => Exc TypeError
             end])).

Definition tiktok_part (social : PyVal) : Res string :=
  match social with
  | VSocial s =>
      Ok ("TIKTOK" +:+ nl +:+ py_repeat "-" 60 +:+ nl
          +:+ tiktok_hook s +:+ nl +:+ nl
          +:+ tiktok_script s +:+ nl +:+ nl
          +:+ tiktok_cta s +:+ nl +:+ nl)
  | _ => Exc AttributeError
  end.

Definition linkedin_part (social : PyVal) : Res string :=
  match social with
  | VSocial s =>
      Ok ("LINKEDIN" +:+ nl +:+ py_repeat "-" 60 +:+ nl
          +:+ linkedin_hook s +:+ nl +:+ nl
          +:+ linkedin_body s +:+ nl +:+ nl
          +:+ linkedin_cta s +:+ nl +:+ nl
          +:+ py_join " " (linkedin_hashtags s) +:+ nl +:+ nl)
  | _ => Exc AttributeError
  end.

Definition instagram_part (social : PyVal) : Res string :=
  match social with
  | VSocial s =>
      Ok ("INSTAGRAM" +:+ nl +:+ py_repeat "-" 60 +:+ nl
          +:+ instagram_hook s +:+ nl +:+ nl
          +:+ instagram_body s +:+ nl +:+ nl
          +:+ instagram_cta s +:+ nl +:+ nl
          +:+ py_join " " (instagram_hashtags s) +:+ nl)
  | _ => Exc AttributeError
  end.

(** Lines 180-189. *)
Definition social_stage (result : gmap string PyVal) : Stage :=
  let social := get_item result "social_media" in
  if truthy social then
    Ok (Some ("output_social_media.txt",
              [title_line "SOCIAL MEDIA" result;
               tiktok_part social; linkedin_part social;
               instagram_part social]))
  else Ok None.

(** [result.get(key) and result[key].success] *)
Definition reports_success (result : gmap string PyVal) (key : string)
  : Res bool :=
  let data := get_item result key in
  if truthy data then getattr_success data else Ok false.

(** Lines 193-197; the links are also printed, from the same list. *)
Definition notion_stage (result : gmap string PyVal) : Stage :=
  let? go := reports_success result "storage" in
  if go then
    Ok (Some ("output_notion_links.txt",
              [title_line "NOTION LINKS" result;
               match get_item result "storage" with
               | VStorage r =>
                   Ok (concat_strings
                         ((λ post, stored_platform post +:+ ": "
                                   +:+ notion_link post +:+ nl)
                            <$> stored_posts r))
               | _ => Exc AttributeError
               end]))
  else Ok None.

(** Lines 206-210. *)
Definition calendar_stage (result : gmap string PyVal) : Stage :=
  let? go := reports_success result "schedule" in
  if go then
    Ok (Some ("output_calendar_links.txt",
              [title_line "CALENDAR LINKS" result;
               match get_item result "schedule" with
               | VSchedule r =>
                   Ok (concat_strings
                         ((λ post, scheduled_platform post +:+ " ("
                                   +:+ scheduled_time post +:+ "): "
                                   +:+ calendar_link post +:+ nl)
                            <$> scheduled_posts r))
               | _ => Exc AttributeError
               end]))
  else Ok None.

(** Lines 173-217: the files written for a record, on a file system that
    accepts every write.  The messages printed on the way, and the summary
    of lines 219-222, leave no file. *)
Definition save_outputs (result : gmap string PyVal) : list File :=
  run_stages [master_stage result; social_stage result;
              notion_stage result; calendar_stage result].

(** [main] (lines 159-227): the files it leaves.  [typed] is what
    [input()] gives at line 162, the line typed or the exception raised
    ([EOFError] at the end of the input); the call stands before the
    [try], so its exception leaves [main].  On the other paths [main]
    returns [None]. *)
Definition main (typed : Res string) : M (list File) :=
  let! typed := lift typed in
  let topic := py_strip typed in
  if String.eqb topic "" then ret []
  else
    try_except
      (let! result := run_workflow env topic in
       match result with
       | None => ret []
       | Some result =>
           if bool_decide (result = ∅) then ret []
           else ret (save_outputs result)
       end)
      (fun e => ret []).

End Main.

(** The names of the files [main] can leave, in the order of writing. *)
Definition output_names : list (list string) :=
  [[];
   ["output_master_content.txt"];
   ["output_master_content.txt"; "output_social_media.txt"];
   ["output_master_content.txt"; "output_social_media.txt";
    "output_notion_links.txt"];
   ["output_master_content.txt"; "output_social_media.txt";
    "output_calendar_links.txt"];
   ["output_master_content.txt"; "output_social_media.txt";
    "output_notion_links.txt"; "output_calendar_links.txt"]].

(** The text of the master content file. *)
Definition master_text (topic content : string) : string :=
  "TOPIC: " +:+ topic +:+ nl +:+ py_repeat "=" 60 +:+ nl +:+ nl +:+ content.

(** The names of the link files, after those of the two content files. *)
Definition link_names : list (list string) :=
  [[]; ["output_notion_links.txt"]; ["output_calendar_links.txt"];
   ["output_notion_links.txt"; "output_calendar_links.txt"]].

Section RetryProperties.

Variable env : Env.

Lemma calls_app w1 w2 : calls (w1 ++ w2) = calls w1 ++ calls w2.
Proof.
  induction w1 as [|[c|d] w1 IH]; cbn [calls app]; [done| |done].
  by rewrite IH.
Qed.

Lemma sleeps_app w1 w2 : sleeps (w1 ++ w2) = sleeps w1 ++ sleeps w2.
Proof.
  induction w1 as [|[c|d] w1 IH]; cbn [sleeps app]; [done|done|].
  by rewrite IH.
Qed.

Lemma retry_turn_eq agent input_text timeout attempt w :
  let c := Build_Call agent input_text timeout in
  retry_turn env agent input_text timeout attempt w =
  match wait_for_run env agent input_text timeout (length (calls w)) with
  | Completed (RetResult r) => (Ok (Return r), w ++ [Called c])
  | Completed _ => (Ok NextAttempt, w ++ [Called c])
  | Raised e =>
      if attempt <? 2
      then (Ok NextAttempt, (w ++ [Called c]) ++ [Slept (2 ^ attempt)])
      else (Exc e, w ++ [Called c])
  end.
Proof.
  unfold retry_turn, try_except, bind, await_run.
  destruct (wait_for_run env agent input_text timeout (length (calls w)))
    as [[| |r]|e]; try reflexivity.
  destruct e; destruct (attempt <? 2); reflexivity.
Qed.

Lemma retry_attempts_cons agent input_text timeout attempt rest w :
  retry_attempts env agent input_text timeout (attempt :: rest) w =
  match retry_turn env agent input_text timeout attempt w with
  | (Ok (Return r), w') => (Ok (Some r), w')
  | (Ok NextAttempt, w') => retry_attempts env agent input_text timeout rest w'
  | (Exc e, w') => (Exc e, w')
  end.
Proof.
  cbn [retry_attempts]. unfold bind.
  destruct (retry_turn env agent input_text timeout attempt w) as [[[r|]|e] w'];
    reflexivity.
Qed.

(** A failed attempt that is not the last one: call, wait, go on. *)
Lemma retry_attempts_failed agent input_text timeout attempt rest w :
  attempt < 2 →
  failed (wait_for_run env agent input_text timeout (length (calls w))) →
  retry_attempts env agent input_text timeout (attempt :: rest) w =
  retry_attempts env agent input_text timeout rest
    (w ++ [Called (Build_Call agent input_text timeout); Slept (2 ^ attempt)]).
Proof.
  intros Hlt [e He]. rewrite retry_attempts_cons, retry_turn_eq. cbn zeta.
  rewrite He. apply Nat.ltb_lt in Hlt. rewrite Hlt.
  by rewrite <- app_assoc.
Qed.

(** An attempt that completes without a usable result: call, go on. *)
Lemma retry_attempts_absent agent input_text timeout attempt rest w :
  absent (wait_for_run env agent input_text timeout (length (calls w))) →
  retry_attempts env agent input_text timeout (attempt :: rest) w =
  retry_attempts env agent input_text timeout rest
    (w ++ [Called (Build_Call agent input_text timeout)]).
Proof.
  intros [He|He]; rewrite retry_attempts_cons, retry_turn_eq; cbn zeta;
    by rewrite He.
Qed.

Lemma retry_attempts_result agent input_text timeout attempt rest w r :
  wait_for_run env agent input_text timeout (length (calls w))
    = Completed (RetResult r) →
  retry_attempts env agent input_text timeout (attempt :: rest) w =
  (Ok (Some r), w ++ [Called (Build_Call agent input_text timeout)]).
Proof.
  intros He. rewrite retry_attempts_cons, retry_turn_eq. cbn zeta.
  by rewrite He.
Qed.

Lemma retry_attempts_last_failed agent input_text timeout attempt rest w e :
  2 ≤ attempt →
  wait_for_run env agent input_text timeout (length (calls w)) = Raised e →
  retry_attempts env agent input_text timeout (attempt :: rest) w =
  (Exc e, w ++ [Called (Build_Call agent input_text timeout)]).
Proof.
  intros Hge He. rewrite retry_attempts_cons, retry_turn_eq. cbn zeta.
  rewrite He. apply Nat.ltb_ge in Hge. by rewrite Hge.
Qed.

Lemma length_calls_snoc w c : length (calls (w ++ [Called c])) = S (length (calls w)).
Proof. rewrite calls_app, length_app. cbn. lia. Qed.

Lemma length_calls_failed w c d :
  length (calls (w ++ [Called c; Slept d])) = S (length (calls w)).
Proof. rewrite calls_app, length_app. cbn. lia. Qed.

Lemma sum_backoffs n : sum_list (backoffs n) = 2 ^ n - 1.
Proof.
  unfold backoffs. induction n as [|n IH]; [done|].
  rewrite seq_S, fmap_app, sum_list_with_app, IH.
  change (sum_list ((λ k, 2 ^ k) <$> [0 + n])) with (2 ^ n + 0).
  pose proof (Nat.pow_nonzero 2 n). rewrite Nat.pow_succ_r'. lia.
Qed.

Lemma sleeps_failures_trace c attempt n :
  sleeps (failures_trace c attempt n) = (λ k, 2 ^ k) <$> seq attempt n.
Proof.
  revert attempt. induction n as [|n IH]; intros attempt; [done|].
  cbn [failures_trace sleeps seq fmap list_fmap]. by rewrite IH.
Qed.

Lemma calls_failures_trace c attempt n :
  calls (failures_trace c attempt n) = replicate n c.
Proof.
  revert attempt. induction n as [|n IH]; intros attempt; [done|].
  cbn [failures_trace calls replicate]. by rewrite IH.
Qed.

(** [n] failures, then whatever the remaining attempts do. *)
Lemma retry_attempts_failures agent input_text timeout n m attempt w :
  attempt + n ≤ 2 →
  (∀ k, k < n →
     failed (wait_for_run env agent input_text timeout (length (calls w) + k))) →
  retry_attempts env agent input_text timeout (seq attempt (n + m)) w =
  retry_attempts env agent input_text timeout (seq (attempt + n) m)
    (w ++ failures_trace (Build_Call agent input_text timeout) attempt n).
Proof.
  revert attempt w. induction n as [|n IH]; intros attempt w Hle Hf.
  - cbn [failures_trace]. by rewrite app_nil_r, Nat.add_0_r.
  - cbn [Nat.add seq failures_trace].
    rewrite retry_attempts_failed; [|lia|].
    2:{ specialize (Hf 0 ltac:(lia)). by rewrite Nat.add_0_r in Hf. }
    rewrite (IH (S attempt)); [|lia|].
    + rewrite <- app_assoc. cbn [app]. by rewrite Nat.add_succ_r.
    + intros k Hk. rewrite length_calls_failed.
      specialize (Hf (S k) ltac:(lia)). by rewrite Nat.add_succ_r in Hf.
Qed.

(** C4 (amended): [n] failed attempts (timeouts or raised errors), [n < 3],
    followed by a success make [run_with_retry] return that result after
    waiting 1, 2, ..., 2^(n-1), that is 2^n - 1 in total, one wait after each
    failure; three failures in a row make it re-raise the last error, the
    trace ending with the third call and no wait after it. *)
Theorem run_with_retry_backoff agent input_text timeout w n :
  let c := Build_Call agent input_text timeout in
  let outcome k :=
    wait_for_run env agent input_text timeout (length (calls w) + k) in
  (∀ k, k < n → failed (outcome k)) →
  (n < 3 → ∀ r, outcome n = Completed (RetResult r) →
     ∃ w', run_with_retry env agent input_text timeout w = (Ok (Some r), w')
           ∧ w' = w ++ failures_trace c 0 n ++ [Called c]
           ∧ sleeps w' = sleeps w ++ backoffs n
           ∧ sum_list (backoffs n) = 2 ^ n - 1)
  ∧ (n = 3 →
     ∃ e, outcome 2 = Raised e
          ∧ run_with_retry env agent input_text timeout w
            = (Exc e, w ++ [Called c; Slept 1; Called c; Slept 2; Called c])).
Proof.
  intros c outcome Hf. split.
  - intros Hn r Hr. eexists. split; [|split; [reflexivity|split]].
    + unfold run_with_retry.
      replace 3 with (n + (3 - n)) by lia.
      rewrite (retry_attempts_failures agent input_text timeout n (3 - n) 0 w);
        [|lia|exact Hf].
      destruct (3 - n) as [|m] eqn:Hm; [lia|]. cbn [seq].
      rewrite (retry_attempts_result _ _ _ _ _ _ r).
      * by rewrite <- app_assoc.
      * rewrite calls_app, length_app, calls_failures_trace, length_replicate.
        exact Hr.
    + rewrite !sleeps_app, sleeps_failures_trace. cbn [sleeps].
      by rewrite app_nil_r.
    + apply sum_backoffs.
  - intros ->. destruct (Hf 2 ltac:(lia)) as [e He]. exists e. split; [done|].
    unfold run_with_retry. change (seq 0 3) with (seq 0 (2 + 1)).
    rewrite (retry_attempts_failures agent input_text timeout 2 1 0 w);
      [|lia|intros k Hk; apply Hf; lia].
    cbn [Nat.add seq failures_trace].
    rewrite (retry_attempts_last_failed _ _ _ _ _ _ e); [|lia|].
    + by rewrite <- app_assoc.
    + rewrite calls_app, length_app. exact He.
Qed.

Lemma calls_after_attempt c attempt o : calls (after_attempt c attempt o) = [c].
Proof. by destruct o. Qed.

(** The three turns of the loop, written out. *)
Lemma run_with_retry_unrolled agent input_text timeout w :
  let c := Build_Call agent input_text timeout in
  let outcome k :=
    wait_for_run env agent input_text timeout (length (calls w) + k) in
  let w1 := w ++ after_attempt c 0 (outcome 0) in
  let w2 := w1 ++ after_attempt c 1 (outcome 1) in
  run_with_retry env agent input_text timeout w =
  match result_of (outcome 0) with
  | Some r => (Ok (Some r), w ++ [Called c])
  | None =>
      match result_of (outcome 1) with
      | Some r => (Ok (Some r), w1 ++ [Called c])
      | None =>
          match outcome 2 with
          | Completed (RetResult r) => (Ok (Some r), w2 ++ [Called c])
          | Completed _ => (Ok None, w2 ++ [Called c])
          | Raised e => (Exc e, w2 ++ [Called c])
          end
      end
  end.
Proof.
  intros c outcome w1 w2. unfold run_with_retry. cbn [seq].
  assert (H1 : length (calls w1) = length (calls w) + 1).
  { unfold w1. by rewrite calls_app, length_app, calls_after_attempt. }
  assert (H2 : length (calls w2) = length (calls w) + 2).
  { unfold w2. rewrite calls_app, length_app, calls_after_attempt, H1.
    cbn [length]. lia. }
  assert (Hstep : ∀ attempt rest w0 k,
             attempt < 2 → length (calls w0) = length (calls w) + k →
             result_of (outcome k) = None →
             retry_attempts env agent input_text timeout (attempt :: rest) w0
             = retry_attempts env agent input_text timeout rest
                 (w0 ++ after_attempt c attempt (outcome k))).
  { intros attempt rest w0 k Hlt Hlen Hnone.
    rewrite retry_attempts_cons, retry_turn_eq. cbn zeta. rewrite Hlen.
    fold (outcome k). apply Nat.ltb_lt in Hlt.
    destruct (outcome k) as [[| |r]|e]; cbn [after_attempt];
      [done|done|done|]. by rewrite Hlt, <- app_assoc. }
  assert (Hres : ∀ attempt rest w0 k r,
             length (calls w0) = length (calls w) + k →
             result_of (outcome k) = Some r →
             retry_attempts env agent input_text timeout (attempt :: rest) w0
             = (Ok (Some r), w0 ++ [Called c])).
  { intros attempt rest w0 k r Hlen Hsome.
    apply retry_attempts_result. rewrite Hlen. fold (outcome k).
    by destruct (outcome k) as [[| |r']|e]; simplify_eq/=. }
  destruct (result_of (outcome 0)) as [r|] eqn:H0.
  { apply (Hres _ _ _ 0); [lia|done]. }
  rewrite (Hstep 0 _ w 0); [|lia|lia|done]. fold w1.
  destruct (result_of (outcome 1)) as [r|] eqn:H1'.
  { by apply (Hres _ _ _ 1). }
  rewrite (Hstep 1 _ w1 1); [|lia|done|done]. fold w2.
  rewrite retry_attempts_cons, retry_turn_eq. cbn zeta. rewrite H2.
  fold (outcome 2). by destruct (outcome 2) as [[| |r]|e].
Qed.

(** C10: an attempt whose call completes with [None], or with an object
    that has no [final_output], uses up its turn and leaves its call in
    the trace and nothing else, whatever the earlier attempts were
    (errors, each with its wait, or empty results): the next attempt's
    call follows at once, and after the third attempt [run_with_retry]
    returns [None].  A raised error in the third attempt is raised
    again instead. *)
Theorem run_with_retry_absent_results agent input_text timeout w j :
  let c := Build_Call agent input_text timeout in
  let outcome k :=
    wait_for_run env agent input_text timeout (length (calls w) + k) in
  let before := concat ((λ k, after_attempt c k (outcome k)) <$> seq 0 j) in
  j < 3 →
  (∀ k, k < j → result_of (outcome k) = None) →
  absent (outcome j) →
  calls before = replicate j c
  ∧ ((∀ k, k < j → absent (outcome k)) → before = replicate j (Called c))
  ∧ (∃ res rest,
       run_with_retry env agent input_text timeout w
       = (res, w ++ before ++ Called c :: rest)
       ∧ (j < 2 → ∃ rest', rest = Called c :: rest')
       ∧ (j = 2 → res = Ok None ∧ rest = []))
  ∧ ∀ e, (∀ k, k < 2 → result_of (outcome k) = None) →
         outcome 2 = Raised e →
         (run_with_retry env agent input_text timeout w).1 = Exc e.
Proof.
  intros c outcome before Hj Hnone Habs.
  pose proof (run_with_retry_unrolled agent input_text timeout w) as Hrun.
  cbn zeta in Hrun. fold c in Hrun.
  fold outcome in Hrun.
  split; [|split; [|split]].
  - unfold before. clear. induction j as [|j IH]; [done|].
    rewrite seq_S, fmap_app, concat_app, calls_app, IH. cbn [Nat.add fmap list_fmap concat].
    rewrite app_nil_r, calls_after_attempt.
    clear. induction j as [|j IH]; [done|]. cbn [replicate app]. by rewrite IH.
  - intros Hall. unfold before. clear -Hall.
    assert (Hk : ∀ k, k < j → after_attempt c k (outcome k) = [Called c]).
    { intros k Hk. by destruct (Hall k Hk) as [-> | ->]. }
    clear Hall. induction j as [|j IH]; [done|].
    rewrite seq_S, fmap_app, concat_app, IH by (intros k Hk'; apply Hk; lia).
    cbn [Nat.add fmap list_fmap concat]. rewrite app_nil_r, Hk by lia.
    clear. induction j as [|j IH]; [done|]. cbn [replicate app]. by rewrite IH.
  - destruct j as [|[|[|j]]]; [| | |lia]; unfold before;
      cbn [seq fmap list_fmap concat app].
    + assert (H0 : result_of (outcome 0) = None)
        by (by destruct Habs as [-> | ->]).
      rewrite H0 in Hrun.
      assert (Ha : after_attempt c 0 (outcome 0) = [Called c])
        by (by destruct Habs as [-> | ->]).
      rewrite Ha in Hrun.
      destruct (outcome 1) as [[| |r1]|e1]; cbn [result_of after_attempt] in Hrun;
        try destruct (outcome 2) as [[| |r]|e];
        rewrite Hrun, <- ?app_assoc; eexists _, _;
        (split; [reflexivity|]); (split; [intros _; by eexists|lia]).
    + rewrite (Hnone 0) in Hrun by lia.
      assert (H1 : result_of (outcome 1) = None)
        by (by destruct Habs as [-> | ->]).
      rewrite H1 in Hrun.
      assert (Ha : after_attempt c 1 (outcome 1) = [Called c])
        by (by destruct Habs as [-> | ->]).
      rewrite Ha in Hrun. rewrite app_nil_r.
      destruct (outcome 2) as [[| |r]|e];
        rewrite Hrun, <- ?app_assoc; eexists _, _;
        (split; [reflexivity|]); (split; [intros _; by eexists|lia]).
    + rewrite (Hnone 0), (Hnone 1) in Hrun by lia. rewrite app_nil_r.
      exists (Ok None), []. rewrite <- !app_assoc in Hrun.
      rewrite <- !app_assoc.
      split; [|split; [lia|done]].
      by destruct Habs as [He | He]; rewrite He in Hrun.
  - intros e He2 He. rewrite Hrun, (He2 0), (He2 1), He by lia. reflexivity.
Qed.

End RetryProperties.

Section LoopProperties.

Variable env : Env.

Lemma Qgtb_lt x y : Qgtb x y = true ↔ (y < x)%Q.
Proof.
  unfold Qgtb. rewrite negb_true_iff, <- not_true_iff_false, Qle_bool_iff.
  split; [apply Qnot_le_lt|apply Qlt_not_le].
Qed.

Lemma Qgtb_not_lt x y : Qgtb x y = false ↔ ¬ (y < x)%Q.
Proof. rewrite <- Qgtb_lt. destruct (Qgtb x y); naive_solver. Qed.

Lemma round_body_eq research_data attempt st w :
  round_body env research_data attempt st w =
  match evaluated_draft env research_data (prompt st) w with
  | (Ok (Some (c, e)), w') =>
      (Ok (if approved e then (Break, keep_best st c e)
           else (Continue, with_feedback (keep_best st c e) e)), w')
  | (_, w') => (Ok (Continue, st), w')
  end.
Proof.
  unfold round_body, evaluated_draft. run_monad.
  destruct (run_with_retry env master_content_agent (prompt st) 150 w)
    as [[[[out]|]|x] w1]; try reflexivity.
  cbn [final_output]. destruct out as [|master_content| | | |]; try reflexivity.
  destruct (format_content_for_evaluation env master_content research_data 0)
    as [eval_prompt|x]; try reflexivity.
  destruct (run_with_retry env evaluator_agent eval_prompt 120 w1)
    as [[[[out]|]|x] w2]; try reflexivity.
  cbn [final_output]. destruct out as [| |evaluation| | |]; try reflexivity.
  destruct (approved evaluation); reflexivity.
Qed.


(** *** The loop as a fold over the attempts it made *)

Lemma best_of_keep_best st c e : best_of (keep_best st c e) = retain (best_of st) (c, e).
Proof.
  unfold keep_best, retain, best_of. cbn [fst snd].
  by destruct (Qgtb (overall_score e) (best_score st)).
Qed.

Lemma round_body_ok research_data attempt st w :
  ∃ ctl st' w', round_body env research_data attempt st w = (Ok (ctl, st'), w').
Proof.
  rewrite round_body_eq.
  destruct (evaluated_draft env research_data (prompt st) w)
    as [[[[c e]|]|x] w']; try destruct (approved e); eauto.
Qed.

Lemma rounds_ok research_data attempts st w :
  ∃ st' w', rounds env research_data attempts st w = (Ok st', w').
Proof.
  revert st w. induction attempts as [|attempt rest IH]; intros st w.
  - by eexists _, _.
  - cbn [rounds]. unfold bind.
    destruct (round_body_ok research_data attempt st w)
      as ([|] & st1 & w1 & ->); [apply IH|by eexists _, _].
Qed.

Lemma rounds_fold research_data attempts st w st' w' :
  rounds env research_data attempts st w = (Ok st', w') →
  best_of st'
  = fold_left retain (attempts_made env research_data attempts st w) (best_of st).
Proof.
  revert st w. induction attempts as [|attempt rest IH]; intros st w.
  - cbn. unfold ret. by intros [= ->].
  - cbn [rounds attempts_made]. unfold bind. rewrite round_body_eq.
    destruct (evaluated_draft env research_data (prompt st) w)
      as [[[[c e]|]|x] w1]; [|apply IH|apply IH].
    destruct (approved e).
    + unfold ret. intros [= <- <-]. cbn. apply best_of_keep_best.
    + intros Hr. apply IH in Hr. rewrite Hr. cbn [app fold_left].
      by rewrite <- best_of_keep_best.
Qed.

Lemma fold_retain_some T b :
  is_Some b.1.1 → is_Some (fold_left retain T b).1.1.
Proof.
  revert b. induction T as [|a T IH]; intros b Hb; [done|].
  cbn [fold_left]. apply IH. unfold retain.
  by destruct (Qgtb (overall_score a.2) b.2).
Qed.

Lemma retain_le b a : (b.2 <= (retain b a).2)%Q.
Proof.
  unfold retain. destruct (Qgtb (overall_score a.2) b.2) eqn:Hg; cbn [snd].
  - apply Qgtb_lt in Hg. by apply Qlt_le_weak.
  - apply Qle_refl.
Qed.

(** The fold returns its start or one of the attempts, whole, and that
    attempt beats the starting score. *)
Lemma fold_retain_elem T b :
  fold_left retain T b = b
  ∨ ∃ a, a ∈ T ∧ (b.2 < overall_score a.2)%Q
         ∧ fold_left retain T b = (Some a.1, Some a.2, overall_score a.2).
Proof.
  revert b. induction T as [|a T IH]; intros b; [by left|].
  cbn [fold_left]. destruct (IH (retain b a)) as [Heq|(a' & Hin & Hlt & Heq)].
  - rewrite Heq. unfold retain.
    destruct (Qgtb (overall_score a.2) b.2) eqn:Hg; [right|by left].
    apply Qgtb_lt in Hg. exists a. split; [left|done].
  - right. exists a'. split; [by right|]. split; [|done].
    eapply Qle_lt_trans; [apply (retain_le b a)|done].
Qed.

(** The retained score bounds the start and every attempt. *)
Lemma fold_retain_max T b :
  (b.2 <= (fold_left retain T b).2)%Q
  ∧ Forall (λ a, (overall_score a.2 <= (fold_left retain T b).2)%Q) T.
Proof.
  revert b. induction T as [|a T IH]; intros b.
  - split; [apply Qle_refl|constructor].
  - cbn [fold_left]. destruct (IH (retain b a)) as [Hb HT].
    assert (Hstep : (b.2 <= (retain b a).2)%Q
                    ∧ (overall_score a.2 <= (retain b a).2)%Q).
    { unfold retain. destruct (Qgtb (overall_score a.2) b.2) eqn:Hg; cbn [snd].
      - apply Qgtb_lt in Hg. split; [by apply Qlt_le_weak|apply Qle_refl].
      - apply Qgtb_not_lt in Hg. split; [apply Qle_refl|by apply Qnot_lt_le]. }
    destruct Hstep as [H1 H2]. split; [by eapply Qle_trans|].
    constructor; [by eapply Qle_trans|done].
Qed.

(** Nothing is retained exactly when no attempt beats the starting score. *)
Lemma fold_retain_none T b :
  b.1.1 = None →
  (fold_left retain T b).1.1 = None
  ↔ Forall (λ a, ¬ (b.2 < overall_score a.2)%Q) T.
Proof.
  revert b. induction T as [|a T IH]; intros b Hb.
  - split; [constructor|done].
  - cbn [fold_left]. unfold retain at 2.
    destruct (Qgtb (overall_score a.2) b.2) eqn:Hg.
    + apply Qgtb_lt in Hg. split.
      * intros Hn.
        destruct (fold_retain_some T (Some a.1, Some a.2, overall_score a.2))
          as [x Hx]; [by eexists|]. congruence.
      * intros HF. apply Forall_cons in HF as [Hn _]. by destruct Hn.
    + apply Qgtb_not_lt in Hg. rewrite (IH b Hb). split.
      * intros HF. by constructor.
      * intros HF. by apply Forall_cons in HF as [_ HF].
Qed.

Lemma draft_evaluate_loop_eq research_data p w :
  format_research_for_master_content env research_data = Ok p →
  ∃ st' w',
    rounds env research_data [1; 2; 3] (initial_state p) w = (Ok st', w')
    ∧ draft_evaluate_loop env research_data w = (Ok (best_attempt st'), w')
    ∧ best_of st'
      = fold_left retain
          (attempts_made env research_data [1; 2; 3] (initial_state p) w)
          (None, None, 0%Q).
Proof.
  intros Hp.
  destruct (rounds_ok research_data [1; 2; 3] (initial_state p) w)
    as (st' & w' & Hr).
  exists st', w'. split; [done|]. split.
  - unfold draft_evaluate_loop. run_monad. by rewrite Hp, Hr.
  - by rewrite (rounds_fold _ _ _ _ _ _ Hr).
Qed.




Lemma best_attempt_of st bc be s :
  best_of st = (bc, be, s) →
  best_attempt st
  = match bc with
    | None => None
    | Some c => if String.eqb c "" then None else Some (c, be)
    end.
Proof. unfold best_of, best_attempt. by intros [= -> -> _]. Qed.

(** C3 (amended): when the writer's drafts are not empty, the loop returns
    nothing exactly when no executed round delivered an evaluated draft
    with an overall score strictly greater than 0; otherwise it returns
    one of the evaluated drafts with its evaluation, of positive score and
    of the greatest score among them. *)
Theorem loop_absent_iff_no_positive_attempt research_data p w :
  let T := attempts_made env research_data [1; 2; 3] (initial_state p) w in
  format_research_for_master_content env research_data = Ok p →
  Forall (λ a, a.1 ≠ "") T →
  ∃ res w',
    draft_evaluate_loop env research_data w = (Ok res, w')
    ∧ (res = None ↔ Forall (λ a, ¬ (0 < overall_score a.2)%Q) T)
    ∧ (∀ c oe, res = Some (c, oe) →
         ∃ e, oe = Some e ∧ (c, e) ∈ T ∧ (0 < overall_score e)%Q
              ∧ Forall (λ a, (overall_score a.2 <= overall_score e)%Q) T).
Proof.
  intros T Hp Hne.
  destruct (draft_evaluate_loop_eq research_data p w Hp)
    as (st' & w' & _ & Hloop & Hfold).
  fold T in Hfold. exists (best_attempt st'), w'. split; [done|].
  pose proof (fold_retain_none T (None, None, 0%Q) eq_refl) as Hnone.
  pose proof (fold_retain_max T (None, None, 0%Q)) as [_ Hmax].
  rewrite <- Hfold in Hnone, Hmax. cbn [fst snd] in Hnone.
  destruct (fold_retain_elem T (None, None, 0%Q)) as [Heq|(a & Hin & Hlt & Heq)];
    rewrite <- Hfold in Heq.
  - rewrite (best_attempt_of _ _ _ _ Heq). split; [|done].
    split; [|done]. intros _. apply Hnone. by rewrite Heq.
  - rewrite (best_attempt_of _ _ _ _ Heq).
    assert (Ha : a.1 ≠ "") by (by eapply Forall_forall in Hne).
    apply String.eqb_neq in Ha. rewrite Ha. split.
    + split; [done|]. intros HF. apply Hnone in HF. by rewrite Heq in HF.
    + intros c oe [= <- <-]. exists a.2. split; [done|].
      destruct a as [c e]. cbn [fst snd] in *. split; [done|]. split; [done|].
      by rewrite Heq in Hmax.
Qed.

(** C9 (amended): the evaluation the loop accepts as best is one the
    evaluate stage reported for that very draft, kept as reported; the
    loop does not recompute the weighted sum, so the accepted overall
    score is within 0.05 of it whenever the reported evaluations are. *)
Theorem accepted_evaluation_as_reported research_data p w c e w' :
  let T := attempts_made env research_data [1; 2; 3] (initial_state p) w in
  format_research_for_master_content env research_data = Ok p →
  draft_evaluate_loop env research_data w = (Ok (Some (c, Some e)), w') →
  (c, e) ∈ T ∧ (Forall (λ a, weighted_sum_ok a.2) T → weighted_sum_ok e).
Proof.
  intros T Hp Hres.
  destruct (draft_evaluate_loop_eq research_data p w Hp)
    as (st' & w'' & _ & Hloop & Hfold).
  fold T in Hfold. rewrite Hloop in Hres. injection Hres as Hbest _.
  assert (Hin : (c, e) ∈ T).
  { destruct (fold_retain_elem T (None, None, 0%Q)) as [Heq|(a & Hin & _ & Heq)];
      rewrite <- Hfold in Heq; rewrite (best_attempt_of _ _ _ _ Heq) in Hbest;
      [done|].
    destruct (String.eqb a.1 ""); [done|].
    injection Hbest as <- <-. by destruct a. }
  split; [done|]. intros HF.
  by apply (proj1 (Forall_forall _ _) HF (c, e)).
Qed.


End LoopProperties.

Section PipelineProperties.

Variable env : Env.

Lemma only_calls_app agents tr1 tr2 :
  only_calls agents tr1 → only_calls agents tr2 → only_calls agents (tr1 ++ tr2).
Proof. unfold only_calls. rewrite calls_app. apply Forall_app_2. Qed.

Lemma only_calls_mono agents agents' tr :
  agents ⊆ agents' → only_calls agents tr → only_calls agents' tr.
Proof.
  unfold only_calls. intros Hsub Hall. eapply Forall_impl; [exact Hall|].
  intros c. apply Hsub.
Qed.

Lemma only_calls_nil agents : only_calls agents [].
Proof. constructor. Qed.

Lemma only_calls_writer tr :
  only_calls [master_content_agent] tr →
  only_calls [master_content_agent; evaluator_agent] tr.
Proof.
  apply only_calls_mono. intros a Ha.
  apply list_elem_of_singleton in Ha as ->. constructor.
Qed.

Lemma only_calls_evaluator tr :
  only_calls [evaluator_agent] tr →
  only_calls [master_content_agent; evaluator_agent] tr.
Proof.
  apply only_calls_mono. intros a Ha.
  apply list_elem_of_singleton in Ha as ->. do 2 constructor.
Qed.

(** Every attempt of an invocation calls the same agent with the same
    input, and there is at least one. *)
Lemma retry_attempts_trace agent input_text timeout attempts w res w' :
  retry_attempts env agent input_text timeout attempts w = (res, w') →
  ∃ tr, w' = w ++ tr
        ∧ Forall (λ c, c = Build_Call agent input_text timeout) (calls tr)
        ∧ (attempts ≠ [] →
           ∃ tr', tr = Called (Build_Call agent input_text timeout) :: tr').
Proof.
  revert w. induction attempts as [|attempt rest IH]; intros w.
  - intros [= <- <-]. exists []. by rewrite app_nil_r.
  - rewrite retry_attempts_cons, retry_turn_eq. cbn zeta.
    set (c := Build_Call agent input_text timeout).
    assert (Hone : ∃ tr, w ++ [Called c] = w ++ tr
                         ∧ Forall (λ c', c' = c) (calls tr)
                         ∧ (attempt :: rest ≠ [] → ∃ tr', tr = Called c :: tr')).
    { exists [Called c]. split; [done|]. split; [by repeat constructor|by eexists]. }
    destruct (wait_for_run env agent input_text timeout (length (calls w)))
      as [[| |r]|e].
    + intros Hr. apply IH in Hr as (tr & -> & Hall & _).
      exists (Called c :: tr). rewrite <- app_assoc. split; [done|].
      split; [by constructor|by eexists].
    + intros Hr. apply IH in Hr as (tr & -> & Hall & _).
      exists (Called c :: tr). rewrite <- app_assoc. split; [done|].
      split; [by constructor|by eexists].
    + by intros [= <- <-].
    + destruct (attempt <? 2).
      * intros Hr. apply IH in Hr as (tr & -> & Hall & _).
        exists (Called c :: Slept (2 ^ attempt) :: tr). rewrite <- !app_assoc.
        split; [done|]. split; [by constructor|by eexists].
      * by intros [= <- <-].
Qed.

Lemma run_with_retry_trace agent input_text timeout w res w' :
  run_with_retry env agent input_text timeout w = (res, w') →
  ∃ tr, w' = w ++ Called (Build_Call agent input_text timeout) :: tr
        ∧ only_calls [agent] (Called (Build_Call agent input_text timeout) :: tr).
Proof.
  intros Hr. apply retry_attempts_trace in Hr as (tr & -> & Hall & Hne).
  destruct Hne as [tr' ->]; [done|]. exists tr'. split; [done|].
  unfold only_calls. eapply Forall_impl; [exact Hall|].
  intros c ->. cbn. constructor.
Qed.

Lemma research_step_trace topic w res w' :
  research_step env topic w = (res, w') →
  ∃ tr, w' = w ++ tr ∧ only_calls [research_agent] tr.
Proof.
  unfold research_step. run_monad.
  destruct (run_with_retry env research_agent _ 180 w) as [r w1] eqn:Hr.
  apply run_with_retry_trace in Hr as (tr & -> & Hall).
  intros Heq. eexists. split; [|exact Hall].
  destruct r as [[r|]|x]; [|by injection Heq as _ <-..].
  destruct (loads env (final_output r)) as [rd|x]; [|by injection Heq as _ <-].
  destruct (res_bind _ _); by injection Heq as _ <-.
Qed.

Lemma research_step_ok topic w :
  ∃ r w', research_step env topic w = (Ok r, w').
Proof.
  unfold research_step. run_monad.
  destruct (run_with_retry env research_agent _ 180 w) as [[[r|]|x] w1];
    [|by eexists _, _..].
  destruct (loads env (final_output r)) as [rd|x]; [|by eexists _, _].
  destruct (res_bind _ _); by eexists _, _.
Qed.

Lemma evaluated_draft_trace research_data prompt w res w' :
  evaluated_draft env research_data prompt w = (res, w') →
  ∃ tr, w' = w ++ tr ∧ only_calls [master_content_agent; evaluator_agent] tr.
Proof.
  unfold evaluated_draft. run_monad.
  destruct (run_with_retry env master_content_agent prompt 150 w)
    as [r w1] eqn:Hr.
  apply run_with_retry_trace in Hr as (tr1 & -> & Hall1).
  apply only_calls_writer in Hall1.
  assert (Hstop : ∀ (r : Res (option (string * ContentEvaluation))) w2,
             (r, w ++ Called (Build_Call master_content_agent prompt 150) :: tr1)
             = (res, w2) →
             ∃ tr, w2 = w ++ tr
                   ∧ only_calls [master_content_agent; evaluator_agent] tr).
  { intros r' w2 [= _ <-]. by eexists. }
  destruct r as [[[out]|]|x]; [|by apply Hstop..].
  cbn [final_output]. destruct out as [|c| | | |]; try by apply Hstop.
  destruct (format_content_for_evaluation env c research_data 0)
    as [eval_prompt|x]; [|by apply Hstop].
  destruct (run_with_retry env evaluator_agent eval_prompt 120 _)
    as [r2 w2] eqn:Hr2.
  apply run_with_retry_trace in Hr2 as (tr2 & -> & Hall2).
  apply only_calls_evaluator in Hall2.
  intros Heq. eexists (_ ++ _). split.
  2:{ apply only_calls_app; [exact Hall1|exact Hall2]. }
  rewrite app_assoc.
  destruct r2 as [[[out]|]|x]; [destruct out|..]; cbn in Heq;
    by injection Heq as _ <-.
Qed.

Lemma rounds_trace research_data attempts st w res w' :
  rounds env research_data attempts st w = (res, w') →
  ∃ tr, w' = w ++ tr ∧ only_calls [master_content_agent; evaluator_agent] tr.
Proof.
  revert st w. induction attempts as [|attempt rest IH]; intros st w.
  - intros [= _ <-]. exists []. split; [by rewrite app_nil_r|constructor].
  - cbn [rounds]. unfold bind. rewrite round_body_eq.
    destruct (evaluated_draft env research_data (prompt st) w)
      as [r w1] eqn:Hd.
    apply evaluated_draft_trace in Hd as (tr1 & -> & Hall1).
    assert (Hgo : ∀ st1,
               rounds env research_data rest st1 (w ++ tr1) = (res, w') →
               ∃ tr, w' = w ++ tr
                     ∧ only_calls [master_content_agent; evaluator_agent] tr).
    { intros st1 Hr. apply IH in Hr as (tr2 & -> & Hall2).
      exists (tr1 ++ tr2). rewrite app_assoc. split; [done|].
      by apply only_calls_app. }
    destruct r as [[[c e]|]|x]; [|apply Hgo..].
    destruct (approved e); [|apply Hgo].
    intros [= _ <-]. by eexists.
Qed.

Lemma draft_evaluate_loop_trace research_data w res w' :
  draft_evaluate_loop env research_data w = (res, w') →
  ∃ tr, w' = w ++ tr ∧ only_calls [master_content_agent; evaluator_agent] tr.
Proof.
  unfold draft_evaluate_loop. run_monad.
  destruct (format_research_for_master_content env research_data) as [p|x].
  - destruct (rounds env research_data [1; 2; 3] (initial_state p) w)
      as [r w1] eqn:Hr.
    apply rounds_trace in Hr as (tr & -> & Hall).
    intros Heq. exists tr. split; [|done]. destruct r; by injection Heq as _ <-.
  - intros [= _ <-]. exists []. split; [by rewrite app_nil_r|constructor].
Qed.

(** A returned best attempt always carries its evaluation. *)
Lemma draft_evaluate_loop_some research_data w c oe w' :
  draft_evaluate_loop env research_data w = (Ok (Some (c, oe)), w') →
  ∃ e, oe = Some e.
Proof.
  intros Hres.
  destruct (format_research_for_master_content env research_data) as [p|x] eqn:Hp.
  - destruct (draft_evaluate_loop_eq env research_data p w Hp)
      as (st' & w'' & _ & Hloop & Hfold).
    rewrite Hloop in Hres. injection Hres as Hbest _.
    destruct (fold_retain_elem
                (attempts_made env research_data [1; 2; 3] (initial_state p) w)
                (None, None, 0%Q)) as [Heq|(a & _ & _ & Heq)];
      rewrite <- Hfold in Heq; rewrite (best_attempt_of _ _ _ _ Heq) in Hbest;
      [done|].
    destruct (String.eqb a.1 ""); [done|]. injection Hbest as _ <-. by eexists.
  - unfold draft_evaluate_loop, bind, lift in Hres. by rewrite Hp in Hres.
Qed.

Lemma social_media_step_eq topic c w :
  social_media_step env topic c w =
  match run_with_retry env social_media_agent
          (format_master_content_for_social c topic) 120 w with
  | (Ok (Some r), w') =>
      if truthy (final_output r) then (Ok (Some (final_output r)), w')
      else (Ok None, w')
  | (_, w') => (Ok None, w')
  end.
Proof.
  unfold social_media_step. run_monad.
  destruct (run_with_retry env social_media_agent _ 120 w) as [[[r|]|x] w'];
    try reflexivity.
  by destruct (truthy (final_output r)).
Qed.

Lemma storage_step_eq topic c sm w :
  ∃ storage_prompt,
    format_content_for_storage topic c (VSocial sm) = Ok storage_prompt
    ∧ storage_step env topic c (VSocial sm) w
      = let (res, w') := run_with_retry env storage_agent storage_prompt 120 w in
        (Ok (kept res), w').
Proof.
  eexists. split; [reflexivity|].
  unfold storage_step. run_monad. cbn [format_content_for_storage].
  destruct (run_with_retry env storage_agent _ 120 w) as [[[r|]|x] w'];
    try reflexivity.
  unfold kept. by destruct (keep_if_success (final_output r)).
Qed.

Lemma schedule_step_eq topic sm w :
  ∃ schedule_prompt,
    format_content_for_scheduling topic (VSocial sm) = Ok schedule_prompt
    ∧ schedule_step env topic (VSocial sm) w
      = let (res, w') := run_with_retry env scheduler_agent schedule_prompt 120 w in
        (Ok (kept res), w').
Proof.
  eexists. split; [reflexivity|].
  unfold schedule_step. run_monad.
  cbn [format_content_for_scheduling].
  destruct (run_with_retry env scheduler_agent _ 120 w) as [[[r|]|x] w'];
    try reflexivity.
  unfold kept. by destruct (keep_if_success (final_output r)).
Qed.

Lemma kept_failed res : ¬ stage_succeeded res → kept res = VNone.
Proof.
  intros Hn. destruct res as [[[out]|]|x]; try reflexivity.
  unfold kept, keep_if_success. cbn [final_output].
  destruct (truthy out) eqn:Ht; [|done].
  destruct (getattr_success out) as [[|]|x] eqn:Hs; try reflexivity.
  destruct Hn. by eexists.
Qed.

Lemma storage_step_ok topic c social w :
  ∃ v w', storage_step env topic c social w = (Ok v, w').
Proof.
  unfold storage_step. run_monad.
  destruct (format_content_for_storage topic c social); [|by eexists _, _].
  destruct (run_with_retry env storage_agent _ 120 w) as [[[r|]|x] w'];
    try (by eexists _, _).
  destruct (keep_if_success _); by eexists _, _.
Qed.

Lemma schedule_step_ok topic social w :
  ∃ v w', schedule_step env topic social w = (Ok v, w').
Proof.
  unfold schedule_step. run_monad.
  destruct (format_content_for_scheduling topic social); [|by eexists _, _].
  destruct (run_with_retry env scheduler_agent _ 120 w) as [[[r|]|x] w'];
    try (by eexists _, _).
  destruct (keep_if_success _); by eexists _, _.
Qed.

Lemma run_workflow_eq topic w research_data w1 c e w2 :
  research_step env topic w = (Ok (Some research_data), w1) →
  draft_evaluate_loop env research_data w1 = (Ok (Some (c, Some e)), w2) →
  run_workflow env topic w = publish env topic c e w2.
Proof.
  intros Hr Hl. unfold run_workflow, bind. by rewrite Hr, Hl.
Qed.

(** C7: when the Repurpose stage fails (its invocation raises, returns
    [None] or delivers nothing usable), the run ends right there: the
    trace stops at the Repurpose invocation, the whole run called the
    research, writer, evaluator and social media agents only, and the
    record returned holds the topic, the best draft and its evaluation,
    a [None] for the social media content, and no entry at all for
    storage and schedule. *)
Theorem repurpose_failure_skips_persist_and_schedule topic w research_data w1
    c oe w2 res w3 :
  research_step env topic w = (Ok (Some research_data), w1) →
  draft_evaluate_loop env research_data w1 = (Ok (Some (c, oe)), w2) →
  run_with_retry env social_media_agent
    (format_master_content_for_social c topic) 120 w2 = (res, w3) →
  repurpose_failed res →
  ∃ record e,
    run_workflow env topic w = (Ok (Some record), w3)
    ∧ oe = Some e
    ∧ record !! "topic" = Some (VStr topic)
    ∧ record !! "master_content" = Some (VStr c)
    ∧ record !! "evaluation" = Some (VEval e)
    ∧ record !! "social_media" = Some VNone
    ∧ record !! "storage" = None
    ∧ record !! "schedule" = None
    ∧ ∃ tr, w3 = w ++ tr
            ∧ only_calls [research_agent; master_content_agent;
                          evaluator_agent; social_media_agent] tr.
Proof.
  intros Hr Hl Hs Hfail.
  destruct (draft_evaluate_loop_some _ _ _ _ _ Hl) as [e ->].
  exists (partial_record topic c e), e.
  split.
  { rewrite (run_workflow_eq _ _ _ _ _ _ _ Hr Hl).
    unfold publish. run_monad. rewrite social_media_step_eq, Hs.
    destruct res as [[r|]|x]; try reflexivity.
    cbn in Hfail. by rewrite Hfail. }
  do 7 (split; [reflexivity|]).
  apply research_step_trace in Hr as (tr1 & -> & H1).
  apply draft_evaluate_loop_trace in Hl as (tr2 & -> & H2).
  apply run_with_retry_trace in Hs as (tr3 & -> & H3).
  eexists. rewrite <- !app_assoc. split; [reflexivity|].
  repeat apply only_calls_app.
  - eapply only_calls_mono; [|exact H1]. intros a Ha.
    apply list_elem_of_singleton in Ha as ->. constructor.
  - eapply only_calls_mono; [|exact H2]. intros a Ha.
    apply elem_of_cons in Ha as [->|Ha]; [do 2 constructor|].
    apply list_elem_of_singleton in Ha as ->. do 3 constructor.
  - eapply only_calls_mono; [|exact H3]. intros a Ha.
    apply list_elem_of_singleton in Ha as ->. do 4 constructor.
Qed.

(** C8: once Repurpose has delivered a [SocialMediaContent], the Schedule
    stage is invoked right after the Persist stage, whatever Persist did;
    the record carries a [schedule] entry, and a failed Persist shows as
    a [None] under [storage]. *)
Theorem schedule_attempted_whatever_persist_does topic w research_data w1
    c oe w2 sm w3 :
  research_step env topic w = (Ok (Some research_data), w1) →
  draft_evaluate_loop env research_data w1 = (Ok (Some (c, oe)), w2) →
  run_with_retry env social_media_agent
    (format_master_content_for_social c topic) 120 w2
    = (Ok (Some {| final_output := VSocial sm |}), w3) →
  ∃ storage_prompt persist w4 schedule_prompt schedule tr record,
    format_content_for_storage topic c (VSocial sm) = Ok storage_prompt
    ∧ run_with_retry env storage_agent storage_prompt 120 w3 = (persist, w4)
    ∧ format_content_for_scheduling topic (VSocial sm) = Ok schedule_prompt
    ∧ run_with_retry env scheduler_agent schedule_prompt 120 w4
      = (schedule,
         w4 ++ Called (Build_Call scheduler_agent schedule_prompt 120) :: tr)
    ∧ run_workflow env topic w
      = (Ok (Some record),
         w4 ++ Called (Build_Call scheduler_agent schedule_prompt 120) :: tr)
    ∧ record !! "social_media" = Some (VSocial sm)
    ∧ record !! "storage" = Some (kept persist)
    ∧ record !! "schedule" = Some (kept schedule)
    ∧ (¬ stage_succeeded persist → record !! "storage" = Some VNone).
Proof.
  intros Hr Hl Hs.
  destruct (draft_evaluate_loop_some _ _ _ _ _ Hl) as [e ->].
  destruct (storage_step_eq topic c sm w3) as (storage_prompt & Hsp & Hst).
  destruct (run_with_retry env storage_agent storage_prompt 120 w3)
    as [persist w4] eqn:Hp.
  destruct (schedule_step_eq topic sm w4) as (schedule_prompt & Hcp & Hsc).
  destruct (run_with_retry env scheduler_agent schedule_prompt 120 w4)
    as [schedule w5] eqn:Hc.
  destruct (run_with_retry_trace _ _ _ _ _ _ Hc) as (tr & -> & _).
  exists storage_prompt, persist, w4, schedule_prompt, schedule, tr.
  exists (full_record topic c e (VSocial sm) (kept persist) (kept schedule)).
  do 4 (split; [done|]). split.
  { rewrite (run_workflow_eq _ _ _ _ _ _ _ Hr Hl).
    unfold publish. run_monad. rewrite social_media_step_eq, Hs.
    cbn [final_output truthy]. by rewrite Hst, Hsc. }
  do 3 (split; [reflexivity|]).
  intros Hn. by rewrite <- (kept_failed persist Hn).
Qed.

(** C6 (amended): the Research step never raises; when it gives up, or
    when the write/evaluate loop ends without a best attempt, the run
    returns [None]; once the loop has returned a best attempt the run
    returns a record with the topic, the draft and its evaluation,
    whatever the Repurpose, Persist and Schedule stages do. *)
Theorem record_returned_once_a_draft_is_kept topic w :
  ∃ research w1,
    research_step env topic w = (Ok research, w1)
    ∧ (research = None → run_workflow env topic w = (Ok None, w1))
    ∧ ∀ research_data, research = Some research_data →
        (∀ w2, draft_evaluate_loop env research_data w1 = (Ok None, w2) →
               run_workflow env topic w = (Ok None, w2))
        ∧ (∀ c oe w2,
             draft_evaluate_loop env research_data w1 = (Ok (Some (c, oe)), w2) →
             ∃ record w3 e,
               run_workflow env topic w = (Ok (Some record), w3)
               ∧ oe = Some e
               ∧ record !! "topic" = Some (VStr topic)
               ∧ record !! "master_content" = Some (VStr c)
               ∧ record !! "evaluation" = Some (VEval e)
               ∧ is_Some (record !! "social_media")).
Proof.
  destruct (research_step_ok topic w) as (research & w1 & Hr).
  exists research, w1. split; [done|]. split.
  - intros ->. unfold run_workflow. run_monad. by rewrite Hr.
  - intros research_data ->. split.
    + intros w2 Hl. unfold run_workflow. run_monad. by rewrite Hr, Hl.
    + intros c oe w2 Hl.
      destruct (draft_evaluate_loop_some _ _ _ _ _ Hl) as [e ->].
      rewrite (run_workflow_eq _ _ _ _ _ _ _ Hr Hl).
      unfold publish. run_monad.
      destruct (social_media_step env topic c w2) as [[[social|]|x] w3] eqn:Hs.
      * destruct (storage_step_ok topic c social w3) as (sd & w4 & ->).
        destruct (schedule_step_ok topic social w4) as (cd & w5 & ->).
        eexists _, _, e. split; [reflexivity|]. split; [done|].
        do 3 (split; [reflexivity|]). by eexists.
      * eexists _, _, e. split; [reflexivity|]. split; [done|].
        do 3 (split; [reflexivity|]). by eexists.
      * rewrite social_media_step_eq in Hs.
        destruct (run_with_retry env social_media_agent _ 120 w2)
          as [[[r|]|y] w'']; [destruct (truthy (final_output r))|..]; done.
Qed.

End PipelineProperties.

(** ** Worked runs *)

(** Scores 4.0, 6.0, 5.5 over the three rounds of the code: the second
    attempt is returned. *)
Example scores_4_6_55 :
  (draft_evaluate_loop
     (scripted [delivered (VStr "one"); delivered (VEval (scored 4 false));
                delivered (VStr "two"); delivered (VEval (scored 6 false));
                delivered (VStr "three");
                delivered (VEval (scored (55 # 10) false))])
     sample_research []).1
  = Ok (Some ("two", Some (scored 6 false))).
Proof. vm_compute. reflexivity. Qed.

(** The same with a fourth round scored 8.0 and approved, on the loop
    body iterated four times: the fourth attempt is kept. *)
Example scores_4_6_55_8 :
  let env :=
    scripted [delivered (VStr "one"); delivered (VEval (scored 4 false));
              delivered (VStr "two"); delivered (VEval (scored 6 false));
              delivered (VStr "three");
              delivered (VEval (scored (55 # 10) false));
              delivered (VStr "four"); delivered (VEval (scored 8 true))] in
  ∃ st3 st4,
    (rounds env sample_research [1; 2; 3] (initial_state sample_prompt) []).1
      = Ok st3
    ∧ best_of st3 = (Some "two", Some (scored 6 false), 6%Q)
    ∧ (rounds env sample_research [1; 2; 3; 4] (initial_state sample_prompt) []).1
      = Ok st4
    ∧ best_of st4 = (Some "four", Some (scored 8 true), 8%Q).
Proof.
  cbv zeta. do 2 eexists.
  split; [vm_compute; reflexivity|]. split; [reflexivity|].
  split; [vm_compute; reflexivity|]. reflexivity.
Qed.

(** Line 68 stands outside every [try]: a research document without the
    [topic] key makes [run_workflow] raise. *)
Example missing_key_escapes :
  (run_workflow
     (scripted_with (JDict [("sources", JList [])]) [delivered (VStr "{}")])
     "remote work" []).1
  = Exc (KeyError "topic").
Proof. vm_compute. reflexivity. Qed.

(** C4, as stated, fails for [n = 3]: after three timeouts the fourth
    call, which would succeed, is never made; the error is raised again
    and the waits add up to 3, not 7. *)
Lemma three_failures_then_success_counterexample :
  let env := scripted [Raised TimeoutError; Raised TimeoutError;
                       Raised TimeoutError; delivered (VStr "late")] in
  let c := Build_Call research_agent "q" 180 in
  run_with_retry env research_agent "q" 180 []
    = (Exc TimeoutError, [Called c; Slept 1; Called c; Slept 2; Called c])
  ∧ sum_list (backoffs 3) = 7
  ∧ ¬ backoff_as_stated 3.
Proof.
  cbv zeta. split; [reflexivity|]. split; [reflexivity|].
  intros H.
  assert (Hsum : 3 = 0 + 7); [|discriminate Hsum].
  apply (H (scripted [Raised TimeoutError; Raised TimeoutError;
                      Raised TimeoutError; delivered (VStr "late")])
           research_agent "q" 180 [] {| final_output := VStr "late" |}
           (Exc TimeoutError)
           [Called (Build_Call research_agent "q" 180); Slept 1;
            Called (Build_Call research_agent "q" 180); Slept 2;
            Called (Build_Call research_agent "q" 180)]);
    [|reflexivity|reflexivity].
  intros [|[|[|k]]] Hk; [by eexists..|lia].
Qed.

Lemma run_with_retry_backoff_witness :
  let env := scripted [Raised TimeoutError; Raised (AgentError "rate limit");
                       delivered (VStr "ok")] in
  let c := Build_Call research_agent "q" 180 in
  run_with_retry env research_agent "q" 180 []
    = (Ok (Some {| final_output := VStr "ok" |}),
       [Called c; Slept 1; Called c; Slept 2; Called c])
  ∧ sum_list (backoffs 2) = 3.
Proof.
  cbv zeta.
  set (env := scripted [Raised TimeoutError; Raised (AgentError "rate limit");
                        delivered (VStr "ok")]).
  assert (Hf : ∀ k, k < 2 →
                 failed (wait_for_run env research_agent "q" 180
                           (length (calls []) + k))).
  { intros [|[|k]] Hk; [by eexists..|lia]. }
  destruct (run_with_retry_backoff env research_agent "q" 180 [] 2 Hf)
    as [Hok _].
  destruct (Hok ltac:(lia) {| final_output := VStr "ok" |} eq_refl)
    as (w' & Hrun & -> & _ & Hsum).
  split; [exact Hrun|exact Hsum].
Defined.

Lemma run_with_retry_absent_results_witness :
  let env := scripted [Raised TimeoutError; Completed RetNone; Completed RetBare] in
  let c := Build_Call research_agent "q" 180 in
  run_with_retry env research_agent "q" 180 []
    = (Ok None, [Called c; Slept 1; Called c; Called c]).
Proof.
  cbv zeta.
  destruct (run_with_retry_absent_results
              (scripted [Raised TimeoutError; Completed RetNone;
                         Completed RetBare])
              research_agent "q" 180 [] 2)
    as (_ & _ & (res & rest & Hrun & _ & Hlast) & _).
  - lia.
  - intros [|[|k]] Hk; [reflexivity..|lia].
  - by right.
  - destruct (Hlast eq_refl) as [-> ->]. exact Hrun.
Defined.




(** C3, as stated, fails: a round that delivers a draft evaluated at 0
    leaves nothing to return, like a round that failed. *)
Lemma evaluated_but_absent_counterexample :
  let env := scripted [delivered (VStr "first draft");
                       delivered (VEval (scored 0 false))] in
  attempts_made env sample_research [1; 2; 3] (initial_state sample_prompt) []
    = [("first draft", scored 0 false)]
  ∧ (draft_evaluate_loop env sample_research []).1 = Ok None
  ∧ ¬ absent_iff_all_rounds_failed_as_stated.
Proof.
  cbv zeta. split; [vm_compute; reflexivity|]. split; [vm_compute; reflexivity|].
  intros H.
  set (env := scripted [delivered (VStr "first draft");
                        delivered (VEval (scored 0 false))]).
  specialize (H env sample_research sample_prompt [] None
                (draft_evaluate_loop env sample_research []).2).
  assert (Hbad : attempts_made env sample_research [1; 2; 3]
                   (initial_state sample_prompt) [] = []);
    [|vm_compute in Hbad; discriminate Hbad].
  apply H; [vm_compute; reflexivity|vm_compute; reflexivity|reflexivity].
Qed.

Lemma loop_absent_iff_no_positive_attempt_witness :
  let env := scripted [delivered (VStr "first draft");
                       delivered (VEval (scored 5 false))] in
  ∃ w', draft_evaluate_loop env sample_research []
        = (Ok (Some ("first draft", Some (scored 5 false))), w').
Proof.
  cbv zeta.
  set (env := scripted [delivered (VStr "first draft");
                        delivered (VEval (scored 5 false))]).
  assert (Hne : Forall (λ a : string * ContentEvaluation, a.1 ≠ "")
                  (attempts_made env sample_research [1; 2; 3]
                     (initial_state sample_prompt) [])).
  { vm_compute. repeat constructor. discriminate. }
  destruct (loop_absent_iff_no_positive_attempt env sample_research
              sample_prompt [] eq_refl Hne) as (res & w' & Hloop & _ & _).
  exists w'. rewrite Hloop. f_equal.
  apply (f_equal fst) in Hloop. vm_compute in Hloop. by injection Hloop as <-.
Defined.

(** C9, as stated, fails: the loop takes an evaluation reporting 9 overall
    over four sub-scores of 0 as its best. *)
Lemma overrated_evaluation_accepted_counterexample :
  let env := scripted [delivered (VStr "first draft");
                       delivered (VEval overrated)] in
  (draft_evaluate_loop env sample_research []).1
    = Ok (Some ("first draft", Some overrated))
  ∧ (weighted_sum overrated == 0)%Q
  ∧ ¬ weighted_sum_ok overrated
  ∧ ¬ accepted_overall_weighted_as_stated.
Proof.
  cbv zeta. split; [vm_compute; reflexivity|]. split; [vm_compute; reflexivity|].
  assert (Hbad : ¬ weighted_sum_ok overrated).
  { intros Hw. vm_compute in Hw. by apply Hw. }
  split; [exact Hbad|]. intros H. apply Hbad.
  set (env := scripted [delivered (VStr "first draft");
                        delivered (VEval overrated)]).
  apply (H env sample_research [] "first draft" overrated
           (draft_evaluate_loop env sample_research []).2).
  vm_compute. reflexivity.
Qed.

Lemma accepted_evaluation_as_reported_witness :
  let env := scripted [delivered (VStr "first draft");
                       delivered (VEval (scored 5 false));
                       delivered (VStr "second draft");
                       delivered (VEval (scored (72 # 10) true))] in
  ("second draft", scored (72 # 10) true)
    ∈ attempts_made env sample_research [1; 2; 3] (initial_state sample_prompt) []
  ∧ weighted_sum_ok (scored (72 # 10) true).
Proof.
  cbv zeta.
  set (env := scripted [delivered (VStr "first draft");
                        delivered (VEval (scored 5 false));
                        delivered (VStr "second draft");
                        delivered (VEval (scored (72 # 10) true))]).
  destruct (accepted_evaluation_as_reported env sample_research sample_prompt []
              "second draft" (scored (72 # 10) true)
              (draft_evaluate_loop env sample_research []).2
              eq_refl ltac:(vm_compute; reflexivity)) as [Hin Hok].
  split; [exact Hin|]. apply Hok. vm_compute. repeat constructor; discriminate.
Defined.

(** C5 fails on the code: [run_workflow] calls
    [format_content_for_evaluation] without [previous_score], so the
    default 0 applies in every round.  In this run the first round sets a
    best score of 5; the evaluator's inputs of the second and third round
    are the prompts for a previous score of 0 and none of the inputs of the
    run carries the "Previous Score:" block, which the helper emits when it
    is given the 5. *)
Lemma evaluator_never_told_the_best_score :
  let env := scripted [delivered (VStr "{}");
                       delivered (VStr "first draft");
                       delivered (VEval (scored 5 false));
                       delivered (VStr "second draft");
                       delivered (VEval (scored 6 false));
                       delivered (VStr "third draft");
                       delivered (VEval (scored (65 # 10) false))] in
  let w := (run_workflow env "remote work" []).2 in
  (∃ w1, round_body env sample_research 1 (initial_state sample_prompt)
           [Called (Build_Call research_agent
                      "Research this topic comprehensively: remote work" 180)]
         = (Ok (Continue,
                with_feedback
                  {| best_content := Some "first draft";
                     best_evaluation := Some (scored 5 false);
                     best_score := 5;
                     prompt := sample_prompt |} (scored 5 false)), w1))
  ∧ inputs_to evaluator_agent w
    = [sample_eval_prompt "first draft" 0; sample_eval_prompt "second draft" 0;
       sample_eval_prompt "third draft" 0]
  ∧ Forall (λ c, contains "Previous Score:" (call_input c) = false) (calls w)
  ∧ contains "Previous Score: 5.0/10" (sample_eval_prompt "second draft" 5) = true.
Proof.
  cbv zeta. split; [eexists; vm_compute; reflexivity|].
  split; [vm_compute; reflexivity|].
  split; [|vm_compute; reflexivity].
  vm_compute. repeat constructor.
Qed.

(** C6, as stated, fails: with Research done and every writer call timing
    out, the loop keeps nothing and the run returns [None]. *)
Lemma loop_exhausted_counterexample :
  let env := scripted [delivered (VStr "{}")] in
  (research_step env "remote work" []).1 = Ok (Some sample_research)
  ∧ length (inputs_to master_content_agent
              (run_workflow env "remote work" []).2) = 9
  ∧ (run_workflow env "remote work" []).1 = Ok None
  ∧ ¬ record_after_research_as_stated.
Proof.
  cbv zeta. do 3 (split; [vm_compute; reflexivity|]).
  intros H.
  set (env := scripted [delivered (VStr "{}")]).
  destruct (H env "remote work" [] sample_research
              (research_step env "remote work" []).2
              ltac:(vm_compute; reflexivity)) as (record & w' & Hrun).
  apply (f_equal fst) in Hrun. vm_compute in Hrun. discriminate Hrun.
Qed.

Lemma repurpose_failure_witness :
  let env := scripted [delivered (VStr "{}");
                       delivered (VStr "first draft");
                       delivered (VEval (scored 8 true));
                       Completed RetNone; Raised TimeoutError;
                       delivered VNone] in
  let w := (run_workflow env "remote work" []).2 in
  ∃ record,
    (run_workflow env "remote work" []).1 = Ok (Some record)
    ∧ record !! "master_content" = Some (VStr "first draft")
    ∧ record !! "evaluation" = Some (VEval (scored 8 true))
    ∧ record !! "storage" = None
    ∧ record !! "schedule" = None
    ∧ inputs_to storage_agent w = []
    ∧ inputs_to scheduler_agent w = [].
Proof.
  cbv zeta.
  set (env := scripted [delivered (VStr "{}");
                        delivered (VStr "first draft");
                        delivered (VEval (scored 8 true));
                        Completed RetNone; Raised TimeoutError;
                        delivered VNone]).
  set (w1 := (research_step env "remote work" []).2).
  set (w2 := (draft_evaluate_loop env sample_research w1).2).
  set (social := run_with_retry env social_media_agent
                   (format_master_content_for_social "first draft" "remote work")
                   120 w2).
  destruct (repurpose_failure_skips_persist_and_schedule env "remote work" []
              sample_research w1 "first draft" (Some (scored 8 true)) w2
              social.1 social.2
              ltac:(vm_compute; reflexivity) ltac:(vm_compute; reflexivity)
              ltac:(apply surjective_pairing) ltac:(vm_compute; reflexivity))
    as (record & e & Hrun & He & _ & Hc & Hev & _ & Hst & Hsc & _).
  injection He as <-. apply (f_equal fst) in Hrun. cbn [fst] in Hrun.
  exists record. split; [exact Hrun|]. split; [exact Hc|]. split; [exact Hev|].
  split; [exact Hst|]. split; [exact Hsc|].
  split; vm_compute; reflexivity.
Defined.

Lemma schedule_attempted_witness :
  let env := scripted [delivered (VStr "{}");
                       delivered (VStr "first draft");
                       delivered (VEval (scored 8 true));
                       delivered (VSocial sample_social);
                       Raised TimeoutError; Raised TimeoutError;
                       Raised TimeoutError;
                       delivered (VSchedule sample_schedule)] in
  let w := (run_workflow env "remote work" []).2 in
  ∃ record,
    (run_workflow env "remote work" []).1 = Ok (Some record)
    ∧ record !! "storage" = Some VNone
    ∧ record !! "schedule" = Some (VSchedule sample_schedule)
    ∧ length (inputs_to storage_agent w) = 3
    ∧ length (inputs_to scheduler_agent w) = 1.
Proof.
  cbv zeta.
  set (env := scripted [delivered (VStr "{}");
                        delivered (VStr "first draft");
                        delivered (VEval (scored 8 true));
                        delivered (VSocial sample_social);
                        Raised TimeoutError; Raised TimeoutError;
                        Raised TimeoutError;
                        delivered (VSchedule sample_schedule)]).
  set (w1 := (research_step env "remote work" []).2).
  set (w2 := (draft_evaluate_loop env sample_research w1).2).
  set (w3 := (run_with_retry env social_media_agent
                (format_master_content_for_social "first draft" "remote work")
                120 w2).2).
  destruct (schedule_attempted_whatever_persist_does env "remote work" []
              sample_research w1 "first draft" (Some (scored 8 true)) w2
              sample_social w3
              ltac:(vm_compute; reflexivity) ltac:(vm_compute; reflexivity)
              ltac:(vm_compute; reflexivity))
    as (sp & persist & w4 & cp & schedule & tr & record
        & Hsp & Hp & Hcp & Hc & Hrun & _ & Hst & Hsc & _).
  injection Hsp as <-. injection Hcp as <-.
  vm_compute in Hp. injection Hp as <- <-.
  apply (f_equal fst) in Hc. vm_compute in Hc. subst schedule.
  apply (f_equal fst) in Hrun. cbn [fst] in Hrun.
  exists record. split; [exact Hrun|]. split; [exact Hst|].
  split; [exact Hsc|]. split; vm_compute; reflexivity.
Defined.

(** ** Further properties of [run_with_retry] *)

Section RetryCases.

Variable env : Env.

(** X1: one invocation issues between one and three calls, all of them the
    same call, and waits at most 1 and then 2 time units in between. *)
Theorem run_with_retry_bounded agent input_text timeout w :
  let c := Build_Call agent input_text timeout in
  ∃ tr k,
    (run_with_retry env agent input_text timeout w).2 = w ++ tr
    ∧ calls tr = replicate k c ∧ 1 ≤ k ≤ 3
    ∧ (sleeps tr = [] ∨ sleeps tr = [1] ∨ sleeps tr = [2] ∨ sleeps tr = [1; 2]).
Proof.
  intros c. rewrite run_with_retry_unrolled. cbn zeta. fold c.
  set (o0 := wait_for_run env agent input_text timeout (length (calls w) + 0)).
  set (o1 := wait_for_run env agent input_text timeout (length (calls w) + 1)).
  set (o2 := wait_for_run env agent input_text timeout (length (calls w) + 2)).
  destruct o0 as [[| |r0]|e0]; cbn [result_of after_attempt];
    try (by exists [Called c], 1; repeat split; [lia..|left]);
    (destruct o1 as [[| |r1]|e1]; cbn [result_of after_attempt];
     [destruct o2 as [[| |r2]|e2]..| |destruct o2 as [[| |r2]|e2]]);
    rewrite <- ?app_assoc; eexists _, _;
    (split; [reflexivity|]); cbn [app calls sleeps];
    (split; [by instantiate (1 := 2) + by instantiate (1 := 3)|]);
    (split; [lia|]); auto.
Qed.

(** X2: an invocation raises exactly when its third attempt raises after two
    attempts without a result, and then raises that third error; it returns
    [None] exactly when the third attempt completes without a result after
    two such attempts.  Errors of the first two attempts are never reported:
    two timeouts followed by an empty result give [None]. *)
Theorem run_with_retry_failure_modes agent input_text timeout w :
  let outcome k :=
    wait_for_run env agent input_text timeout (length (calls w) + k) in
  (∀ e, (run_with_retry env agent input_text timeout w).1 = Exc e
        ↔ result_of (outcome 0) = None ∧ result_of (outcome 1) = None
          ∧ outcome 2 = Raised e)
  ∧ ((run_with_retry env agent input_text timeout w).1 = Ok None
     ↔ result_of (outcome 0) = None ∧ result_of (outcome 1) = None
       ∧ absent (outcome 2)).
Proof.
  intros outcome. subst outcome. rewrite run_with_retry_unrolled. cbn zeta.
  unfold absent.
  set (o0 := wait_for_run env agent input_text timeout (length (calls w) + 0)).
  set (o1 := wait_for_run env agent input_text timeout (length (calls w) + 1)).
  set (o2 := wait_for_run env agent input_text timeout (length (calls w) + 2)).
  destruct (result_of o0) as [r0|];
    [|destruct (result_of o1) as [r1|]; [|destruct o2 as [[| |r2]|e2]]];
    (split; [intros e|]);
    (split;
     [intros H; cbn in H; simplify_eq; repeat split; auto
     |intros (H0 & H1 & H2); try (destruct H2 as [H2|H2]); simplify_eq; done]).
Qed.

(** X3: the first attempt that delivers a result ends the invocation, which
    returns that result after exactly as many calls as attempts made,
    whatever mix of errors and empty results came before. *)
Theorem run_with_retry_first_result agent input_text timeout w n r :
  let c := Build_Call agent input_text timeout in
  let outcome k :=
    wait_for_run env agent input_text timeout (length (calls w) + k) in
  n < 3 →
  (∀ k, k < n → result_of (outcome k) = None) →
  result_of (outcome n) = Some r →
  ∃ tr, run_with_retry env agent input_text timeout w = (Ok (Some r), w ++ tr)
        ∧ calls tr = replicate (S n) c.
Proof.
  intros c outcome Hn Hnone Hsome. rewrite run_with_retry_unrolled. cbn zeta.
  change (wait_for_run env agent input_text timeout (length (calls w) + 0))
    with (outcome 0).
  change (wait_for_run env agent input_text timeout (length (calls w) + 1))
    with (outcome 1).
  change (wait_for_run env agent input_text timeout (length (calls w) + 2))
    with (outcome 2).
  fold c. destruct n as [|[|[|n]]]; [| | |lia].
  - rewrite Hsome. by exists [Called c].
  - rewrite (Hnone 0), Hsome by lia. eexists. rewrite <- !app_assoc.
    split; [reflexivity|]. by rewrite calls_app, calls_after_attempt.
  - rewrite (Hnone 0), (Hnone 1) by lia.
    destruct (outcome 2) as [[| |r2]|e2]; simplify_eq/=.
    eexists. rewrite <- !app_assoc. split; [reflexivity|].
    by rewrite !calls_app, !calls_after_attempt.
Qed.

End RetryCases.

(** ** Further properties of the loop and of [run_workflow] *)

Section WorkflowExtras.

Variable env : Env.

Lemma costs_at_most_app n m tr1 tr2 :
  costs_at_most n tr1 → costs_at_most m tr2 → costs_at_most (n + m) (tr1 ++ tr2).
Proof.
  unfold costs_at_most. intros [Hc1 Hs1] [Hc2 Hs2].
  rewrite calls_app, sleeps_app, length_app, sum_list_with_app. lia.
Qed.

Lemma costs_at_most_mono n m tr : n ≤ m → costs_at_most n tr → costs_at_most m tr.
Proof. unfold costs_at_most. lia. Qed.

Lemma costs_at_most_nil n : costs_at_most n [].
Proof. unfold costs_at_most. cbn. lia. Qed.

Lemma run_with_retry_cost agent input_text timeout w res w' :
  run_with_retry env agent input_text timeout w = (res, w') →
  ∃ tr, w' = w ++ tr ∧ costs_at_most 1 tr.
Proof.
  rewrite run_with_retry_unrolled. cbn zeta.
  set (c := Build_Call agent input_text timeout).
  set (o0 := wait_for_run env agent input_text timeout (length (calls w) + 0)).
  set (o1 := wait_for_run env agent input_text timeout (length (calls w) + 1)).
  set (o2 := wait_for_run env agent input_text timeout (length (calls w) + 2)).
  intros Hr. exists (drop (length w) w').
  assert (Hcost : ∀ tr, w' = w ++ tr → costs_at_most 1 tr →
                        w' = w ++ drop (length w) w'
                        ∧ costs_at_most 1 (drop (length w) w')).
  { intros tr -> Hc. by rewrite drop_app_length. }
  destruct o0 as [[| |r0]|e0]; cbn [result_of after_attempt] in Hr;
    try (injection Hr as _ <-; apply (Hcost [Called c]); [done|];
         unfold costs_at_most; cbn; lia);
    (destruct o1 as [[| |r1]|e1]; cbn [result_of after_attempt] in Hr;
     [destruct o2 as [[| |r2]|e2]..| |destruct o2 as [[| |r2]|e2]]);
    rewrite <- ?app_assoc in Hr; injection Hr as _ <-;
    (eapply Hcost; [reflexivity|]); unfold costs_at_most; cbn; lia.
Qed.

Lemma bounded_by_mono {A} n n' (m : M A) :
  n ≤ n' → bounded_by n m → bounded_by n' m.
Proof.
  intros Hle Hm w res w' Hr. destruct (Hm _ _ _ Hr) as (tr & -> & Hc).
  exists tr. split; [done|]. by eapply costs_at_most_mono.
Qed.

Lemma bounded_by_ret {A} (a : A) : bounded_by 0 (ret a).
Proof.
  intros w res w' [= _ <-]. exists []. split; [by rewrite app_nil_r|].
  apply costs_at_most_nil.
Qed.

Lemma bounded_by_raise {A} e : bounded_by 0 (raise (A := A) e).
Proof.
  intros w res w' [= _ <-]. exists []. split; [by rewrite app_nil_r|].
  apply costs_at_most_nil.
Qed.

Lemma bounded_by_lift {A} (r : Res A) : bounded_by 0 (lift r).
Proof.
  intros w res w' [= _ <-]. exists []. split; [by rewrite app_nil_r|].
  apply costs_at_most_nil.
Qed.

Lemma bounded_by_bind {A B} N n (m : M A) (k : A → M B) :
  bounded_by n m → n ≤ N → (∀ a, bounded_by (N - n) (k a)) →
  bounded_by N (bind m k).
Proof.
  intros Hm Hle Hk w res w'. unfold bind.
  destruct (m w) as [[a|e] w1] eqn:Hr; destruct (Hm _ _ _ Hr) as (tr1 & -> & Hc1).
  - intros Hr2. destruct (Hk a _ _ _ Hr2) as (tr2 & -> & Hc2).
    exists (tr1 ++ tr2). split; [by rewrite app_assoc|].
    eapply costs_at_most_mono; [|by apply costs_at_most_app]. lia.
  - intros [= _ <-]. exists tr1. split; [done|].
    by eapply costs_at_most_mono.
Qed.

Lemma bounded_by_try_except {A} N (m : M A) (handler : exn → M A) :
  bounded_by N m → (∀ e, bounded_by 0 (handler e)) →
  bounded_by N (try_except m handler).
Proof.
  intros Hm Hh w res w'. unfold try_except.
  destruct (m w) as [[a|e] w1] eqn:Hr; destruct (Hm _ _ _ Hr) as (tr1 & -> & Hc1).
  - intros [= _ <-]. by exists tr1.
  - intros Hr2. destruct (Hh e _ _ _ Hr2) as (tr2 & -> & Hc2).
    exists (tr1 ++ tr2). split; [by rewrite app_assoc|].
    eapply costs_at_most_mono; [|by apply costs_at_most_app]. lia.
Qed.

Lemma bounded_by_run_with_retry agent input_text timeout :
  bounded_by 1 (run_with_retry env agent input_text timeout).
Proof. intros w res w'. apply run_with_retry_cost. Qed.

(** Builds a cost bound along the structure of a computation: a leaf fits
    any budget, a bind pays for its first part and hands the rest on. *)
Ltac bound_leaf :=
  first
    [ apply bounded_by_run_with_retry
    | apply bounded_by_ret
    | apply bounded_by_raise
    | apply bounded_by_lift ].

Ltac bound_step :=
  first
    [ eapply bounded_by_mono; [|bound_leaf]; lia
    | apply bounded_by_try_except; [|intros ?; apply bounded_by_ret]
    | eapply bounded_by_bind; [bound_leaf|lia|intros ?]
    | match goal with
      | |- bounded_by _ (match ?x with _ => _ end) => destruct x
      | |- bounded_by _ (if ?x then _ else _) => destruct x
      end ].

Lemma bounded_by_research_step topic : bounded_by 1 (research_step env topic).
Proof. unfold research_step. repeat bound_step. Qed.

Lemma bounded_by_round_body research_data attempt st :
  bounded_by 2 (round_body env research_data attempt st).
Proof. unfold round_body. repeat bound_step. Qed.

Lemma bounded_by_rounds research_data attempts st :
  bounded_by (2 * length attempts) (rounds env research_data attempts st).
Proof.
  revert st. induction attempts as [|attempt rest IH]; intros st.
  - apply bounded_by_ret.
  - cbn [rounds length].
    eapply bounded_by_bind; [apply bounded_by_round_body|lia|].
    intros [[|] st']; [|eapply bounded_by_mono; [|apply bounded_by_ret]; lia].
    eapply bounded_by_mono; [|apply IH]. lia.
Qed.

Lemma bounded_by_draft_evaluate_loop research_data :
  bounded_by 6 (draft_evaluate_loop env research_data).
Proof.
  unfold draft_evaluate_loop.
  eapply bounded_by_bind; [bound_leaf|lia|intros p].
  eapply bounded_by_bind; [apply bounded_by_rounds|cbn; lia|intros st].
  repeat bound_step.
Qed.

Lemma bounded_by_social_media_step topic c :
  bounded_by 1 (social_media_step env topic c).
Proof. unfold social_media_step. repeat bound_step. Qed.

Lemma bounded_by_storage_step topic c social :
  bounded_by 1 (storage_step env topic c social).
Proof. unfold storage_step. repeat bound_step. Qed.

Lemma bounded_by_schedule_step topic social :
  bounded_by 1 (schedule_step env topic social).
Proof. unfold schedule_step. repeat bound_step. Qed.

Lemma bounded_by_publish topic c e : bounded_by 3 (publish env topic c e).
Proof.
  unfold publish.
  eapply bounded_by_bind; [apply bounded_by_social_media_step|lia|].
  intros [social|]; [|repeat bound_step].
  eapply bounded_by_bind; [apply bounded_by_storage_step|cbn; lia|intros sd].
  eapply bounded_by_bind; [apply bounded_by_schedule_step|cbn; lia|intros cd].
  repeat bound_step.
Qed.

Lemma bounded_by_run_workflow topic : bounded_by 10 (run_workflow env topic).
Proof.
  unfold run_workflow.
  eapply bounded_by_bind; [apply bounded_by_research_step|lia|].
  intros [research_data|]; [|repeat bound_step].
  eapply bounded_by_bind; [apply bounded_by_draft_evaluate_loop|cbn; lia|].
  intros [[c [e|]]|]; [|repeat bound_step..].
  eapply bounded_by_mono; [|apply bounded_by_publish]. cbn. lia.
Qed.

(** X4: one run of the workflow issues at most 30 agent calls (ten
    invocations of three attempts: research, three drafts and three
    evaluations, social media, storage, scheduling) and spends at most 30
    time units in backoff. *)
Theorem run_workflow_cost topic w :
  ∃ tr,
    (run_workflow env topic w).2 = w ++ tr
    ∧ length (calls tr) ≤ 30
    ∧ sum_list (sleeps tr) ≤ 30.
Proof.
  destruct (run_workflow env topic w) as [res w'] eqn:Hr.
  destruct (bounded_by_run_workflow topic _ _ _ Hr) as (tr & -> & Hc & Hs).
  exists tr. cbn [snd]. split; [done|]. lia.
Qed.

Lemma publish_ok topic c e w :
  ∃ record w', publish env topic c e w = (Ok (Some record), w').
Proof.
  unfold publish. run_monad.
  destruct (social_media_step env topic c w) as [[[social|]|x] w1] eqn:Hs.
  - destruct (storage_step_ok env topic c social w1) as (sd & w2 & ->).
    destruct (schedule_step_ok env topic social w2) as (cd & w3 & ->).
    by eexists _, _.
  - by eexists _, _.
  - rewrite social_media_step_eq in Hs.
    destruct (run_with_retry env social_media_agent _ 120 w)
      as [[[r|]|y] w'']; [destruct (truthy (final_output r))|..]; done.
Qed.

(** X5: the only exception that leaves [run_workflow] is the one raised by
    [format_research_for_master_content] at line 68, on a research
    document that Step 1 accepted; every other failure is turned into a
    returned value. *)
Theorem run_workflow_raises_iff topic w e :
  (run_workflow env topic w).1 = Exc e
  ↔ ∃ research_data w1,
      research_step env topic w = (Ok (Some research_data), w1)
      ∧ format_research_for_master_content env research_data = Exc e.
Proof.
  unfold run_workflow at 1. run_monad.
  destruct (research_step_ok env topic w) as ([rd|] & w1 & Hr); rewrite Hr.
  2:{ split; [done|]. by intros (? & ? & [=] & _). }
  unfold draft_evaluate_loop. run_monad.
  destruct (format_research_for_master_content env rd) as [p|x] eqn:Hp.
  - destruct (rounds_ok env rd [1; 2; 3] (initial_state p) w1)
      as (st' & w2 & Hrounds).
    rewrite Hrounds.
    split; [|intros (rd' & w1' & [= <- <-] & Hx); congruence].
    pose proof (rounds_fold env rd [1; 2; 3] _ _ _ _ Hrounds) as Hfold.
    destruct (fold_retain_elem
                (attempts_made env rd [1; 2; 3] (initial_state p) w1)
                (best_of (initial_state p))) as [Heq|(a & _ & _ & Heq)];
      rewrite <- Hfold in Heq; rewrite (best_attempt_of _ _ _ _ Heq).
    + done.
    + destruct (String.eqb a.1 ""); [done|].
      by destruct (publish_ok topic a.1 a.2 w2) as (record & w3 & ->).
  - cbn [fst]. split.
    + intros [= ->]. by exists rd, w1.
    + intros (rd' & w1' & [= <- <-] & Hx). congruence.
Qed.

(** X6: a research document that Step 1 accepts is the parse of the text the
    research agent delivered, it is a JSON object, and the evaluation prompt
    can be built from it for any draft: inside the loop
    [format_content_for_evaluation] never fails. *)
Theorem research_step_accepts topic w research_data w1 :
  research_step env topic w = (Ok (Some research_data), w1) →
  (∃ r s,
     run_with_retry env research_agent
       ("Research this topic comprehensively: " +:+ topic) 180 w
     = (Ok (Some r), w1)
     ∧ final_output r = VStr s
     ∧ json_loads env s = Some research_data)
  ∧ (∃ kvs, research_data = JDict kvs)
  ∧ ∀ content previous_score,
      ∃ eval_prompt,
        format_content_for_evaluation env content research_data previous_score
        = Ok eval_prompt.
Proof.
  unfold research_step. run_monad.
  destruct (run_with_retry env research_agent _ 180 w) as [[[r|]|x] w'];
    [|done..].
  unfold loads. destruct (final_output r) as [|s| | | |] eqn:Hout; try done.
  destruct (json_loads env s) as [rd|] eqn:Hj; [|done].
  unfold py_get, py_len, res_bind.
  destruct rd as [| | | | |kvs]; try done.
  destruct (dict_lookup "sources" kvs) as [sources|] eqn:Hs.
  - destruct sources as [| | |t|l|kvs'] eqn:Hsrc; try done;
      intros [= <- <-]; (split; [by exists r, s|]); (split; [by eexists|]);
      intros content previous_score; unfold format_content_for_evaluation;
      unfold py_get, py_len, res_bind; rewrite Hs;
      destruct (dict_lookup "topic" kvs); by eexists.
  - intros [= <- <-]. split; [by exists r, s|]. split; [by eexists|].
    intros content previous_score. unfold format_content_for_evaluation.
    unfold py_get, py_len, res_bind. rewrite Hs.
    destruct (dict_lookup "topic" kvs); by eexists.
Qed.

Lemma fold_retain_first_max T b :
  (fold_left retain T b = b
   ∧ Forall (λ a, (overall_score a.2 <= b.2)%Q) T)
  ∨ ∃ T1 a T2,
      T = T1 ++ a :: T2
      ∧ fold_left retain T b = (Some a.1, Some a.2, overall_score a.2)
      ∧ (b.2 < overall_score a.2)%Q
      ∧ Forall (λ x, (overall_score x.2 < overall_score a.2)%Q) T1
      ∧ Forall (λ x, (overall_score x.2 <= overall_score a.2)%Q) T2.
Proof.
  revert b. induction T as [|x T IH]; intros b; [by left|].
  cbn [fold_left]. unfold retain at 2 4.
  destruct (Qgtb (overall_score x.2) b.2) eqn:Hg.
  - apply Qgtb_lt in Hg. right.
    destruct (IH (Some x.1, Some x.2, overall_score x.2))
      as [[Heq HF]|(T1 & a & T2 & -> & Heq & Hlt & H1 & H2)].
    + exists [], x, T. cbn [snd] in HF. by repeat split.
    + exists (x :: T1), a, T2. cbn [snd] in Hlt. repeat split; try done.
      * by eapply Qlt_trans.
      * by constructor.
  - apply Qgtb_not_lt in Hg. apply Qnot_lt_le in Hg.
    destruct (IH b) as [[Heq HF]|(T1 & a & T2 & -> & Heq & Hlt & H1 & H2)].
    + left. split; [done|]. by constructor.
    + right. exists (x :: T1), a, T2. repeat split; try done.
      constructor; [|done]. by eapply Qle_lt_trans.
Qed.

(** X7: the attempt the loop returns is the earliest of the evaluated
    drafts with the greatest overall score: every earlier attempt scored
    strictly less, every later one at most as much.  A later attempt with
    the same score does not replace it. *)
Theorem loop_returns_earliest_best research_data p w c e w' :
  let T := attempts_made env research_data [1; 2; 3] (initial_state p) w in
  format_research_for_master_content env research_data = Ok p →
  draft_evaluate_loop env research_data w = (Ok (Some (c, Some e)), w') →
  ∃ T1 T2,
    T = T1 ++ (c, e) :: T2
    ∧ Forall (λ a, (overall_score a.2 < overall_score e)%Q) T1
    ∧ Forall (λ a, (overall_score a.2 <= overall_score e)%Q) T2.
Proof.
  intros T Hp Hres.
  destruct (draft_evaluate_loop_eq env research_data p w Hp)
    as (st' & w'' & _ & Hloop & Hfold).
  fold T in Hfold. rewrite Hloop in Hres. injection Hres as Hbest _.
  destruct (fold_retain_first_max T (None, None, 0%Q))
    as [[Heq _]|(T1 & a & T2 & HT & Heq & _ & H1 & H2)];
    rewrite <- Hfold in Heq; rewrite (best_attempt_of _ _ _ _ Heq) in Hbest;
    [done|].
  destruct (String.eqb a.1 ""); [done|]. injection Hbest as <- <-.
  exists T1, T2. by destruct a.
Qed.

Lemma append_assoc (s1 s2 s3 : string) : (s1 +:+ s2) +:+ s3 = s1 +:+ s2 +:+ s3.
Proof. induction s1 as [|a s1 IH]; [done|]. exact (f_equal (String a) IH). Qed.

Lemma append_nil_r (s : string) : s +:+ "" = s.
Proof. induction s as [|a s IH]; [done|]. exact (f_equal (String a) IH). Qed.

Lemma length_append (s1 s2 : string) :
  String.length (s1 +:+ s2) = String.length s1 + String.length s2.
Proof. induction s1 as [|a s1 IH]; [done|]. exact (f_equal S IH). Qed.

Lemma prompt_keep_best st c e : prompt (keep_best st c e) = prompt st.
Proof. unfold keep_best. by destruct (Qgtb _ _). Qed.

(** X8: the writer's prompt only grows: after the rounds it is the prompt
    they started from followed by the feedback block of every evaluated
    round that was not approved, in order, whether or not that round
    became the best attempt; abandoned rounds add nothing. *)
Theorem prompt_accumulates_feedback research_data attempts st w st' w' :
  rounds env research_data attempts st w = (Ok st', w') →
  prompt st'
  = prompt st
    +:+ concat_strings
          ((λ a, feedback_block a.2)
             <$> filter (λ a, approved a.2 = false)
                   (attempts_made env research_data attempts st w)).
Proof.
  revert st w. induction attempts as [|attempt rest IH]; intros st w.
  - intros [= <- _]. cbn. by rewrite append_nil_r.
  - cbn [rounds attempts_made]. unfold bind. rewrite round_body_eq.
    destruct (evaluated_draft env research_data (prompt st) w)
      as [[[[c e]|]|x] w1]; [|apply IH..].
    destruct (approved e) eqn:Ha.
    + intros [= <- _]. rewrite prompt_keep_best.
      rewrite filter_cons_False by (cbn; congruence).
      cbn. by rewrite append_nil_r.
    + intros Hr. apply IH in Hr. rewrite Hr. cbn [app].
      rewrite filter_cons_True by done.
      cbn [fmap list_fmap concat_strings snd].
      change (prompt (with_feedback (keep_best st c e) e))
        with (prompt (keep_best st c e) +:+ feedback_block e).
      by rewrite prompt_keep_best, append_assoc.
Qed.

Lemma keep_if_success_value data v :
  keep_if_success data = Ok v →
  v = VNone ∨ (v = data ∧ truthy data = true ∧ getattr_success data = Ok true).
Proof.
  unfold keep_if_success, res_bind.
  destruct (truthy data); [|intros [= <-]; by left].
  destruct (getattr_success data) as [[|]|x]; intros [= <-]; [by right|by left].
Qed.

Lemma storage_step_value topic c social w v w' :
  storage_step env topic c social w = (Ok v, w') →
  v = VNone ∨ (truthy v = true ∧ getattr_success v = Ok true).
Proof.
  unfold storage_step. run_monad.
  destruct (format_content_for_storage topic c social); [|intros [= <- _]; by left].
  destruct (run_with_retry env storage_agent _ 120 w) as [[[r|]|x] w1];
    [|intros [= <- _]; by left..].
  destruct (keep_if_success (final_output r)) as [v'|x] eqn:Hk;
    [|intros [= <- _]; by left].
  intros [= <- _]. apply keep_if_success_value in Hk as [->|(-> & Ht & Hs)];
    [by left|by right].
Qed.

Lemma schedule_step_value topic social w v w' :
  schedule_step env topic social w = (Ok v, w') →
  v = VNone ∨ (truthy v = true ∧ getattr_success v = Ok true).
Proof.
  unfold schedule_step. run_monad.
  destruct (format_content_for_scheduling topic social); [|intros [= <- _]; by left].
  destruct (run_with_retry env scheduler_agent _ 120 w) as [[[r|]|x] w1];
    [|intros [= <- _]; by left..].
  destruct (keep_if_success (final_output r)) as [v'|x] eqn:Hk;
    [|intros [= <- _]; by left].
  intros [= <- _]. apply keep_if_success_value in Hk as [->|(-> & Ht & Hs)];
    [by left|by right].
Qed.

Lemma dom_partial_record topic c e :
  dom (partial_record topic c e)
  = list_to_set ["topic"; "master_content"; "evaluation"; "social_media"].
Proof.
  unfold partial_record. rewrite !dom_insert_L, dom_empty_L. reflexivity.
Qed.

Lemma dom_full_record topic c e social storage schedule :
  dom (full_record topic c e social storage schedule)
  = list_to_set ["topic"; "master_content"; "evaluation"; "social_media";
                 "storage"; "schedule"].
Proof.
  unfold full_record. rewrite !dom_insert_L, dom_empty_L. reflexivity.
Qed.

(** X9: a record returned by [run_workflow] has one of two shapes.  Either
    it has exactly the keys topic, master_content, evaluation and
    social_media, the last one [None]; or it has these and storage and
    schedule, the social media content is truthy, and storage and schedule
    each hold [None] or a result whose [success] flag is set: a result
    that reports failure is never handed to the caller. *)
Theorem run_workflow_record_shape topic w record w' :
  run_workflow env topic w = (Ok (Some record), w') →
  record !! "topic" = Some (VStr topic)
  ∧ ((dom record
      = list_to_set ["topic"; "master_content"; "evaluation"; "social_media"]
      ∧ record !! "social_media" = Some VNone)
     ∨ (dom record
        = list_to_set ["topic"; "master_content"; "evaluation"; "social_media";
                       "storage"; "schedule"]
        ∧ (∃ social, record !! "social_media" = Some social
                     ∧ truthy social = true)
        ∧ ∀ key, key = "storage" ∨ key = "schedule" →
            ∃ v, record !! key = Some v
                 ∧ (v = VNone
                    ∨ (truthy v = true ∧ getattr_success v = Ok true)))).
Proof.
  unfold run_workflow. run_monad.
  destruct (research_step env topic w) as [[[rd|]|x] w1]; [|done..].
  destruct (draft_evaluate_loop env rd w1) as [[[[c [e|]]|]|x] w2]; [|done..].
  unfold publish. run_monad. rewrite social_media_step_eq.
  destruct (run_with_retry env social_media_agent _ 120 w2) as [[[r|]|x] w3].
  - destruct (truthy (final_output r)) eqn:Ht.
    + destruct (storage_step env topic c (final_output r) w3)
        as [[sd|x] w4] eqn:Hsd;
        [|by destruct (storage_step_ok env topic c (final_output r) w3)
              as (? & ? & ?); simplify_eq].
      destruct (schedule_step env topic (final_output r) w4)
        as [[cd|x] w5] eqn:Hcd;
        [|by destruct (schedule_step_ok env topic (final_output r) w4)
              as (? & ? & ?); simplify_eq].
      intros [= <- _]. split; [reflexivity|]. right.
      split; [apply dom_full_record|]. split; [by eexists|].
      intros key [-> | ->]; eexists; (split; [reflexivity|]).
      * by eapply storage_step_value.
      * by eapply schedule_step_value.
    + intros [= <- _]. split; [reflexivity|]. left.
    by split; [apply dom_partial_record|].
  - intros [= <- _]. split; [reflexivity|]. left.
    by split; [apply dom_partial_record|].
  - intros [= <- _]. split; [reflexivity|]. left.
    by split; [apply dom_partial_record|].
Qed.

End WorkflowExtras.

(** ** src/streamlit_app.py *)

Section StreamlitProperties.

Variable env : Env.
Variable exn_str : exn → string.

(** X10: the score class never goes down when the score goes up, and it is
    the high class exactly from 7 on, the threshold the evaluator is told
    to approve at. *)
Theorem get_score_class_monotone (s1 s2 : Q) :
  (s1 <= s2)%Q →
  class_rank (get_score_class s1) ≤ class_rank (get_score_class s2)
  ∧ (get_score_class s2 = "score-high" ↔ (7 <= s2)%Q).
Proof.
  intros Hle. unfold get_score_class.
  destruct (Qle_bool 7 s2) eqn:H7.
  - split; [|by rewrite <- Qle_bool_iff].
    destruct (Qle_bool 7 s1); [done|]. destruct (Qle_bool 5 s1); cbn; lia.
  - assert (H71 : Qle_bool 7 s1 = false).
    { apply not_true_iff_false. rewrite Qle_bool_iff. intros H.
      apply not_true_iff_false in H7. apply H7, Qle_bool_iff.
      by eapply Qle_trans. }
    rewrite H71. split.
    + destruct (Qle_bool 5 s2) eqn:H5; [destruct (Qle_bool 5 s1); cbn; lia|].
      assert (H51 : Qle_bool 5 s1 = false); [|by rewrite H51].
      apply not_true_iff_false. rewrite Qle_bool_iff. intros H.
      apply not_true_iff_false in H5. apply H5, Qle_bool_iff.
      by eapply Qle_trans.
    + rewrite <- Qle_bool_iff, H7. by destruct (Qle_bool 5 s2).
Qed.

Lemma st_research_step_cases topic w :
  ∃ res w1,
    st_research_step env exn_str topic w = (Ok res, w1)
    ∧ match res with
      | inl research_data => True
      | inr message =>
          message = "Research failed"
          ∨ ∃ e, message = "Research failed: " +:+ exn_str e
      end.
Proof.
  unfold st_research_step. run_monad.
  destruct (run_with_retry env research_agent _ 180 w) as [[[r|]|x] w1].
  - destruct (final_output r) as [|final| | | |];
      try (eexists _, _; split; [reflexivity|]; right; by eexists).
    destruct (loads env (VStr (clean_research_output final))) as [rd|x];
      [|eexists _, _; split; [reflexivity|]; right; by eexists].
    destruct (res_bind _ _);
      eexists _, _; (split; [reflexivity|]); [done|right; by eexists].
  - eexists _, _. split; [reflexivity|]. by left.
  - eexists _, _. split; [reflexivity|]. right. by eexists.
Qed.

Lemma st_social_media_step_eq topic c w :
  st_social_media_step env topic c w =
  let (res, w') := run_with_retry env social_media_agent
                     (format_master_content_for_social c topic) 120 w in
  (Ok (delivered_by res), w').
Proof.
  unfold st_social_media_step. run_monad.
  by destruct (run_with_retry env social_media_agent _ 120 w) as [[[r|]|x] w'].
Qed.

Lemma st_storage_step_ok topic c social w :
  ∃ v w', st_storage_step env topic c social w = (Ok v, w').
Proof.
  unfold st_storage_step. destruct (truthy social); [|by eexists _, _].
  run_monad. destruct (format_content_for_storage topic c social);
    [|by eexists _, _].
  destruct (run_with_retry env storage_agent _ 120 w) as [[[r|]|x] w'];
    by eexists _, _.
Qed.

Lemma st_schedule_step_ok topic social w :
  ∃ v w', st_schedule_step env topic social w = (Ok v, w').
Proof.
  unfold st_schedule_step. destruct (truthy social); [|by eexists _, _].
  run_monad. destruct (format_content_for_scheduling topic social);
    [|by eexists _, _].
  destruct (run_with_retry env scheduler_agent _ 120 w) as [[[r|]|x] w'];
    by eexists _, _.
Qed.

Lemma dom_st_record topic rd c e social storage schedule :
  dom (st_record topic rd c e social storage schedule)
  = list_to_set ["topic"; "research"; "master_content"; "evaluation";
                 "social_media"; "storage"; "schedule"].
Proof.
  unfold st_record. rewrite !dom_insert_L, dom_empty_L. reflexivity.
Qed.

(** X11: when the app's [run_workflow] returns, exactly one component of
    the pair is [None]: either no record and one of the three error
    messages, or a record with its seven keys and no message. *)
Theorem st_run_workflow_result_or_error topic w result error w' :
  st_run_workflow env exn_str topic w = (Ok (result, error), w') →
  (result = None
   ∧ (error = Some "Research failed"
      ∨ (∃ e, error = Some ("Research failed: " +:+ exn_str e))
      ∨ error = Some "Failed to generate content"))
  ∨ (error = None
     ∧ ∃ record, result = Some record
         ∧ dom record
           = list_to_set ["topic"; "research"; "master_content"; "evaluation";
                          "social_media"; "storage"; "schedule"]).
Proof.
  unfold st_run_workflow. run_monad.
  destruct (st_research_step_cases topic w) as ([rd|message] & w1 & -> & Hm).
  2:{ intros [= <- <- _]. left. split; [done|].
      destruct Hm as [->|[e ->]]; [by left|right; left; by exists e]. }
  destruct (draft_evaluate_loop env rd w1) as [[[[c [e|]]|]|x] w2]; try done.
  2:{ intros [= <- <- _]. left. split; [done|]. by right; right. }
  rewrite st_social_media_step_eq.
  destruct (run_with_retry env social_media_agent _ 120 w2) as [social w3].
  destruct (st_storage_step_ok topic c (delivered_by social) w3)
    as (sd & w4 & ->).
  destruct (st_schedule_step_ok topic (delivered_by social) w4)
    as (cd & w5 & ->).
  intros [= <- <- _]. right. split; [done|]. eexists. split; [done|].
  apply dom_st_record.
Qed.

Lemma kept_or_none res : kept res = delivered_by res ∨ kept res = VNone.
Proof.
  destruct res as [[[out]|]|x]; [|by left..]. unfold kept, delivered_by.
  destruct (keep_if_success _) as [v|x] eqn:Hk; [|by right].
  apply keep_if_success_value in Hk as [-> | (-> & _)]; [by right|by left].
Qed.

Lemma storage_steps_together topic c social w :
  truthy social = true →
  ∃ res w',
    storage_step env topic c social w = (Ok (kept res), w')
    ∧ st_storage_step env topic c social w = (Ok (delivered_by res), w').
Proof.
  intros Ht. unfold storage_step, st_storage_step. rewrite Ht. run_monad.
  destruct (format_content_for_storage topic c social);
    [|by exists (Ok None), w].
  destruct (run_with_retry env storage_agent _ 120 w) as [res w'].
  exists res, w'. split.
  - destruct res as [[r|]|x]; try reflexivity. unfold kept.
    by destruct (keep_if_success (final_output r)).
  - by destruct res as [[r|]|x].
Qed.

Lemma schedule_steps_together topic social w :
  truthy social = true →
  ∃ res w',
    schedule_step env topic social w = (Ok (kept res), w')
    ∧ st_schedule_step env topic social w = (Ok (delivered_by res), w').
Proof.
  intros Ht. unfold schedule_step, st_schedule_step. rewrite Ht. run_monad.
  destruct (format_content_for_scheduling topic social);
    [|by exists (Ok None), w].
  destruct (run_with_retry env scheduler_agent _ 120 w) as [res w'].
  exists res, w'. split.
  - destruct res as [[r|]|x]; try reflexivity. unfold kept.
    by destruct (keep_if_success (final_output r)).
  - by destruct res as [[r|]|x].
Qed.

Lemma research_steps_together topic w :
  (∀ r w1 final,
     run_with_retry env research_agent
       ("Research this topic comprehensively: " +:+ topic) 180 w
     = (Ok (Some r), w1) →
     final_output r = VStr final →
     json_loads env (clean_research_output final) = json_loads env final) →
  ∃ w1,
    (∃ message,
       research_step env topic w = (Ok None, w1)
       ∧ st_research_step env exn_str topic w = (Ok (inr message), w1))
    ∨ (∃ research_data,
         research_step env topic w = (Ok (Some research_data), w1)
         ∧ st_research_step env exn_str topic w = (Ok (inl research_data), w1)).
Proof.
  intros Hclean. unfold research_step, st_research_step. run_monad.
  destruct (run_with_retry env research_agent _ 180 w) as [[[r|]|x] w1] eqn:Hr;
    [|exists w1; left; by eexists..].
  exists w1. specialize (Hclean r w1).
  destruct (final_output r) as [|final| | | |]; try (left; by eexists).
  unfold loads. rewrite (Hclean final) by done.
  destruct (json_loads env final) as [rd|]; [|left; by eexists].
  destruct (res_bind _ _); [right; by eexists|left; by eexists].
Qed.

(** X12: when cleaning the research text does not change what it parses to,
    the app's [run_workflow] and main.py's leave the same trace of calls
    and waits, raise the same exception, and return a record together.
    The records agree on topic, master_content and evaluation; on
    social_media, storage and schedule main.py has the app's value, or
    [None] in its place (a falsy social media content, a result that
    reports failure), or no entry where the app has [None]. *)
Theorem entry_points_agree topic w :
  (∀ r w1 final,
     run_with_retry env research_agent
       ("Research this topic comprehensively: " +:+ topic) 180 w
     = (Ok (Some r), w1) →
     final_output r = VStr final →
     json_loads env (clean_research_output final) = json_loads env final) →
  (st_run_workflow env exn_str topic w).2 = (run_workflow env topic w).2
  ∧ match (run_workflow env topic w).1,
          (st_run_workflow env exn_str topic w).1 with
    | Exc e, Exc e' => e = e'
    | Ok None, Ok (None, Some _) => True
    | Ok (Some record), Ok (Some app_record, None) =>
        (∀ key, key ∈ ["topic"; "master_content"; "evaluation"] →
                app_record !! key = StPy <$> record !! key)
        ∧ (∀ key, key ∈ ["social_media"; "storage"; "schedule"] →
                  ∃ v, app_record !! key = Some (StPy v)
                       ∧ main_keeps (record !! key) v)
    | _, _ => False
    end.
Proof.
  intros Hclean. unfold run_workflow, st_run_workflow. run_monad.
  destruct (research_steps_together topic w Hclean)
    as (w1 & [(message & -> & ->)|(rd & -> & ->)]); [done|].
  destruct (draft_evaluate_loop env rd w1) as [[[[c [e|]]|]|x] w2]; try done.
  unfold publish. run_monad.
  rewrite social_media_step_eq, st_social_media_step_eq.
  destruct (run_with_retry env social_media_agent _ 120 w2) as [social w3].
  assert (Hpartial :
            truthy (delivered_by social) = false →
            (∀ key, key ∈ ["topic"; "master_content"; "evaluation"] →
                    st_record topic rd c e (delivered_by social) VNone VNone !! key
                    = StPy <$> partial_record topic c e !! key)
            ∧ (∀ key, key ∈ ["social_media"; "storage"; "schedule"] →
                      ∃ v, st_record topic rd c e (delivered_by social) VNone VNone
                             !! key = Some (StPy v)
                           ∧ main_keeps (partial_record topic c e !! key) v)).
  { intros _. split; intros key Hk;
      repeat (apply elem_of_cons in Hk as [-> | Hk]);
      try (by apply elem_of_nil in Hk); try reflexivity;
      eexists; (split; [reflexivity|]); [by right|reflexivity..]. }
  destruct (truthy (delivered_by social)) eqn:Ht.
  - destruct social as [[r|]|x]; try done. cbn [delivered_by] in *. rewrite Ht.
    destruct (storage_steps_together topic c (final_output r) w3 Ht)
      as (res1 & w4 & -> & ->).
    destruct (schedule_steps_together topic (final_output r) w4 Ht)
      as (res2 & w5 & -> & ->).
    split; [done|]. cbn [fst]. split; intros key Hk;
      repeat (apply elem_of_cons in Hk as [-> | Hk]);
      try (by apply elem_of_nil in Hk); try reflexivity;
      eexists; (split; [reflexivity|]).
    + by left.
    + change (main_keeps (Some (kept res1)) (delivered_by res1)).
      destruct (kept_or_none res1) as [-> | ->]; [by left|by right].
    + change (main_keeps (Some (kept res2)) (delivered_by res2)).
      destruct (kept_or_none res2) as [-> | ->]; [by left|by right].
  - unfold st_storage_step, st_schedule_step. rewrite Ht. run_monad.
    destruct social as [[r|]|x]; cbn [delivered_by] in *; rewrite ?Ht;
      (split; [done|]); cbn [fst]; by apply Hpartial.
Qed.

End StreamlitProperties.


(** ** Text: characters, length and white space *)

Lemma append_cons a (s t : string) : String a s +:+ t = String a (s +:+ t).
Proof. reflexivity. Qed.

Lemma list_ascii_of_string_app s t :
  list_ascii_of_string (s +:+ t)
  = list_ascii_of_string s ++ list_ascii_of_string t.
Proof. induction s as [|c s IH]; [done|]. cbn. by rewrite <- IH. Qed.

Lemma concat_strings_app l1 l2 :
  concat_strings (l1 ++ l2) = concat_strings l1 +:+ concat_strings l2.
Proof.
  induction l1 as [|x l1 IH]; [done|]. cbn. by rewrite IH, append_assoc.
Qed.

(** [len] adds up over [+]. *)
Lemma str_len_app s t : str_len (s +:+ t) = str_len s + str_len t.
Proof.
  unfold str_len. by rewrite list_ascii_of_string_app, filter_app, length_app.
Qed.

Lemma chars_from_end_start c rest :
  is_continuation c = false → (chars_from_end (String c rest)).1 = "".
Proof.
  intros Hc. cbn [chars_from_end]. destruct (chars_from_end rest).
  by rewrite Hc.
Qed.

Lemma chars_from_end_starts s :
  starts_char s = true → (chars_from_end s).1 = "".
Proof.
  destruct s as [|c s]; [done|]. cbn [starts_char]. intros Hc.
  apply chars_from_end_start. by destruct (is_continuation c).
Qed.

Lemma py_chars_starts s :
  starts_char s = true → py_chars s = (chars_from_end s).2.
Proof.
  intros Hs. unfold py_chars. pose proof (chars_from_end_starts s Hs) as H.
  destruct (chars_from_end s) as [pending chars]. cbn in H. by subst pending.
Qed.

(** The characters of a text, put together again, give the text. *)
Lemma concat_chars_from_end s :
  (chars_from_end s).1 +:+ concat_strings (chars_from_end s).2 = s.
Proof.
  induction s as [|c s IH]; [done|]. cbn [chars_from_end].
  destruct (chars_from_end s) as [pending chars]. cbn [fst snd] in IH.
  destruct (is_continuation c); cbn [fst snd concat_strings].
  - by rewrite append_cons, IH.
  - change ("" +:+ ?x) with x. by rewrite append_cons, IH.
Qed.

Lemma concat_py_chars s : concat_strings (py_chars s) = s.
Proof.
  unfold py_chars. pose proof (concat_chars_from_end s) as H.
  destruct (chars_from_end s) as [pending chars]. cbn [fst snd] in H.
  destruct (String.eqb pending "") eqn:He; [|exact H].
  apply String.eqb_eq in He. by subst pending.
Qed.

Lemma chars_from_end_app s t :
  starts_char t = true →
  chars_from_end (s +:+ t)
  = ((chars_from_end s).1, (chars_from_end s).2 ++ py_chars t).
Proof.
  intros Ht. induction s as [|c s IH].
  - change ("" +:+ t) with t. rewrite (py_chars_starts t Ht).
    pose proof (chars_from_end_starts t Ht) as H.
    destruct (chars_from_end t) as [pending chars]. cbn in H. by subst.
  - rewrite append_cons. cbn [chars_from_end]. rewrite IH.
    destruct (chars_from_end s) as [pending chars]. cbn [fst snd].
    by destruct (is_continuation c).
Qed.

(** Characters are read piece by piece where the second piece starts at a
    character. *)
Lemma py_chars_app s t :
  starts_char t = true → py_chars (s +:+ t) = py_chars s ++ py_chars t.
Proof.
  intros Ht. unfold py_chars at 1 2. rewrite (chars_from_end_app s t Ht).
  destruct (chars_from_end s) as [pending chars]. cbn [fst snd].
  by destruct (String.eqb pending "").
Qed.

Lemma py_chars_byte c :
  is_continuation c = false → py_chars (String c "") = [String c ""].
Proof. intros Hc. unfold py_chars. cbn. by rewrite Hc. Qed.

Lemma py_chars_cons c s :
  is_continuation c = false → starts_char s = true →
  py_chars (String c s) = String c "" :: py_chars s.
Proof.
  intros Hc Hs. change (String c s) with (String c "" +:+ s).
  by rewrite py_chars_app, py_chars_byte.
Qed.

(** *** Stripping a list of characters *)

Lemma lstrip_chars_split l :
  ∃ dropped, l = dropped ++ lstrip_chars l
             ∧ Forall (λ c, is_space c = true) dropped.
Proof.
  induction l as [|c l IH]; [by exists []|]. cbn [lstrip_chars].
  destruct (is_space c) eqn:Hc; [|by exists []].
  destruct IH as (dropped & Hl & Hd). exists (c :: dropped).
  split; [cbn; by rewrite <- Hl|by constructor].
Qed.

Lemma rstrip_chars_split l :
  ∃ dropped, l = rstrip_chars l ++ dropped
             ∧ Forall (λ c, is_space c = true) dropped.
Proof.
  induction l as [|c l IH]; [by exists []|]. cbn [rstrip_chars].
  destruct IH as (dropped & Hl & Hd).
  destruct (is_space c && bool_decide (rstrip_chars l = [])) eqn:Hc.
  - apply andb_true_iff in Hc as [Hc He]. apply bool_decide_eq_true in He.
    rewrite He in Hl. cbn in Hl. subst l. exists (c :: dropped).
    split; [done|by constructor].
  - exists dropped. split; [cbn; by rewrite <- Hl|done].
Qed.

Lemma lstrip_chars_app_space l c :
  is_space c = true →
  lstrip_chars (l ++ [c])
  = if bool_decide (lstrip_chars l = []) then [] else lstrip_chars l ++ [c].
Proof.
  intros Hc. induction l as [|a l IH].
  - cbn [app lstrip_chars]. by rewrite Hc.
  - cbn [app lstrip_chars]. destruct (is_space a); [exact IH|].
    by rewrite bool_decide_eq_false_2.
Qed.

Lemma rstrip_chars_app_space l c :
  is_space c = true → rstrip_chars (l ++ [c]) = rstrip_chars l.
Proof.
  intros Hc. induction l as [|a l IH].
  - cbn [app rstrip_chars]. by rewrite Hc.
  - cbn [app rstrip_chars]. by rewrite IH.
Qed.

Lemma rstrip_chars_keeps_end l c :
  is_space c = false → rstrip_chars (l ++ [c]) = l ++ [c].
Proof.
  intros Hc. induction l as [|a l IH].
  - cbn [app rstrip_chars]. by rewrite Hc.
  - cbn [app rstrip_chars]. rewrite IH.
    rewrite bool_decide_eq_false_2; [by rewrite andb_false_r|].
    by destruct l.
Qed.

Lemma strip_chars_app_space l c :
  is_space c = true →
  rstrip_chars (lstrip_chars (l ++ [c])) = rstrip_chars (lstrip_chars l).
Proof.
  intros Hc. rewrite lstrip_chars_app_space by done.
  destruct (bool_decide (lstrip_chars l = [])) eqn:He.
  - apply bool_decide_eq_true in He. by rewrite He.
  - by apply rstrip_chars_app_space.
Qed.

(** White space at the end of a text does not change what [strip] gives,
    nor does a line break at its start. *)
Lemma py_strip_app_nl s : py_strip (s +:+ nl) = py_strip s.
Proof.
  unfold py_strip. rewrite py_chars_app by reflexivity.
  change (py_chars nl) with [nl]. by rewrite strip_chars_app_space.
Qed.

Lemma py_strip_paragraph_end s : py_strip (s +:+ nl +:+ nl) = py_strip s.
Proof. by rewrite <- append_assoc, !py_strip_app_nl. Qed.

Lemma py_strip_nl_app s :
  starts_char s = true → py_strip (nl +:+ s) = py_strip s.
Proof.
  intros Hs. unfold py_strip. by rewrite py_chars_app.
Qed.

Lemma str_len_concat_app l1 l2 :
  str_len (concat_strings (l1 ++ l2))
  = str_len (concat_strings l1) + str_len (concat_strings l2).
Proof. by rewrite concat_strings_app, str_len_app. Qed.

(** Stripping never adds a character. *)
Lemma str_len_py_strip s : str_len (py_strip s) ≤ str_len s.
Proof.
  unfold py_strip. rewrite <- (concat_py_chars s) at 2.
  destruct (lstrip_chars_split (py_chars s)) as (d1 & H1 & _).
  destruct (rstrip_chars_split (lstrip_chars (py_chars s))) as (d2 & H2 & _).
  rewrite H1 at 2. rewrite H2 at 2. rewrite !str_len_concat_app. lia.
Qed.

(** *** Cleaning the research text *)

(** A text without the first character of [old] holds no occurrence of it. *)
Lemma py_replace_from_skip_free a old new body rest :
  (∀ c, In c (list_ascii_of_string body) → c ≠ a) →
  py_replace_from (String a old) new 0 (body +:+ rest)
  = body +:+ py_replace_from (String a old) new 0 rest.
Proof.
  induction body as [|c body IH]; intros Hfree; [done|].
  rewrite !append_cons. cbn [py_replace_from String.prefix].
  destruct (ascii_dec a c) as [->|_].
  - destruct (Hfree c); [by left|done].
  - f_equal. apply IH. intros c' Hc'. apply Hfree. by right.
Qed.


Lemma prefix_append old rest : String.prefix old (old +:+ rest) = true.
Proof.
  induction old as [|a old IH]; [by destruct rest|].
  rewrite append_cons. cbn [String.prefix]. by destruct (ascii_dec a a).
Qed.

Lemma py_replace_from_skip old new t rest :
  py_replace_from old new (String.length t) (t +:+ rest)
  = py_replace_from old new 0 rest.
Proof. induction t as [|c t IH]; [by destruct rest|]. exact IH. Qed.

(** An occurrence at the head is replaced, and the search resumes after it. *)
Lemma py_replace_from_hit a old new rest :
  py_replace_from (String a old) new 0 (String a old +:+ rest)
  = new +:+ py_replace_from (String a old) new 0 rest.
Proof.
  rewrite append_cons. cbn [py_replace_from].
  rewrite <- append_cons, prefix_append. cbn [String.length].
  replace (S (String.length old) - 1) with (String.length old) by lia.
  by rewrite py_replace_from_skip.
Qed.

Lemma py_replace_from_miss a old new c rest :
  a ≠ c →
  py_replace_from (String a old) new 0 (String c rest)
  = String c (py_replace_from (String a old) new 0 rest).
Proof.
  intros Hne. cbn [py_replace_from String.prefix].
  by destruct (ascii_dec a c).
Qed.

(** X13: the app unwraps a fenced answer: a research text made of a json
    fence, a line break, a body without back quotes and without white
    space at either end (any character [strip()] removes), a line break
    and a closing fence is cleaned to the body alone. *)
Theorem clean_research_output_unwraps body :
  (∀ c, In c (list_ascii_of_string body) → c ≠ "`"%char) →
  starts_char body = true →
  py_strip body = body →
  clean_research_output ("```json" +:+ nl +:+ body +:+ nl +:+ "```") = body.
Proof.
  intros Hfree Hstart Hbody. unfold clean_research_output.
  set (fenced := "```json" +:+ nl +:+ body +:+ nl +:+ "```").
  assert (Hstrip : py_strip fenced = fenced).
  { assert (Hchars : py_chars fenced
                     = ("`" :: py_chars ("``json" +:+ nl +:+ body +:+ nl +:+ "``"))
                       ++ ["`"]).
    { replace fenced
        with (String "`" ("``json" +:+ nl +:+ body +:+ nl +:+ "``") +:+ "`").
      - rewrite py_chars_app by reflexivity.
        by rewrite py_chars_cons by reflexivity.
      - unfold fenced. rewrite append_cons, !append_assoc. reflexivity. }
    unfold py_strip. rewrite Hchars. cbn [app lstrip_chars].
    change (is_space "`") with false. cbn iota.
    change ("`" :: ?l ++ ["`"]) with (("`" :: l) ++ ["`"]).
    rewrite rstrip_chars_keeps_end by reflexivity.
    rewrite <- Hchars. apply concat_py_chars. }
  rewrite Hstrip. unfold fenced at 1. rewrite prefix_append.
  assert (H1 : py_replace "```json" "" fenced = nl +:+ body +:+ nl +:+ "```").
  { unfold py_replace, fenced. rewrite py_replace_from_hit.
    change ("" +:+ ?x) with x.
    change (nl +:+ body +:+ nl +:+ "```")
      with (String (ascii_of_nat 10) (body +:+ nl +:+ "```")).
    rewrite py_replace_from_miss by discriminate.
    by rewrite py_replace_from_skip_free. }
  rewrite H1.
  assert (H2 : py_replace "```" "" (nl +:+ body +:+ nl +:+ "```")
               = nl +:+ body +:+ nl).
  { unfold py_replace.
    change (nl +:+ body +:+ nl +:+ "```")
      with (String (ascii_of_nat 10) (body +:+ nl +:+ "```")).
    rewrite py_replace_from_miss by discriminate.
    by rewrite py_replace_from_skip_free. }
  rewrite H2. rewrite <- append_assoc, py_strip_app_nl.
  by rewrite py_strip_nl_app.
Qed.

(** *** Reading a text that was put together from characters *)

Lemma chars_from_end_continuation p t :
  forallb is_continuation (list_ascii_of_string p) = true →
  chars_from_end (p +:+ t)
  = (p +:+ (chars_from_end t).1, (chars_from_end t).2).
Proof.
  induction p as [|c p IH]; intros Hp.
  - change ("" +:+ t) with t. by destruct (chars_from_end t).
  - cbn [list_ascii_of_string forallb] in Hp.
    apply andb_true_iff in Hp as [Hc Hp].
    rewrite append_cons. cbn [chars_from_end]. rewrite (IH Hp).
    cbn [fst snd]. by rewrite Hc.
Qed.

Lemma chars_from_end_concat l :
  Forall char_shaped l → chars_from_end (concat_strings l) = ("", l).
Proof.
  induction l as [|x l IH]; intros Hl; [done|].
  apply Forall_cons in Hl as [(c & cont & -> & Hc & Hcont) Hl].
  cbn [concat_strings]. rewrite append_cons. cbn [chars_from_end].
  rewrite (chars_from_end_continuation cont _ Hcont), (IH Hl).
  cbn [fst snd]. by rewrite Hc, append_nil_r.
Qed.

Lemma chars_from_end_shape s :
  forallb is_continuation (list_ascii_of_string (chars_from_end s).1) = true
  ∧ Forall char_shaped (chars_from_end s).2.
Proof.
  induction s as [|c s [IH1 IH2]]; [by split|].
  cbn [chars_from_end]. destruct (chars_from_end s) as [pending chars].
  cbn [fst snd] in *. destruct (is_continuation c) eqn:Hc; cbn [fst snd].
  - split; [cbn [list_ascii_of_string forallb]; by rewrite Hc|done].
  - split; [done|]. constructor; [by exists c, pending|done].
Qed.

Lemma py_chars_well_read s : well_read (py_chars s).
Proof.
  unfold py_chars. destruct (chars_from_end_shape s) as [H1 H2].
  destruct (chars_from_end s) as [pending chars]. cbn [fst snd] in *.
  destruct (String.eqb pending "") eqn:He; [by left|].
  apply String.eqb_neq in He. right. by exists pending, chars.
Qed.

Lemma py_chars_concat l : well_read l → py_chars (concat_strings l) = l.
Proof.
  intros [Hl|(pending & chars & -> & Hne & Hp & Hl)]; unfold py_chars.
  - by rewrite chars_from_end_concat.
  - cbn [concat_strings].
    rewrite (chars_from_end_continuation pending _ Hp),
      (chars_from_end_concat chars Hl).
    cbn [fst snd]. rewrite append_nil_r.
    apply String.eqb_neq in Hne. by rewrite Hne.
Qed.

Lemma is_space_elem c : is_space c = true → c ∈ white_space.
Proof.
  unfold is_space. intros H. apply existsb_exists in H as (x & Hin & Heq).
  apply String.eqb_eq in Heq. subst x. by apply list_elem_of_In.
Qed.

Lemma white_space_shaped : Forall char_shaped white_space.
Proof.
  unfold white_space. cbn [fmap list_fmap].
  repeat constructor; eexists _, _; (split; [reflexivity|by split]).
Qed.

Lemma is_space_shaped c : is_space c = true → char_shaped c.
Proof.
  intros H. apply is_space_elem in H.
  by apply (proj1 (Forall_forall _ _) white_space_shaped).
Qed.

Lemma well_read_suffix dropped l :
  Forall (λ c, is_space c = true) dropped →
  well_read (dropped ++ l) → well_read l.
Proof.
  intros Hd [Hl|(pending & chars & Heq & Hne & Hp & Hl)].
  - left. by apply Forall_app in Hl as [_ Hl].
  - destruct dropped as [|d dropped]; [right; by exists pending, chars|].
    injection Heq as -> <-. apply Forall_cons in Hd as [Hd _].
    apply is_space_shaped in Hd as (c & cont & -> & Hc & _).
    cbn [list_ascii_of_string forallb] in Hp. by rewrite Hc in Hp.
Qed.

Lemma well_read_prefix l dropped : well_read (l ++ dropped) → well_read l.
Proof.
  intros [Hl|(pending & chars & Heq & Hne & Hp & Hl)].
  - left. by apply Forall_app in Hl as [Hl _].
  - destruct l as [|x l]; [left; constructor|].
    injection Heq as -> <-. right. exists pending, l.
    split; [done|]. split; [done|]. split; [done|].
    by apply Forall_app in Hl as [Hl _].
Qed.

(** The characters of a stripped text are the characters of the text,
    stripped. *)
Lemma py_chars_strip s :
  py_chars (py_strip s) = rstrip_chars (lstrip_chars (py_chars s)).
Proof.
  unfold py_strip. apply py_chars_concat.
  destruct (lstrip_chars_split (py_chars s)) as (d1 & H1 & Hd1).
  destruct (rstrip_chars_split (lstrip_chars (py_chars s))) as (d2 & H2 & _).
  apply (well_read_prefix _ d2). rewrite <- H2.
  apply (well_read_suffix d1); [done|]. rewrite <- H1.
  apply py_chars_well_read.
Qed.

(** What holds of no white space character holds of a character of the
    stripped text exactly when it holds of one of the text. *)
Lemma existsb_strip_chars (P : string → bool) l :
  (∀ c, is_space c = true → P c = false) →
  existsb P (rstrip_chars (lstrip_chars l)) = existsb P l.
Proof.
  intros HP.
  assert (Hdrop : ∀ d, Forall (λ c, is_space c = true) d → existsb P d = false).
  { intros d Hd. induction Hd as [|c d Hc _ IH]; [done|].
    cbn. by rewrite (HP c Hc), IH. }
  destruct (lstrip_chars_split l) as (d1 & H1 & Hd1).
  destruct (rstrip_chars_split (lstrip_chars l)) as (d2 & H2 & Hd2).
  rewrite H1 at 2. rewrite H2 at 2.
  rewrite !existsb_app, (Hdrop d1 Hd1), (Hdrop d2 Hd2).
  by rewrite orb_false_r.
Qed.

Lemma existsb_bytes_concat (P : ascii → bool) l :
  existsb P (list_ascii_of_string (concat_strings l))
  = existsb (λ x, existsb P (list_ascii_of_string x)) l.
Proof.
  induction l as [|x l IH]; [done|].
  cbn [concat_strings existsb].
  by rewrite list_ascii_of_string_app, existsb_app, IH.
Qed.

(** A byte that occurs in no white space character occurs in the stripped
    text exactly when it occurs in the text. *)
Lemma existsb_bytes_strip (P : ascii → bool) s :
  Forall (λ c, existsb P (list_ascii_of_string c) = false) white_space →
  existsb P (list_ascii_of_string (py_strip s))
  = existsb P (list_ascii_of_string s).
Proof.
  intros HP. rewrite <- (concat_py_chars s) at 2. unfold py_strip.
  rewrite !existsb_bytes_concat. apply existsb_strip_chars.
  intros c Hc. apply is_space_elem in Hc.
  by apply (proj1 (Forall_forall _ _) HP).
Qed.
(** ** Worked runs *)

Lemma run_with_retry_first_result_witness :
  let env := scripted [Raised TimeoutError; Completed RetNone;
                       delivered (VStr "draft")] in
  ∃ tr, run_with_retry env master_content_agent "prompt" 150 []
        = (Ok (Some {| final_output := VStr "draft" |}), [] ++ tr)
        ∧ calls tr
          = replicate 3 (Build_Call master_content_agent "prompt" 150).
Proof.
  cbv zeta.
  apply (run_with_retry_first_result
           (scripted [Raised TimeoutError; Completed RetNone;
                      delivered (VStr "draft")])
           master_content_agent "prompt" 150 [] 2
           {| final_output := VStr "draft" |}).
  - lia.
  - intros [|[|k]] Hk; [reflexivity..|lia].
  - reflexivity.
Defined.

Lemma research_step_accepts_witness :
  ∃ eval_prompt,
    format_content_for_evaluation (scripted [delivered (VStr "{}")])
      "first draft" sample_research 0
    = Ok eval_prompt.
Proof.
  destruct (research_step_accepts (scripted [delivered (VStr "{}")])
              "remote work" [] sample_research
              (research_step (scripted [delivered (VStr "{}")])
                 "remote work" []).2
              ltac:(vm_compute; reflexivity))
    as (_ & _ & H).
  exact (H "first draft" 0%Q).
Defined.

Lemma loop_returns_earliest_best_witness :
  ∃ T1 T2,
    attempts_made (scripted tied_rounds) sample_research [1; 2; 3]
      (initial_state sample_prompt) []
    = T1 ++ ("second draft", scored 8 false) :: T2
    ∧ Forall (λ a, (overall_score a.2 < 8)%Q) T1
    ∧ Forall (λ a, (overall_score a.2 <= 8)%Q) T2.
Proof.
  exact (loop_returns_earliest_best (scripted tied_rounds) sample_research
           sample_prompt [] "second draft" (scored 8 false)
           (draft_evaluate_loop (scripted tied_rounds) sample_research []).2
           ltac:(vm_compute; reflexivity) ltac:(vm_compute; reflexivity)).
Defined.

Lemma prompt_accumulates_feedback_witness :
  let run := rounds (scripted tied_rounds) sample_research [1; 2; 3]
               (initial_state sample_prompt) [] in
  ∃ st', run.1 = Ok st'
         ∧ prompt st'
           = sample_prompt
             +:+ concat_strings
                   [feedback_block (scored 6 false);
                    feedback_block (scored 8 false);
                    feedback_block (scored 8 false)].
Proof.
  cbv zeta.
  destruct (rounds (scripted tied_rounds) sample_research [1; 2; 3]
              (initial_state sample_prompt) []) as [[st'|x] w'] eqn:Hrun.
  - exists st'. split; [reflexivity|].
    rewrite (prompt_accumulates_feedback (scripted tied_rounds)
               sample_research [1; 2; 3] (initial_state sample_prompt) []
               st' w' Hrun).
    vm_compute. reflexivity.
  - vm_compute in Hrun. discriminate.
Defined.

Lemma run_workflow_record_shape_witness :
  ∃ record,
    (run_workflow (scripted smooth_run) "remote work" []).1 = Ok (Some record)
    ∧ record !! "topic" = Some (VStr "remote work").
Proof.
  exists (full_record "remote work" "first draft" (scored 8 true)
            (VSocial sample_social) (VStorage sample_storage)
            (VSchedule sample_schedule)).
  split; [lazy -[full_record]; reflexivity|].
  exact (proj1 (run_workflow_record_shape (scripted smooth_run) "remote work"
                  []
                  (full_record "remote work" "first draft" (scored 8 true)
                     (VSocial sample_social) (VStorage sample_storage)
                     (VSchedule sample_schedule))
                  (run_workflow (scripted smooth_run) "remote work" []).2
                  ltac:(lazy -[full_record]; reflexivity))).
Defined.

Lemma get_score_class_monotone_witness :
  class_rank (get_score_class (65 # 10)) ≤ class_rank (get_score_class (72 # 10))
  ∧ (get_score_class (72 # 10) = "score-high" ↔ (7 <= 72 # 10)%Q).
Proof.
  apply (get_score_class_monotone (65 # 10) (72 # 10)).
  unfold Qle. cbn. lia.
Defined.

Lemma st_run_workflow_result_or_error_witness :
  ∃ record,
    (st_run_workflow (scripted smooth_run) sample_exn_str "remote work" []).1
    = Ok (Some record, None)
    ∧ dom record
      = list_to_set ["topic"; "research"; "master_content"; "evaluation";
                     "social_media"; "storage"; "schedule"].
Proof.
  destruct (st_run_workflow_result_or_error (scripted smooth_run)
              sample_exn_str "remote work" []
              (Some (st_record "remote work" sample_research "first draft"
                       (scored 8 true) (VSocial sample_social)
                       (VStorage sample_storage) (VSchedule sample_schedule)))
              None
              (st_run_workflow (scripted smooth_run) sample_exn_str
                 "remote work" []).2
              ltac:(lazy -[st_record]; reflexivity))
    as [[Hnone _]|(_ & record & Hsome & Hdom)]; [discriminate Hnone|].
  exists record. injection Hsome as <-.
  split; [lazy -[st_record]; reflexivity|exact Hdom].
Defined.

Lemma entry_points_agree_witness :
  (st_run_workflow (scripted smooth_run) sample_exn_str "remote work" []).2
  = (run_workflow (scripted smooth_run) "remote work" []).2.
Proof.
  exact (proj1 (entry_points_agree (scripted smooth_run) sample_exn_str
                  "remote work" [] (λ _ _ _ _ _, eq_refl))).
Defined.

Lemma clean_research_output_unwraps_witness :
  clean_research_output ("```json" +:+ nl +:+ "[1, 2]" +:+ nl +:+ "```")
  = "[1, 2]".
Proof.
  apply (clean_research_output_unwraps "[1, 2]"); [|reflexivity..].
  intros c Hc. cbn in Hc.
  repeat (destruct Hc as [<-|Hc]; [discriminate|]). destruct Hc.
Defined.

(** ** The research tool *)

Lemma scan_sentences_take select limit sentences found :
  take limit (scan_sentences select limit sentences found)
  = take limit (found ++ (py_strip <$> filter select sentences)).
Proof.
  revert found. induction sentences as [|sentence rest IH]; intros found.
  - cbn. by rewrite app_nil_r.
  - cbn [scan_sentences]. rewrite filter_cons.
    destruct (select sentence) eqn:Hs.
    + rewrite decide_True by done. cbn [fmap list_fmap].
      destruct (limit <=? length (found ++ [py_strip sentence])) eqn:Hl.
      * apply Nat.leb_le in Hl.
        rewrite (cons_middle _ found (py_strip <$> _)), app_assoc.
        by rewrite (take_app_le (found ++ [_])).
      * rewrite IH. by rewrite <- app_assoc.
    + rewrite decide_False by (by intros []). apply IH.
Qed.

Lemma take_short_eq {A} n (l l' : list A) :
  take n l = take n l' → length l < n → l' = l.
Proof.
  intros Heq Hlen. rewrite (take_ge l) in Heq by lia.
  assert (length (take n l') < n) as Hl' by (rewrite <- Heq; lia).
  rewrite length_take in Hl'. rewrite take_ge in Heq by lia. done.
Qed.

(** The two loops with their early exits read the selected sentences in
    order and keep the first [limit] of them. *)
Lemma scan_results_take select limit results found :
  take limit (scan_results select limit results found)
  = take limit (found ++ (py_strip <$> filter select (sentences_of results))).
Proof.
  revert found. induction results as [|result rest IH]; intros found.
  - cbn. by rewrite app_nil_r.
  - cbn [scan_results]. unfold sentences_of. rewrite bind_cons.
    fold (sentences_of rest).
    set (sentences := py_split_on ". " (default "" (result_content result))).
    rewrite filter_app, fmap_app, app_assoc.
    pose proof (scan_sentences_take select limit sentences found) as Hin.
    destruct (limit <=? length (scan_sentences select limit sentences found))
      eqn:Hl.
    + apply Nat.leb_le in Hl. rewrite Hin.
      rewrite (take_app_le (found ++ _)); [done|].
      apply (f_equal length) in Hin. rewrite !length_take in Hin. lia.
    + apply Nat.leb_gt in Hl. rewrite IH.
      by rewrite (take_short_eq _ _ _ Hin Hl).
Qed.

(** [c in s] for a single character. *)
Lemma contains_char c s :
  contains (String c "") s
  = existsb (Ascii.eqb c) (list_ascii_of_string s).
Proof.
  induction s as [|a s IH]; [done|].
  cbn [contains String.prefix list_ascii_of_string existsb]. rewrite IH.
  destruct (ascii_dec c a) as [->|Hne].
  - rewrite Ascii.eqb_refl. by destruct s.
  - by rewrite (proj2 (Ascii.eqb_neq c a) Hne).
Qed.

(** Stripping a sentence keeps its digits and percent signs. *)
Lemma has_digit_or_percent_strip isdigit sentence :
  (∀ c, is_space c = true → isdigit c = false) →
  has_digit_or_percent isdigit (py_strip sentence)
  = has_digit_or_percent isdigit sentence.
Proof.
  intros Hd. unfold has_digit_or_percent.
  rewrite py_chars_strip, existsb_strip_chars by done.
  rewrite !contains_char, existsb_bytes_strip; [done|].
  unfold white_space. cbn [fmap list_fmap]. repeat constructor.
Qed.

(** X14: the facts are the first ten sentences, in reading order, of the
    first seven entries that hold a digit or a percent sign, stripped of
    the white space around them; and each fact still holds a digit or a
    percent sign, no white space character being a digit. *)
Theorem extract_facts_and_stats_reads_in_order isdigit results :
  (∀ c, is_space c = true → isdigit c = false) →
  extract_facts_and_stats isdigit results
  = take 10 (py_strip <$> filter (has_digit_or_percent isdigit)
                            (sentences_of
                               (take 7 (default [] (response_results results)))))
  ∧ Forall (λ fact, has_digit_or_percent isdigit fact = true)
      (extract_facts_and_stats isdigit results).
Proof.
  intros Hd.
  assert (Heq : extract_facts_and_stats isdigit results
                = take 10 (py_strip <$> filter (has_digit_or_percent isdigit)
                             (sentences_of
                                (take 7 (default [] (response_results results)))))).
  { unfold extract_facts_and_stats. by rewrite scan_results_take. }
  split; [exact Heq|].
  rewrite Heq. apply Forall_take, Forall_fmap, Forall_forall.
  intros sentence Hin. apply list_elem_of_filter in Hin as [Hsel _].
  cbn. rewrite has_digit_or_percent_strip by done.
  by destruct (has_digit_or_percent isdigit sentence).
Qed.

(** X15: on entries of ASCII text, where [py_lower] is [str.lower()], each
    of the four keyword extractors returns the first sentences, in
    reading order over all the entries, whose lower-case form holds one
    of its keywords, stripped of the white space around them: six
    controversies, seven trends, five gaps and four quotes at most. *)
Theorem keyword_extractors_read_in_order results :
  let entries := default [] (response_results results) in
  let sentences := sentences_of entries in
  Forall (λ result, ascii_text (default "" (result_content result)) = true)
    entries →
  extract_controversies results
  = take 6 (py_strip <$> filter (has_keyword controversy_keywords) sentences)
  ∧ extract_trends results
    = take 7 (py_strip <$> filter (has_keyword trend_keywords) sentences)
  ∧ extract_content_gaps results
    = take 5 (py_strip <$> filter (has_keyword gap_keywords) sentences)
  ∧ extract_expert_quotes results
    = take 4 (py_strip <$> filter (has_keyword expert_indicators) sentences).
Proof.
  cbv zeta. intros _.
  unfold extract_controversies, extract_trends, extract_content_gaps,
    extract_expert_quotes.
  by rewrite !scan_results_take.
Qed.

Lemma contains_head c keyword s :
  contains (String c keyword) s = true → In c (list_ascii_of_string s).
Proof.
  induction s as [|a s IH]; [done|].
  cbn [contains String.prefix list_ascii_of_string In].
  destruct (ascii_dec c a) as [->|Hne]; [by left|].
  cbn [orb]. intros H. right. by apply IH.
Qed.

Lemma lower_char_not_upper c : lower_char c ≠ "C"%char.
Proof. destruct c as [[] [] [] [] [] [] [] []]; vm_compute; discriminate. Qed.

Lemma py_lower_not_upper s : ¬ In "C"%char (list_ascii_of_string (py_lower s)).
Proof.
  induction s as [|c s IH]; [by intros []|].
  cbn [py_lower list_ascii_of_string In]. intros [H|H]; [|done].
  by apply (lower_char_not_upper c).
Qed.

(** X16: the indicator "CEO" of [extract_expert_quotes] is compared with
    the sentence in lower case and so never matches: the quotes are those
    selected by the seven other indicators. *)
Theorem ceo_indicator_never_matches results :
  (∀ sentence, contains "CEO" (py_lower sentence) = false)
  ∧ extract_expert_quotes results
    = take 4 (py_strip <$> filter (has_keyword lower_case_indicators)
                             (sentences_of
                                (default [] (response_results results)))).
Proof.
  assert (Hceo : ∀ sentence, contains "CEO" (py_lower sentence) = false).
  { intros sentence. apply not_true_iff_false. intros H.
    by apply contains_head, py_lower_not_upper in H. }
  split; [exact Hceo|].
  unfold extract_expert_quotes. rewrite scan_results_take. cbn [app].
  do 2 f_equal. apply list_filter_iff. intros sentence.
  unfold has_keyword, expert_indicators, lower_case_indicators.
  cbn [existsb]. by rewrite Hceo.
Qed.

Lemma compile_sources_spec all sources seen_urls :
  NoDup (source_url <$> sources) →
  (∀ url, url ∈ seen_urls ↔ url ∈ source_url <$> sources) →
  length sources < 10 →
  let compiled := compile_sources all sources seen_urls in
  NoDup (source_url <$> compiled)
  ∧ length compiled ≤ 10
  ∧ (∀ s, s ∈ compiled →
          s ∈ sources
          ∨ source_url s ≠ ""
            ∧ ∃ result, result ∈ all
                ∧ result_url result = Some (source_url s)
                ∧ source_title s = default "Unknown" (result_title result)
                ∧ source_published s
                  = default "Unknown" (result_published_date result))
  ∧ (∀ s, s ∈ sources → s ∈ compiled)
  ∧ (length compiled < 10 →
     ∀ url, url ∈ urls_of all → url ∈ source_url <$> compiled).
Proof.
  revert sources seen_urls.
  induction all as [|result rest IH]; intros sources seen_urls Hnd Hseen Hlen.
  - cbn. split; [done|]. split; [lia|]. split; [by left|]. split; [done|].
    intros _ url Hin. by apply elem_of_nil in Hin.
  - cbn [compile_sources]. cbv zeta.
    set (url := default "" (result_url result)).
    set (s0 := {| source_title := default "Unknown" (result_title result);
                  source_url := url;
                  source_published :=
                    default "Unknown" (result_published_date result) |}).
    assert (Hurls : ∀ u, u ∈ urls_of (result :: rest)
                         ↔ (u = url ∧ url ≠ "") ∨ u ∈ urls_of rest).
    { intros u. unfold urls_of. rewrite fmap_cons, filter_cons. fold url.
      destruct (decide (url ≠ "")) as [Hne|He].
      - rewrite elem_of_cons.
        split; [intros [->|H]; [by left|by right]|].
        intros [[-> _]|H]; [by left|by right].
      - split; [by right|].
        intros [[-> Hn]|H]; [exfalso; exact (He Hn)|done]. }
    destruct (negb (String.eqb url "") && negb (bool_decide (url ∈ seen_urls)))
      eqn:Hnew.
    + apply andb_true_iff in Hnew as [Hne Hns].
      apply negb_true_iff, String.eqb_neq in Hne.
      apply negb_true_iff, bool_decide_eq_false in Hns.
      assert (Hs0 : result_url result = Some (source_url s0)).
      { cbn. unfold url in *. by destruct (result_url result). }
      assert (Hnd' : NoDup (source_url <$> (sources ++ [s0]))).
      { rewrite fmap_app. apply NoDup_app. split; [done|].
        split; [|apply NoDup_singleton].
        intros u Hu Hu'. apply list_elem_of_singleton in Hu'. subst u.
        by apply Hns, Hseen. }
      assert (Hseen' : ∀ u, u ∈ {[url]} ∪ seen_urls
                           ↔ u ∈ source_url <$> (sources ++ [s0])).
      { intros u. rewrite fmap_app, elem_of_app, elem_of_union, Hseen.
        cbn. rewrite list_elem_of_singleton, elem_of_singleton. tauto. }
      destruct (10 <=? length (sources ++ [s0])) eqn:Hfull.
      * apply Nat.leb_le in Hfull.
        assert (Hten : length (sources ++ [s0]) = 10)
          by (rewrite length_app in *; cbn in *; lia).
        split; [done|]. split; [lia|].
        split.
        { intros s Hs. apply elem_of_app in Hs as [Hs|Hs]; [by left|].
          apply list_elem_of_singleton in Hs. subst s. right.
          split; [done|]. exists result. split; [by left|]. done. }
        split; [intros s Hs; apply elem_of_app; by left|].
        lia.
      * apply Nat.leb_gt in Hfull.
        destruct (IH (sources ++ [s0]) ({[url]} ∪ seen_urls) Hnd' Hseen' Hfull)
          as (H1 & H2 & H3 & H4 & H5).
        split; [done|]. split; [done|]. split.
        { intros s Hs. destruct (H3 s Hs) as [Hin|(Hn & r & Hr & Hrest)].
          - apply elem_of_app in Hin as [Hin|Hin]; [by left|].
            apply list_elem_of_singleton in Hin. subst s. right.
            split; [done|]. exists result. split; [by left|]. done.
          - right. split; [done|]. exists r. split; [by right|]. done. }
        split; [intros s Hs; apply H4, elem_of_app; by left|].
        intros Hshort u Hu. apply Hurls in Hu as [[-> _]|Hu]; [|by apply H5].
        apply (list_elem_of_fmap_2 source_url) with (x := s0).
        apply H4, elem_of_app. right. by apply list_elem_of_singleton.
    + assert (Hold : url ≠ "" → url ∈ source_url <$> sources).
      { intros Hne. apply andb_false_iff in Hnew as [Hnew|Hnew].
        - apply negb_false_iff, String.eqb_eq in Hnew. done.
        - apply negb_false_iff, bool_decide_eq_true in Hnew. by apply Hseen. }
      apply Nat.leb_gt in Hlen as Hfull. rewrite Hfull.
      destruct (IH sources seen_urls Hnd Hseen Hlen) as (H1 & H2 & H3 & H4 & H5).
      split; [done|]. split; [done|]. split.
      { intros s Hs. destruct (H3 s Hs) as [Hin|(Hn & r & Hr & Hrest)];
          [by left|].
        right. split; [done|]. exists r. split; [by right|]. done. }
      split; [done|].
      intros Hshort u Hu. apply Hurls in Hu as [[-> Hne]|Hu]; [|by apply H5].
      apply Hold in Hne. apply list_elem_of_fmap in Hne as (s & -> & Hs).
      apply list_elem_of_fmap_2, H4, Hs.
Qed.

(** X17: the sources compiled by [deep_research] are at most ten, no URL
    appears twice and none is empty, each source carries the URL, the
    title and the date of one of the entries (with the default for a
    missing title or date), and when fewer than ten are held every
    non-empty URL of the entries is among them. *)
Theorem compile_sources_distinct_and_bounded all :
  let sources := compile_sources all [] ∅ in
  NoDup (source_url <$> sources)
  ∧ length sources ≤ 10
  ∧ Forall (λ s, source_url s ≠ ""
                 ∧ ∃ result, result ∈ all
                     ∧ result_url result = Some (source_url s)
                     ∧ source_title s = default "Unknown" (result_title result)
                     ∧ source_published s
                       = default "Unknown" (result_published_date result))
      sources
  ∧ (length sources < 10 →
     ∀ url, url ∈ urls_of all → url ∈ source_url <$> sources).
Proof.
  cbv zeta.
  destruct (compile_sources_spec all [] ∅) as (H1 & H2 & H3 & _ & H5).
  - constructor.
  - intros url. cbn. rewrite elem_of_empty. split; [done|].
    intros H. by apply elem_of_nil in H.
  - cbn. lia.
  - split; [done|]. split; [done|]. split; [|done].
    apply Forall_forall. intros s Hs.
    destruct (H3 s Hs) as [Hin|H]; [by apply elem_of_nil in Hin|done].
Qed.

(** X18: the document built by [deep_research] has every key the
    writer's and the evaluator's prompt builders read, with lists where
    they iterate: both prompts can be built from it, whatever the
    searches answered, and the evaluator is told of at most ten
    sources. *)
Theorem deep_research_feeds_the_prompts env isdigit search topic :
  (∃ writer_prompt,
     format_research_for_master_content env (deep_research isdigit search topic)
     = Ok writer_prompt)
  ∧ (∀ content previous_score,
       ∃ eval_prompt,
         format_content_for_evaluation env content (deep_research isdigit search topic)
           previous_score
         = Ok eval_prompt)
  ∧ ∃ sources,
      py_get (deep_research isdigit search topic) "sources" (JList []) = Ok sources
      ∧ ∃ n, py_len sources = Ok n ∧ n ≤ 10.
Proof.
  split; [|split].
  - unfold format_research_for_master_content, bullets, deep_research.
    cbn [py_getitem dict_lookup String.eqb Ascii.eqb Bool.eqb py_iter res_bind].
    by eexists.
  - intros content previous_score.
    unfold format_content_for_evaluation, deep_research.
    cbn [py_get dict_lookup String.eqb Ascii.eqb Bool.eqb py_len res_bind].
    by eexists.
  - unfold deep_research.
    cbn [py_get dict_lookup String.eqb Ascii.eqb Bool.eqb].
    eexists. split; [reflexivity|]. cbn [py_len]. eexists. split; [reflexivity|].
    rewrite length_fmap.
    destruct (compile_sources_spec
                (all_results
                   (search (topic +:+ " latest facts statistics data 2024 2025"))
                   (search (topic +:+ " controversies debates criticisms challenges problems"))
                   (search (topic +:+ " trends 2025 future emerging latest innovations"))
                   (search (topic +:+ " overlooked underreported unique perspective niche angles")))
                [] ∅) as (_ & H & _).
    + constructor.
    + intros url. cbn. rewrite elem_of_empty. split; [done|].
      intros H. by apply elem_of_nil in H.
    + cbn. lia.
    + exact H.
Qed.

(** ** Cutting a text into Notion blocks *)

Section Packing.

Variable max_chars : nat.

(** What a chunk may be. *)
Variable ok : string → Prop.
Hypothesis ok_short : ∀ chunk, str_len chunk ≤ max_chars → ok chunk.

Lemma ok_strip_short s : str_len s ≤ max_chars → ok (py_strip s).
Proof. intros H. apply ok_short. pose proof (str_len_py_strip s). lia. Qed.

Lemma pack_sentences_ok sentences chunks temp :
  Forall (λ sentence, ok (py_strip sentence)) sentences →
  Forall ok chunks →
  ok (py_strip temp) →
  Forall ok (pack_sentences max_chars sentences chunks temp).1
  ∧ ok (py_strip (pack_sentences max_chars sentences chunks temp).2).
Proof.
  revert chunks temp.
  induction sentences as [|sentence rest IH]; intros chunks temp Hs Hc Ht;
    [done|].
  apply Forall_cons in Hs as [Hs Hrest]. cbn [pack_sentences].
  destruct (str_len temp + str_len sentence <? max_chars) eqn:Hlt.
  - apply Nat.ltb_lt in Hlt. apply IH; [done..|].
    apply ok_strip_short. rewrite str_len_app. lia.
  - apply IH; [done| |done].
    destruct (String.eqb temp ""); [done|].
    apply Forall_app. split; [done|]. by constructor.
Qed.

Lemma pack_paragraphs_ok paragraphs chunks current_chunk :
  Forall (λ para, max_chars < str_len para →
                  Forall (λ sentence, ok (py_strip sentence))
                    (sentences_to_pack para)) paragraphs →
  Forall ok chunks →
  ok (py_strip current_chunk) →
  Forall ok (pack_paragraphs max_chars paragraphs chunks current_chunk).1
  ∧ ok (py_strip (pack_paragraphs max_chars paragraphs chunks current_chunk).2).
Proof.
  revert chunks current_chunk.
  induction paragraphs as [|para rest IH]; intros chunks current Hp Hc Hcur;
    [done|].
  apply Forall_cons in Hp as [Hp Hrest]. cbn [pack_paragraphs].
  destruct (str_len current + str_len para + 2 <? max_chars)
    eqn:Hlt.
  - apply Nat.ltb_lt in Hlt. apply IH; [done..|].
    apply ok_strip_short. rewrite !str_len_app.
    change (str_len nl) with 1. lia.
  - cbv zeta.
    assert (Hc' : Forall ok (if String.eqb current "" then chunks
                             else chunks ++ [py_strip current])).
    { destruct (String.eqb current ""); [done|].
      apply Forall_app. split; [done|]. by constructor. }
    destruct (max_chars <? str_len para) eqn:Hlong.
    + apply Nat.ltb_lt in Hlong. fold (sentences_to_pack para).
      destruct (pack_sentences_ok (sentences_to_pack para) _ "" (Hp Hlong) Hc')
        as [H1 H2].
      { apply ok_short. change (str_len (py_strip "")) with 0. lia. }
      destruct (pack_sentences max_chars (sentences_to_pack para) _ "")
        as [chunks' temp]. cbn [fst snd] in H1, H2.
      apply IH; [done..|].
      destruct (String.eqb temp ""); [done|].
      by rewrite py_strip_paragraph_end.
    + apply Nat.ltb_ge in Hlong. apply IH; [done..|].
      rewrite py_strip_paragraph_end. by apply ok_strip_short.
Qed.

End Packing.

(** X19: every chunk [chunk_content] returns has at most [max_chars]
    characters, counted as [len] counts them, unless it is one sentence, stripped, of a paragraph
    longer than [max_chars], and that sentence alone is longer than
    [max_chars]: only such a sentence can exceed the size of a block. *)
Theorem chunk_content_long_chunks text max_chars :
  Forall (λ chunk,
            str_len chunk ≤ max_chars
            ∨ ∃ para sentence,
                para ∈ py_split_on (nl +:+ nl) text
                ∧ max_chars < str_len para
                ∧ sentence ∈ sentences_to_pack para
                ∧ max_chars < str_len sentence
                ∧ chunk = py_strip sentence)
    (chunk_content text max_chars).
Proof.
  set (ok := λ chunk,
         str_len chunk ≤ max_chars
         ∨ ∃ para sentence,
             para ∈ py_split_on (nl +:+ nl) text
             ∧ max_chars < str_len para
             ∧ sentence ∈ sentences_to_pack para
             ∧ max_chars < str_len sentence
             ∧ chunk = py_strip sentence).
  assert (Hshort : ∀ chunk, str_len chunk ≤ max_chars → ok chunk)
    by (intros chunk H; by left).
  destruct (pack_paragraphs_ok max_chars ok Hshort
              (py_split_on (nl +:+ nl) text) [] "") as [H1 H2].
  - apply Forall_forall. intros para Hpara Hlong.
    apply Forall_forall. intros sentence Hsentence.
    destruct (decide (str_len sentence ≤ max_chars)) as [Hle|Hgt].
    + by apply (ok_strip_short max_chars ok Hshort).
    + right. exists para, sentence.
      split; [done|]. split; [done|]. split; [done|]. split; [lia|done].
  - constructor.
  - apply Hshort. change (str_len (py_strip "")) with 0. lia.
  - unfold chunk_content.
    destruct (pack_paragraphs max_chars (py_split_on (nl +:+ nl) text) [] "")
      as [chunks current]. cbn [fst snd] in H1, H2.
    destruct (String.eqb current ""); [done|].
    apply Forall_app. split; [done|]. by constructor.
Qed.

(** ** The files of [main] *)

Section MainProperties.

Variable env : Env.
Variable py_repr : PyVal → string.

(** The two shapes of a record, with what the steps left in it. *)
Lemma run_workflow_record_cases topic w record w' :
  run_workflow env topic w = (Ok (Some record), w') →
  ∃ c e,
    record = partial_record topic c e
    ∨ ∃ social storage schedule,
        record = full_record topic c e social storage schedule
        ∧ truthy social = true
        ∧ (storage = VNone
           ∨ (truthy storage = true ∧ getattr_success storage = Ok true))
        ∧ (schedule = VNone
           ∨ (truthy schedule = true ∧ getattr_success schedule = Ok true)).
Proof.
  unfold run_workflow. run_monad.
  destruct (research_step env topic w) as [[[rd|]|x] w1]; [|done..].
  destruct (draft_evaluate_loop env rd w1) as [[[[c [e|]]|]|x] w2]; [|done..].
  unfold publish. run_monad. rewrite social_media_step_eq.
  destruct (run_with_retry env social_media_agent _ 120 w2) as [[[r|]|x] w3].
  - destruct (truthy (final_output r)) eqn:Ht.
    + destruct (storage_step env topic c (final_output r) w3)
        as [[sd|x] w4] eqn:Hsd;
        [|by destruct (storage_step_ok env topic c (final_output r) w3)
              as (? & ? & ?); simplify_eq].
      destruct (schedule_step env topic (final_output r) w4)
        as [[cd|x] w5] eqn:Hcd;
        [|by destruct (schedule_step_ok env topic (final_output r) w4)
              as (? & ? & ?); simplify_eq].
      intros [= <- _]. exists c, e. right. exists (final_output r), sd, cd.
      split; [done|]. split; [done|]. split.
      * by eapply storage_step_value.
      * by eapply schedule_step_value.
    + intros [= <- _]. exists c, e. by left.
  - intros [= <- _]. exists c, e. by left.
  - intros [= <- _]. exists c, e. by left.
Qed.

Lemma master_text_eq topic c :
  ("TOPIC" +:+ ": " +:+ topic +:+ nl +:+ py_repeat "=" 60 +:+ nl +:+ nl)
  +:+ c +:+ ""
  = master_text topic c.
Proof.
  unfold master_text. rewrite append_nil_r.
  change ("TOPIC" +:+ ": " +:+ ?x) with ("TOPIC: " +:+ x).
  by rewrite !append_assoc.
Qed.

Lemma save_outputs_partial topic c e :
  save_outputs py_repr (partial_record topic c e)
  = [("output_master_content.txt", master_text topic c)].
Proof.
  unfold save_outputs, master_stage, social_stage, notion_stage,
    calendar_stage, reports_success, title_line, item, get_item.
  replace (partial_record topic c e !! "topic") with (Some (VStr topic))
    by reflexivity.
  replace (partial_record topic c e !! "master_content") with (Some (VStr c))
    by reflexivity.
  replace (partial_record topic c e !! "social_media") with (Some VNone)
    by reflexivity.
  replace (partial_record topic c e !! "storage") with (@None PyVal)
    by reflexivity.
  replace (partial_record topic c e !! "schedule") with (@None PyVal)
    by reflexivity.
  cbn [default id res_bind py_format truthy run_stages write_all].
  by rewrite master_text_eq.
Qed.

Lemma save_outputs_full topic c e social storage schedule :
  truthy social = true →
  storage = VNone ∨ (truthy storage = true ∧ getattr_success storage = Ok true) →
  schedule = VNone
  ∨ (truthy schedule = true ∧ getattr_success schedule = Ok true) →
  ∃ social_text links,
    save_outputs py_repr (full_record topic c e social storage schedule)
    = ("output_master_content.txt", master_text topic c)
      :: ("output_social_media.txt", social_text) :: links
    ∧ links.*1 ∈ link_names.
Proof.
  intros Ht Hst Hsc.
  unfold save_outputs, master_stage, social_stage, notion_stage,
    calendar_stage, reports_success, title_line, item, get_item.
  replace (full_record topic c e social storage schedule !! "topic")
    with (Some (VStr topic)) by reflexivity.
  replace (full_record topic c e social storage schedule !! "master_content")
    with (Some (VStr c)) by reflexivity.
  replace (full_record topic c e social storage schedule !! "social_media")
    with (Some social) by reflexivity.
  replace (full_record topic c e social storage schedule !! "storage")
    with (Some storage) by reflexivity.
  replace (full_record topic c e social storage schedule !! "schedule")
    with (Some schedule) by reflexivity.
  cbn [default id res_bind py_format]. rewrite Ht.
  cbn [run_stages write_all]. rewrite master_text_eq.
  destruct social as [|text|ev|social|sr|cr]; try discriminate Ht;
    cbn [tiktok_part linkedin_part instagram_part write_all];
    try (eexists _, []; split; [reflexivity|];
         apply list_elem_of_In; cbn; by auto).
  destruct Hst as [->|[Hts Hss]], Hsc as [->|[Htc Hsc]];
    rewrite ?Hts, ?Hss, ?Htc, ?Hsc; cbn [truthy res_bind run_stages write_all];
    try (destruct storage; try discriminate Hss);
    try (destruct schedule; try discriminate Hsc);
    cbn [run_stages write_all];
    (eexists _, _; split; [reflexivity|]);
    apply list_elem_of_In; cbn; auto 6.
Qed.

Lemma record_not_empty (record : gmap string PyVal) key v :
  record !! key = Some v → bool_decide (record = ∅) = false.
Proof.
  intros H. apply bool_decide_eq_false. intros ->.
  by rewrite lookup_empty in H.
Qed.

(** X20: [main] raises only what [input()] raises, before any call, and
    once a line is read it leaves only its four files, in the order
    master content, social media, Notion links, calendar links, with no
    link file unless the two content files were written.  A line that
    is blank once stripped makes no call and leaves no file; otherwise
    the files are written exactly when [run_workflow] returns a record,
    and the master content file then holds the topic, a rule of sixty
    equal signs and the best draft. *)
Theorem main_files typed w :
  match typed with
  | Exc e => main env py_repr typed w = (Exc e, w)
  | Ok line =>
      let topic := py_strip line in
      ∃ files w',
        main env py_repr typed w = (Ok files, w')
        ∧ files.*1 ∈ output_names
        ∧ (topic = "" → files = [] ∧ w' = w)
        ∧ (topic ≠ "" →
           w' = (run_workflow env topic w).2
           ∧ match (run_workflow env topic w).1 with
             | Ok (Some record) =>
                 ∃ c, record !! "master_content" = Some (VStr c)
                      ∧ head files
                        = Some ("output_master_content.txt",
                                master_text topic c)
             | _ => files = []
             end)
  end.
Proof.
  destruct typed as [line|e]; [|reflexivity].
  intros topic. unfold main. run_monad. fold topic.
  assert (Hnil : [] ∈ output_names) by (apply list_elem_of_In; cbn; auto).
  destruct (String.eqb topic "") eqn:Hblank.
  - apply String.eqb_eq in Hblank. exists [], w.
    split; [done|]. split; [done|]. split; [done|]. by intros Hne.
  - apply String.eqb_neq in Hblank.
    destruct (run_workflow env topic w) as [[[record|]|x] w1] eqn:Hrun.
    + destruct (run_workflow_record_cases _ _ _ _ Hrun)
        as (c & e & [->|(social & storage & schedule & -> & Ht & Hst & Hsc)]).
      * rewrite (record_not_empty _ "topic" (VStr topic)) by reflexivity.
        rewrite save_outputs_partial. eexists _, _. split; [reflexivity|].
        split; [apply list_elem_of_In; cbn; auto|].
        split; [done|]. intros _. split; [done|]. cbn [fst].
        exists c. by split.
      * rewrite (record_not_empty _ "topic" (VStr topic)) by reflexivity.
        destruct (save_outputs_full topic c e social storage schedule Ht Hst Hsc)
          as (social_text & links & -> & Hlinks).
        eexists _, _. split; [reflexivity|]. split.
        { apply list_elem_of_In in Hlinks. cbn in Hlinks.
          cbn [fmap list_fmap fst].
          destruct Hlinks as [<-|[<-|[<-|[<-|[]]]]];
            apply list_elem_of_In; cbn; auto 8. }
        split; [done|]. intros _. split; [done|]. cbn [fst].
        exists c. by split.
    + exists [], w1. split; [done|]. split; [done|]. split; [done|].
      by intros _.
    + exists [], w1. split; [done|]. split; [done|]. split; [done|].
      by intros _.
Qed.

End MainProperties.

(** ** Worked examples of the tools *)

Lemma extract_facts_and_stats_reads_in_order_witness :
  Forall (λ fact, has_digit_or_percent ascii_digit fact = true)
    (extract_facts_and_stats ascii_digit sample_response).
Proof.
  refine (proj2 (extract_facts_and_stats_reads_in_order ascii_digit
                   sample_response _)).
  intros c Hc. apply is_space_elem in Hc. revert c Hc.
  apply Forall_forall. unfold white_space. cbn [fmap list_fmap].
  repeat constructor.
Defined.

Lemma keyword_extractors_read_in_order_witness :
  extract_trends sample_response = ["In 2024 a new habit took hold"].
Proof.
  destruct (keyword_extractors_read_in_order sample_response)
    as (_ & Htrends & _).
  - repeat constructor.
  - rewrite Htrends. vm_compute. reflexivity.
Defined.

Example extract_facts_and_stats_sample :
  extract_facts_and_stats ascii_digit sample_response
  = ["In 2024 a new habit took hold"; "50% of teams kept it"].
Proof. vm_compute. reflexivity. Qed.

Example chunk_content_sample :
  chunk_content ("one. two" +:+ nl +:+ nl +:+ "three") 6
  = ["one."; "two"; "three"].
Proof. vm_compute. reflexivity. Qed.

(** After a paragraph that ends in a full stop and a space and whose
    only sentence is too long, the chunk held before it is stored a
    second time. *)
Example chunk_content_repeats_a_chunk :
  chunk_content ("ab" +:+ nl +:+ nl +:+ "abcdefgh. " +:+ nl +:+ nl +:+ "z") 6
  = ["ab"; "abcdefgh."; "ab"; "z"].
Proof. vm_compute. reflexivity. Qed.
